(** * ClawRouter routing core: a shallow embedding and its properties

    The development follows the TypeScript sources of the router:

    - [src/router/request-fingerprint.ts]  (module [Fingerprint])
    - [src/router/rules.ts]                (module [Rules])
    - [src/router/score-cache.ts]          (module [ScoreCache])
    - [src/session.ts]                     (module [Session])
    - [src/router/index.ts]                (module [Router])
    - [src/model-health.ts], whose text is the second part of
      [docs/weight-scoring.md]             (module [ModelHealth])

    Conventions of the embedding.

    - A JavaScript string is the list of its UTF-16 code units ([jsstring]).
    - Integer quantities (lengths, token counts, timestamps, sizes) are [Z]
      or [nat]; scores, weights, boundaries and confidences are real numbers
      ([R]), so that the sigmoid is the real sigmoid.  IEEE rounding is
      outside the model, and so are NaN and infinite scores.
    - A number that is stored without being validated and then compared
      with a size, a length or a clock reading (the [maxSize] and the
      [jitterThreshold] of the score cache, the numbers of a health
      configuration and the [cooldownUntil] of a health record) is a
      [jsnumber]: a rational, an infinity or NaN.
    - [Date.now()] and [Math.random()] are inputs of the operations that read
      them.
    - Module-level and singleton state (the score history, the score cache,
      the session map) is threaded explicitly: an operation takes the state
      and returns the new state next to its result.
    - Built-ins whose full Unicode tables are not reproduced
      ([String.prototype.toLowerCase], [Number.prototype.toFixed]) are the
      fields of the class [Builtins]. *)

From Stdlib Require Import List Bool Arith ZArith NArith Lia.
From Stdlib Require Import String Ascii DecimalString.
From Stdlib Require Import QArith Qround.
From Stdlib Require Import Reals Lra.
From Stdlib Require Import Permutation.
From Stdlib Require Import Sorted.
Import ListNotations.

Set Implicit Arguments.

(* ================================================================== *)
(** * JavaScript strings *)
(* ================================================================== *)

Module JS.

(** A string is its sequence of UTF-16 code units. *)
Definition jsstring := list N.

(** ASCII literals of the sources. *)
Definition js (s : string) : jsstring :=
  map N_of_ascii (list_ascii_of_string s).

Fixpoint str_eqb (a b : jsstring) : bool :=
  match a, b with
  | [], [] => true
  | x :: a', y :: b' => N.eqb x y && str_eqb a' b'
  | _, _ => false
  end.

(** [s.length] *)
Definition len (s : jsstring) : Z := Z.of_nat (List.length s).

Fixpoint startsWith (pat s : jsstring) : bool :=
  match pat, s with
  | [], _ => true
  | p :: pat', c :: s' => N.eqb p c && startsWith pat' s'
  | _ :: _, [] => false
  end.

(** [s.includes(pat)] *)
Fixpoint includes (s pat : jsstring) : bool :=
  startsWith pat s ||
  match s with
  | [] => false
  | _ :: s' => includes s' pat
  end.

(** [s.split(sep)] for a one-unit separator. *)
Fixpoint split (sep : N) (s : jsstring) : list jsstring :=
  match s with
  | [] => [[]]
  | c :: s' =>
      if N.eqb c sep then [] :: split sep s'
      else match split sep s' with
           | h :: t => (c :: h) :: t
           | [] => [[c]]
           end
  end.

(** [l.join(sep)] *)
Fixpoint join (sep : jsstring) (l : list jsstring) : jsstring :=
  match l with
  | [] => []
  | [x] => x
  | x :: t => x ++ sep ++ join sep t
  end.

(** [s.slice(0, n)] and [s.slice(-n)] for [n > 0]. *)
Definition slice_to (n : nat) (s : jsstring) : jsstring := firstn n s.
Definition slice_last (n : nat) (s : jsstring) : jsstring :=
  skipn (List.length s - n) s.

(** Code-unit order, the order of the default [Array.prototype.sort]. *)
Fixpoint str_leb (a b : jsstring) : bool :=
  match a, b with
  | [], _ => true
  | _ :: _, [] => false
  | x :: a', y :: b' =>
      if N.ltb x y then true
      else if N.ltb y x then false
      else str_leb a' b'
  end.

Fixpoint insert_sorted (x : jsstring) (l : list jsstring) : list jsstring :=
  match l with
  | [] => [x]
  | y :: t => if str_leb x y then x :: l else y :: insert_sorted x t
  end.

(** [l.sort()] on an array of strings. *)
Definition sort (l : list jsstring) : list jsstring :=
  fold_right insert_sorted [] l.

Definition in_range (lo hi c : N) : bool := N.leb lo c && N.leb c hi.

(** The class [\s] (WhiteSpace and LineTerminator of ECMAScript), also the
    units removed by [trim]. *)
Definition isSpace (c : N) : bool :=
  in_range 9 13 c || N.eqb c 32 || N.eqb c 160 || N.eqb c 5760 ||
  in_range 8192 8202 c || N.eqb c 8232 || N.eqb c 8233 || N.eqb c 8239 ||
  N.eqb c 8287 || N.eqb c 12288 || N.eqb c 65279.

(** The class [\d]. *)
Definition isDigit (c : N) : bool := in_range 48 57 c.

(** The class [\w]. *)
Definition isWord (c : N) : bool :=
  in_range 65 90 c || in_range 97 122 c || isDigit c || N.eqb c 95.

(** The class [.] (no [s] flag): anything but a line terminator. *)
Definition isDot (c : N) : bool :=
  negb (N.eqb c 10 || N.eqb c 13 || N.eqb c 8232 || N.eqb c 8233).

Fixpoint dropWhile (p : N -> bool) (s : jsstring) : jsstring :=
  match s with
  | [] => []
  | c :: s' => if p c then dropWhile p s' else s
  end.

(** [s.trim()] *)
Definition trim (s : jsstring) : jsstring :=
  rev (dropWhile isSpace (rev (dropWhile isSpace s))).

(** [s.replace(/[class]+/g, rep)]: every maximal run of units of the class
    becomes one copy of [rep]. *)
Fixpoint replace_runs_from (p : N -> bool) (rep : jsstring) (inRun : bool)
  (s : jsstring) : jsstring :=
  match s with
  | [] => []
  | c :: s' =>
      if p c then
        (if inRun then [] else rep) ++ replace_runs_from p rep true s'
      else c :: replace_runs_from p rep false s'
  end.
Definition replace_runs (p : N -> bool) (rep s : jsstring) : jsstring :=
  replace_runs_from p rep false s.

(** ASCII part of [toLowerCase], the instance used on ASCII inputs. *)
Definition ascii_lower_unit (c : N) : N :=
  if in_range 65 90 c then (c + 32)%N else c.
Definition ascii_toLowerCase (s : jsstring) : jsstring :=
  map ascii_lower_unit s.

(** Template-literal rendering of an integer. *)
Definition of_Z (z : Z) : jsstring := js (NilZero.string_of_int (Z.to_int z)).
Definition of_nat (n : nat) : jsstring := of_Z (Z.of_nat n).

(** A number that the code keeps as it is handed over, without validating
    it: a finite value (every finite double is a rational), an infinity or
    NaN. *)
Inductive jsnumber : Type :=
| Finite : Q -> jsnumber
| PosInfinity : jsnumber
| NegInfinity : jsnumber
| NaN : jsnumber.

(** [n >= x] for an integer [n]: a comparison with NaN is false. *)
Definition int_ge (n : Z) (x : jsnumber) : bool :=
  match x with
  | Finite q => Qle_bool q (inject_Z n)
  | NegInfinity => true
  | PosInfinity | NaN => false
  end.

(** [n > x] for an integer [n]. *)
Definition int_gt (n : Z) (x : jsnumber) : bool :=
  match x with
  | Finite q => negb (Qle_bool (inject_Z n) q)
  | NegInfinity => true
  | PosInfinity | NaN => false
  end.

(** [-x] *)
Definition neg (x : jsnumber) : jsnumber :=
  match x with
  | Finite q => Finite (- q)
  | PosInfinity => NegInfinity
  | NegInfinity => PosInfinity
  | NaN => NaN
  end.

End JS.

(* ================================================================== *)
(** * Regular expressions used by [RegExp.prototype.test] *)
(* ================================================================== *)

Module Regex.
Import JS.

(** The fragment of ECMAScript patterns that occurs in the sources.  Greedy
    and lazy quantifiers accept the same strings, so [*] and [*?] are both
    [Star]. *)
Inductive regex : Type :=
| Eps : regex
| Class : (N -> bool) -> regex           (* one unit of a class *)
| Seq : regex -> regex -> regex
| Alt : regex -> regex -> regex
| Star : regex -> regex                  (* r*  and r*? *)
| Repeat : nat -> nat -> regex -> regex  (* r{lo,hi} *)
| WordB : regex.                         (* \b *)

Definition Plus (r : regex) : regex := Seq r (Star r).
Definition Chr (c : N) : regex := Class (N.eqb c).

(** A literal; with [ci] set, ASCII letters match in both cases (flag [i]). *)
Definition ci_unit (c x : N) : bool :=
  N.eqb (ascii_lower_unit c) (ascii_lower_unit x).
Fixpoint Lit (ci : bool) (s : jsstring) : regex :=
  match s with
  | [] => Eps
  | c :: s' => Seq (Class (if ci then ci_unit c else N.eqb c)) (Lit ci s')
  end.

Definition isWordOpt (c : option N) : bool :=
  match c with Some x => isWord x | None => false end.

(** Backtracking matcher in continuation-passing style.  [prev] is the unit
    before the current position (for [\b]); the continuation receives the
    position reached.  An iteration of [Star] that consumes nothing is
    rejected, as in ECMAScript. *)
Fixpoint rmatch (r : regex) (prev : option N) (s : jsstring)
  (k : option N -> jsstring -> bool) {struct r} : bool :=
  match r with
  | Eps => k prev s
  | Class p =>
      match s with
      | c :: s' => p c && k (Some c) s'
      | [] => false
      end
  | Seq a b => rmatch a prev s (fun p' s' => rmatch b p' s' k)
  | Alt a b => rmatch a prev s k || rmatch b prev s k
  | Star a =>
      (fix loop (fuel : nat) (prev : option N) (s : jsstring) : bool :=
         k prev s ||
         match fuel with
         | O => false
         | S fuel' =>
             rmatch a prev s
               (fun p' s' =>
                  if Nat.ltb (List.length s') (List.length s)
                  then loop fuel' p' s' else false)
         end) (List.length s) prev s
  | Repeat lo hi a =>
      let opt :=
        fix opt (extra : nat) (prev : option N) (s : jsstring) : bool :=
          k prev s ||
          match extra with
          | O => false
          | S e' => rmatch a prev s (fun p' s' => opt e' p' s')
          end in
      (fix req (n : nat) (prev : option N) (s : jsstring) : bool :=
         match n with
         | O => opt (hi - lo)%nat prev s
         | S n' => rmatch a prev s (fun p' s' => req n' p' s')
         end) lo prev s
  | WordB =>
      if xorb (isWordOpt prev) (isWordOpt (hd_error s)) then k prev s
      else false
  end.

Fixpoint search_from (r : regex) (prev : option N) (s : jsstring) : bool :=
  rmatch r prev s (fun _ _ => true) ||
  match s with
  | [] => false
  | c :: s' => search_from r (Some c) s'
  end.

(** [r.test(s)] for a pattern without the [g] flag. *)
Definition test (r : regex) (s : jsstring) : bool := search_from r None s.

(** [(s.match(/[class]/g) || []).length] *)
Definition count_class (p : N -> bool) (s : jsstring) : nat :=
  List.length (filter p s).

End Regex.


(* ================================================================== *)
(** * Built-ins taken as parameters *)
(* ================================================================== *)

(** [String.prototype.toLowerCase] follows the Unicode case tables; the
    development is parametric in it.  [asciiBuiltins] is the instance that
    agrees with it on strings whose cased letters are all ASCII. *)
Class Builtins : Type := {
  toLowerCase : JS.jsstring -> JS.jsstring
}.

Definition asciiBuiltins : Builtins :=
  {| toLowerCase := JS.ascii_toLowerCase |}.

(* ================================================================== *)
(** * request-fingerprint.ts *)
(* ================================================================== *)

Module Fingerprint.
Import JS Regex.

Definition anyUnit : regex := Class (fun _ => true).
Definition oneOf (l : list N) : N -> bool := fun c => existsb (N.eqb c) l.

(** The ten numerals of the class [一二三四五六七八九十\d]. *)
Definition isCjkNumeral (c : N) : bool :=
  oneOf [19968; 20108; 19977; 22235; 20116; 20845; 19971; 20843; 20061; 21313]%N c
  || isDigit c.

(** [codePatterns] of [extractFeatures]. *)
Definition codePatterns : list regex :=
  [ (* /\bfunction\b|\bdef\s+\w+|\bclass\s+\w+/ *)
    Alt (Seq WordB (Seq (Lit false (js "function")) WordB))
      (Alt (Seq WordB (Seq (Lit false (js "def"))
                         (Seq (Plus (Class isSpace)) (Plus (Class isWord)))))
           (Seq WordB (Seq (Lit false (js "class"))
                         (Seq (Plus (Class isSpace)) (Plus (Class isWord))))));
    (* /\{[\s\S]*?\}/ *)
    Seq (Chr 123) (Seq (Star anyUnit) (Chr 125));
    (* /\[[\s\S]*?\]/ *)
    Seq (Chr 91) (Seq (Star anyUnit) (Chr 93));
    (* /<[\s\S]*?>/ *)
    Seq (Chr 60) (Seq (Star anyUnit) (Chr 62));
    (* /```[\s\S]*?```/ *)
    Seq (Lit false [96; 96; 96]%N) (Seq (Star anyUnit) (Lit false [96; 96; 96]%N));
    (* /`[^`]+`/ *)
    Seq (Chr 96) (Seq (Plus (Class (fun c => negb (N.eqb c 96)))) (Chr 96)) ].

(** ['step', 'prove', 'explain', 'why', 'how', '分析', '证明', '解释', '步骤'] *)
Definition reasoningWords : list jsstring :=
  [ js "step"; js "prove"; js "explain"; js "why"; js "how";
    [20998; 26512]%N; [35777; 26126]%N; [35299; 37322]%N; [27493; 39588]%N ].

(** [multiStepPatterns] of [extractFeatures]. *)
Definition multiStepPatterns : list regex :=
  [ (* /\d+\s*[.\)．]/ *)
    Seq (Plus (Class isDigit))
        (Seq (Star (Class isSpace)) (Class (oneOf [46; 41; 65294]%N)));
    (* /\bstep\s+\d+/i *)
    Seq WordB (Seq (Lit true (js "step"))
                 (Seq (Plus (Class isSpace)) (Plus (Class isDigit))));
    (* /第[一二三四五六七八九十\d]+步/ *)
    Seq (Chr 31532) (Seq (Plus (Class isCjkNumeral)) (Chr 27493));
    (* /步骤/ *)
    Lit false [27493; 39588]%N ].

(** [Math.ceil(n / 4)] for a length [n]. *)
Definition ceil_div4 (n : Z) : Z := ((n + 3) / 4)%Z.

Section WithBuiltins.
Context {B : Builtins}.

Definition extractFeatures (text : jsstring) : list jsstring :=
  let lower := toLowerCase text in
  let f1 := if existsb (fun p => test p text) codePatterns
            then [js "CODE"] else [] in
  let f2 := if existsb (fun w => includes lower w) reasoningWords
            then [js "REASONING"] else [] in
  let f3 := if existsb (fun p => test p text) multiStepPatterns
            then [js "MULTISTEP"] else [] in
  (* text.match(/\?|？/g) *)
  let questionCount := count_class (oneOf [63; 65311]%N) text in
  let f4 := if Nat.ltb 0 questionCount
            then [js "Q" ++ of_nat (Nat.min questionCount 3)] else [] in
  let tokenEstimate := ceil_div4 (len text) in
  let f5 := if (tokenEstimate <? 50)%Z then [js "SHORT"]
            else if (tokenEstimate <? 200)%Z then [js "MEDIUM"]
            else if (tokenEstimate <? 1000)%Z then [js "LONG"]
            else [js "XLONG"] in
  f1 ++ f2 ++ f3 ++ f4 ++ f5.

(** The replacement function of the [chinesePunct] step: [map[match] || ' '].
    The quote entries of the table map a quote to itself. *)
Definition chinesePunctMap (c : N) : N :=
  if N.eqb c 65292 then 44        (* ， -> , *)
  else if N.eqb c 12290 then 46   (* 。 -> . *)
  else if N.eqb c 65281 then 33   (* ！ -> ! *)
  else if N.eqb c 65311 then 63   (* ？ -> ? *)
  else if N.eqb c 65307 then 59   (* ； -> ; *)
  else if N.eqb c 65306 then 58   (* ： -> : *)
  else if N.eqb c 34 then 34
  else if N.eqb c 39 then 39
  else if N.eqb c 65288 then 40   (* （ -> ( *)
  else if N.eqb c 65289 then 41   (* ） -> ) *)
  else if N.eqb c 12304 then 91   (* 【 -> [ *)
  else if N.eqb c 12305 then 93   (* 】 -> ] *)
  else 32.

Definition isQuote : N -> bool := oneOf [34; 39]%N.
Definition isDecorativePunct : N -> bool :=
  oneOf [33; 65281; 46; 12290; 44; 65292; 59; 65307; 58]%N.
Definition isChinesePunct : N -> bool :=
  oneOf [65292; 12290; 65281; 65311; 65307; 65306; 34; 39;
         65288; 65289; 12304; 12305]%N.

Definition normalize (text : jsstring) : jsstring :=
  let t1 := replace_runs isSpace (js " ") text in
  let t2 := map (fun c => if isQuote c then 34%N else c) t1 in
  let t3 := replace_runs isDecorativePunct (js " ") t2 in
  let t4 := map (fun c => if isChinesePunct c then chinesePunctMap c else c) t3 in
  toLowerCase (trim t4).

Definition contentHash (text : jsstring) : jsstring :=
  let normalized := normalize text in
  if (len normalized <=? 150)%Z then normalized
  else slice_to 100 normalized ++ js "..." ++ slice_last 50 normalized.

(** [systemPrompt ? ... : 'none']: [undefined] and the empty string are
    falsy. *)
Definition truthy_str (s : option jsstring) : option jsstring :=
  match s with
  | Some (c :: r) => Some (c :: r)
  | _ => None
  end.

Definition generateFingerprint (prompt : jsstring) (systemPrompt : option jsstring)
  : jsstring :=
  let features := extractFeatures prompt in
  let content := contentHash prompt in
  let sysHash := match truthy_str systemPrompt with
                 | Some s => slice_to 50 (contentHash s)
                 | None => js "none"
                 end in
  join (js "|") (sort features) ++ js "|" ++ content ++ js "|" ++ sysHash.

Definition getCacheKey (prompt : jsstring) (systemPrompt : option jsstring)
  : jsstring := generateFingerprint prompt systemPrompt.

End WithBuiltins.

Definition opt_str_eqb (a b : option jsstring) : bool :=
  match a, b with
  | Some x, Some y => str_eqb x y
  | None, None => true
  | _, _ => false
  end.

Definition Qltb (x y : Q) : bool := negb (Qle_bool y x).

(** The loop of [fingerprintsSimilar]: positions of the common prefix at
    which the two strings differ. *)
Fixpoint diffPositions (a b : jsstring) : nat :=
  match a, b with
  | x :: a', y :: b' => ((if N.eqb x y then 0 else 1) + diffPositions a' b')%nat
  | _, _ => O
  end.

(** The part of [fingerprintsSimilar] after the two strict comparisons. *)
Definition contentClose (content1 content2 : jsstring) : bool :=
  let maxLen := Z.max (len content1) (len content2) in
  let minLen := Z.min (len content1) (len content2) in
  if Qltb (inject_Z minLen / inject_Z maxLen) (9 # 10) then false
  else
    let diffCount :=
      (Z.of_nat (diffPositions content1 content2)
       + Z.abs (len content1 - len content2))%Z in
    Qltb (inject_Z diffCount / inject_Z maxLen) (1 # 10).

(** [fingerprintsSimilar(fp1, fp2)].  [fp.split('|', 2)] keeps the first two
    pieces; the second is [undefined] when the string has no ['|'], and
    reading [.length] of [undefined] throws ([None]). *)
Definition fingerprintsSimilar (fp1 fp2 : jsstring) : option bool :=
  let parts1 := firstn 2 (split 124 fp1) in
  let parts2 := firstn 2 (split 124 fp2) in
  let features1 := nth_error parts1 0 in
  let features2 := nth_error parts2 0 in
  let content1 := nth_error parts1 1 in
  let content2 := nth_error parts2 1 in
  if negb (opt_str_eqb features1 features2) then Some false
  else if opt_str_eqb content1 content2 then Some true
  else match content1, content2 with
       | Some c1, Some c2 => Some (contentClose c1 c2)
       | _, _ => None
       end.

End Fingerprint.


(* ================================================================== *)
(** * [Map<string, V>]: insertion-ordered maps *)
(* ================================================================== *)

Module JSMap.
Import JS.

Section WithValue.
Variable V : Type.

(** Entries in insertion order, as a JavaScript [Map] iterates them. *)
Definition t := list (jsstring * V).

Definition empty : t := [].

Fixpoint get (m : t) (k : jsstring) : option V :=
  match m with
  | [] => None
  | (k', v) :: m' => if str_eqb k' k then Some v else get m' k
  end.

Definition has (m : t) (k : jsstring) : bool :=
  match get m k with Some _ => true | None => false end.

(** [m.set(k, v)]: an existing key keeps its place, a new key goes last. *)
Fixpoint set (m : t) (k : jsstring) (v : V) : t :=
  match m with
  | [] => [(k, v)]
  | (k', v') :: m' =>
      if str_eqb k' k then (k', v) :: m' else (k', v') :: set m' k v
  end.

Definition delete (m : t) (k : jsstring) : t :=
  filter (fun e => negb (str_eqb (fst e) k)) m.

Definition size (m : t) : nat := List.length m.
Definition keys (m : t) : list jsstring := map fst m.

End WithValue.
End JSMap.

(* ================================================================== *)
(** * Types of the router ([types.ts], from their uses) *)
(* ================================================================== *)

Module Types.

Inductive Tier : Type := SIMPLE | MEDIUM | COMPLEX | REASONING.

Definition Tier_eq_dec (a b : Tier) : {a = b} + {a <> b}.
Proof. decide equality. Defined.

Definition Tier_eqb (a b : Tier) : bool :=
  if Tier_eq_dec a b then true else false.

Definition optTier_eqb (a b : option Tier) : bool :=
  match a, b with
  | Some x, Some y => Tier_eqb x y
  | None, None => true
  | _, _ => false
  end.

(** The name of a tier, as template literals print it. *)
Definition Tier_name (t : Tier) : JS.jsstring :=
  match t with
  | SIMPLE => JS.js "SIMPLE"
  | MEDIUM => JS.js "MEDIUM"
  | COMPLEX => JS.js "COMPLEX"
  | REASONING => JS.js "REASONING"
  end.

Record TierBoundaries : Type := {
  simpleMedium : R;
  mediumComplex : R;
  complexReasoning : R
}.

Record ScoringResult : Type := {
  score : R;
  tier : option Tier;          (* [null] is ambiguous *)
  confidence : R;
  signals : list JS.jsstring;
  agenticScore : option R
}.

Record ScoringConfig : Type := {
  tokenCountThresholds_simple : Z;
  tokenCountThresholds_complex : Z;
  codeKeywords : list JS.jsstring;
  reasoningKeywords : list JS.jsstring;
  technicalKeywords : list JS.jsstring;
  creativeKeywords : list JS.jsstring;
  simpleKeywords : list JS.jsstring;
  imperativeVerbs : list JS.jsstring;
  constraintIndicators : list JS.jsstring;
  outputFormatKeywords : list JS.jsstring;
  referenceKeywords : list JS.jsstring;
  negationKeywords : list JS.jsstring;
  domainSpecificKeywords : list JS.jsstring;
  agenticTaskKeywords : list JS.jsstring;
  dimensionWeights : JSMap.t R;
  tierBoundaries : TierBoundaries;
  confidenceSteepness : R;
  confidenceThreshold : R
}.

End Types.
Export Types.

(* ================================================================== *)
(** * rules.ts *)
(* ================================================================== *)

Module Rules.
Import JS Regex.
Local Open Scope R_scope.

(** ** Hysteresis state *)

Record ScoreHistory : Type := {
  lastScore : R;
  lastTier : option Tier;
  consecutiveSameTier : nat;
  lastBoundary : jsstring
}.

(** The module-level [scoreHistory] map. *)
Definition HistoryMap := JSMap.t ScoreHistory.

Definition noHistory : ScoreHistory :=
  {| lastScore := 0; lastTier := None; consecutiveSameTier := 0;
     lastBoundary := [] |}.

Definition getScoreHistory (h : HistoryMap) (fingerprint : jsstring)
  : ScoreHistory :=
  match JSMap.get h fingerprint with
  | Some e => e
  | None => noHistory
  end.

(** Evicts the oldest keys once the map holds more than 1000 entries. *)
Definition cleanupScoreHistory (h : HistoryMap) : HistoryMap :=
  if Nat.ltb 1000 (JSMap.size h) then
    fold_left (fun m key => JSMap.delete m key)
              (firstn (JSMap.size h - 1000) (JSMap.keys h)) h
  else h.

(** [rnd] is the value of [Math.random()] read by the call. *)
Definition updateScoreHistory (h : HistoryMap) (rnd : R)
  (fingerprint : jsstring) (score : R) (tier : option Tier)
  (boundary : jsstring) : HistoryMap :=
  let existing := JSMap.get h fingerprint in
  let consecutive :=
    match existing with
    | Some e => if optTier_eqb (lastTier e) tier
                then S (consecutiveSameTier e) else 1%nat
    | None => 1%nat
    end in
  let h' := JSMap.set h fingerprint
              {| lastScore := score; lastTier := tier;
                 consecutiveSameTier := consecutive;
                 lastBoundary := boundary |} in
  if Rlt_dec rnd 0.01 then cleanupScoreHistory h' else h'.

(** ** Dimension scorers *)

Record DimensionScore : Type := {
  name : jsstring;
  dscore : R;
  signal : option jsstring
}.

Definition scoreTokenCount (estimatedTokens simple complex : Z)
  : DimensionScore :=
  if (estimatedTokens <? simple)%Z then
    {| name := js "tokenCount"; dscore := -1;
       signal := Some (js "short (" ++ of_Z estimatedTokens ++ js " tokens)") |}
  else if (complex <? estimatedTokens)%Z then
    {| name := js "tokenCount"; dscore := 1;
       signal := Some (js "long (" ++ of_Z estimatedTokens ++ js " tokens)") |}
  else {| name := js "tokenCount"; dscore := 0; signal := None |}.

(** [MULTI_STEP_PATTERNS] (English and Chinese). *)
Definition MULTI_STEP_PATTERNS : list regex :=
  [ (* /first.*then/i *)
    Seq (Lit true (js "first")) (Seq (Star (Class isDot)) (Lit true (js "then")));
    (* /step\s+\d+/i *)
    Seq (Lit true (js "step")) (Seq (Plus (Class isSpace)) (Plus (Class isDigit)));
    (* /\d+[\.．]\s+/ *)
    Seq (Plus (Class isDigit))
        (Seq (Class (Fingerprint.oneOf [46; 65294]%N)) (Plus (Class isSpace)));
    (* /第[一二三四五六七八九十\d]+步/ *)
    Seq (Chr 31532) (Seq (Plus (Class Fingerprint.isCjkNumeral)) (Chr 27493));
    (* /步骤\s*[一二三四五六七八九十\d]+/ *)
    Seq (Lit false [27493; 39588]%N)
        (Seq (Star (Class isSpace)) (Plus (Class Fingerprint.isCjkNumeral)));
    (* /首先[\s\S]{1,80}然后/ *)
    Seq (Lit false [39318; 20808]%N)
        (Seq (Repeat 1 80 Fingerprint.anyUnit) (Lit false [28982; 21518]%N));
    (* /第[一二三四五六七八九十\d]+[、,]\s*第[一二三四五六七八九十\d]+/ *)
    Seq (Chr 31532)
        (Seq (Plus (Class Fingerprint.isCjkNumeral))
           (Seq (Class (Fingerprint.oneOf [12289; 44]%N))
              (Seq (Star (Class isSpace))
                 (Seq (Chr 31532) (Plus (Class Fingerprint.isCjkNumeral)))))) ].

Definition scoreMultiStep (text : jsstring) : DimensionScore :=
  let hits := filter (fun p => test p text) MULTI_STEP_PATTERNS in
  if Nat.ltb 0 (List.length hits) then
    {| name := js "multiStepPatterns"; dscore := 0.5;
       signal := Some (js "multi-step") |}
  else {| name := js "multiStepPatterns"; dscore := 0; signal := None |}.

(** [CHINESE_QUESTION_PHRASE = /怎么|如何|怎样/g]: the successive leftmost
    matches; every alternative is two units long. *)
Definition questionPhrases : list jsstring :=
  [ [24590; 20040]%N; [22914; 20309]%N; [24590; 26679]%N ].

Fixpoint countPhrases (skip : bool) (s : jsstring) : nat :=
  match s with
  | [] => O
  | _ :: s' =>
      if skip then countPhrases false s'
      else if existsb (fun p => startsWith p s) questionPhrases
           then S (countPhrases true s')
           else countPhrases false s'
  end.

Definition scoreQuestionComplexity (prompt : jsstring) : DimensionScore :=
  let halfWidth := count_class (N.eqb 63) prompt in
  let fullWidth := count_class (N.eqb 65311) prompt in
  let questionCount := (halfWidth + fullWidth)%nat in
  if Nat.ltb 3 questionCount then
    {| name := js "questionComplexity"; dscore := 0.5;
       signal := Some (of_nat questionCount ++ js " questions") |}
  else
    let phraseMatches := countPhrases false prompt in
    if Nat.eqb questionCount 0 && Nat.leb 2 phraseMatches then
      {| name := js "questionComplexity"; dscore := 0.5;
         signal := Some (js "multi-question (" ++ of_nat phraseMatches ++ js " "
                         ++ [24590; 20040; 47; 22914; 20309; 47; 24590; 26679]%N
                         ++ js ")") |}
    else {| name := js "questionComplexity"; dscore := 0; signal := None |}.

(** [1 / (1 + Math.exp(-steepness * distance))] *)
Definition calibrateConfidence (distance steepness : R) : R :=
  1 / (1 + exp (- steepness * distance)).

(** ** Fuzzy boundaries with hysteresis *)

Record TierDecision : Type := {
  td_tier : option Tier;
  td_distance : R;
  td_boundary : jsstring;
  td_usedHysteresis : bool
}.

(** [tiers.findIndex((t) => t.name === tier)] *)
Definition tierIndex (t : Tier) : nat :=
  match t with SIMPLE => 0 | MEDIUM => 1 | COMPLEX => 2 | REASONING => 3 end.

(** The tier "without hysteresis", its distance to the nearest end of its
    interval, and the name of that boundary. *)
Definition naturalTier (score : R) (b : TierBoundaries) : Tier * R * jsstring :=
  if Rlt_dec score (simpleMedium b) then
    (SIMPLE, simpleMedium b - score, js "simple-medium")
  else if Rlt_dec score (mediumComplex b) then
    (MEDIUM, Rmin (score - simpleMedium b) (mediumComplex b - score),
     if Rlt_dec score ((simpleMedium b + mediumComplex b) / 2)
     then js "simple-medium" else js "medium-complex")
  else if Rlt_dec score (complexReasoning b) then
    (COMPLEX, Rmin (score - mediumComplex b) (complexReasoning b - score),
     if Rlt_dec score ((mediumComplex b + complexReasoning b) / 2)
     then js "medium-complex" else js "complex-reasoning")
  else (REASONING, score - complexReasoning b, js "complex-reasoning").

Definition calculateTierWithHysteresis (score : R) (b : TierBoundaries)
  (history : ScoreHistory) (fuzzyWidth : R) : TierDecision :=
  let '(currentTier, currentDistance, nearestBoundary) := naturalTier score b in
  let plain := {| td_tier := Some currentTier; td_distance := currentDistance;
                  td_boundary := nearestBoundary; td_usedHysteresis := false |} in
  match lastTier history with
  | Some last =>
      if Tier_eqb currentTier last then plain
      else
        let isInFuzzyRegion := Rlt_dec currentDistance fuzzyWidth in
        if isInFuzzyRegion then
          {| td_tier := Some last; td_distance := 0.05;
             td_boundary := nearestBoundary; td_usedHysteresis := true |}
        else
          let movingUp := Nat.ltb (tierIndex last) (tierIndex currentTier) in
          let requiredDistance := fuzzyWidth in
          let kept := {| td_tier := Some last; td_distance := currentDistance;
                         td_boundary := nearestBoundary;
                         td_usedHysteresis := true |} in
          if movingUp then
            if Rlt_dec currentDistance requiredDistance then kept else plain
          else
            if Rlt_dec currentDistance requiredDistance then kept else plain
  | None => plain
  end.

Section WithBuiltins.
Context {B : Builtins}.

(** [keywords.filter((kw) => text.includes(kw.toLowerCase()))] *)
Definition keywordMatches (text : jsstring) (keywords : list jsstring)
  : list jsstring :=
  filter (fun kw => includes text (toLowerCase kw)) keywords.

Definition scoreKeywordMatch (text : jsstring) (keywords : list jsstring)
  (name signalLabel : jsstring) (low high : nat) (none lows highs : R)
  : DimensionScore :=
  let matches := keywordMatches text keywords in
  let sig := signalLabel ++ js " (" ++ join (js ", ") (firstn 3 matches) ++ js ")" in
  if Nat.leb high (List.length matches) then
    {| name := name; dscore := highs; signal := Some sig |}
  else if Nat.leb low (List.length matches) then
    {| name := name; dscore := lows; signal := Some sig |}
  else {| name := name; dscore := none; signal := None |}.

Definition scoreAgenticTask (text : jsstring) (keywords : list jsstring)
  : DimensionScore * R :=
  let matched := keywordMatches text keywords in
  let matchCount := List.length matched in
  let sigs := join (js ", ") (firstn 3 matched) in
  if Nat.leb 4 matchCount then
    ({| name := js "agenticTask"; dscore := 1;
        signal := Some (js "agentic (" ++ sigs ++ js ")") |}, 1)
  else if Nat.leb 3 matchCount then
    ({| name := js "agenticTask"; dscore := 0.6;
        signal := Some (js "agentic (" ++ sigs ++ js ")") |}, 0.6)
  else if Nat.leb 1 matchCount then
    ({| name := js "agenticTask"; dscore := 0.2;
        signal := Some (js "agentic-light (" ++ sigs ++ js ")") |}, 0.2)
  else ({| name := js "agenticTask"; dscore := 0; signal := None |}, 0).

(** [`${systemPrompt ?? ""} ${prompt}`] *)
Definition fullText (prompt : jsstring) (systemPrompt : option jsstring)
  : jsstring :=
  match systemPrompt with Some s => s | None => [] end ++ js " " ++ prompt.

(** The 15 dimension scores of [classifyByRules], in the order of the
    source, with the out-of-band agentic score. *)
Definition scoreDimensions (prompt : jsstring) (systemPrompt : option jsstring)
  (estimatedTokens : Z) (config : ScoringConfig)
  : list DimensionScore * R :=
  let text := toLowerCase (fullText prompt systemPrompt) in
  let userText := toLowerCase prompt in
  let agenticResult := scoreAgenticTask text (agenticTaskKeywords config) in
  ([ scoreTokenCount estimatedTokens (tokenCountThresholds_simple config)
       (tokenCountThresholds_complex config);
     scoreKeywordMatch text (codeKeywords config)
       (js "codePresence") (js "code") 1 2 0 0.5 1;
     scoreKeywordMatch userText (reasoningKeywords config)
       (js "reasoningMarkers") (js "reasoning") 1 2 0 0.7 1;
     scoreKeywordMatch text (technicalKeywords config)
       (js "technicalTerms") (js "technical") 2 4 0 0.5 1;
     scoreKeywordMatch text (creativeKeywords config)
       (js "creativeMarkers") (js "creative") 1 2 0 0.5 0.7;
     scoreKeywordMatch text (simpleKeywords config)
       (js "simpleIndicators") (js "simple") 1 2 0 (-1) (-1);
     scoreMultiStep text;
     scoreQuestionComplexity prompt;
     scoreKeywordMatch text (imperativeVerbs config)
       (js "imperativeVerbs") (js "imperative") 1 2 0 0.3 0.5;
     scoreKeywordMatch text (constraintIndicators config)
       (js "constraintCount") (js "constraints") 1 3 0 0.3 0.7;
     scoreKeywordMatch text (outputFormatKeywords config)
       (js "outputFormat") (js "format") 1 2 0 0.4 0.7;
     scoreKeywordMatch text (referenceKeywords config)
       (js "referenceComplexity") (js "references") 1 2 0 0.3 0.5;
     scoreKeywordMatch text (negationKeywords config)
       (js "negationComplexity") (js "negation") 2 3 0 0.3 0.5;
     scoreKeywordMatch text (domainSpecificKeywords config)
       (js "domainSpecificity") (js "domain-specific") 1 2 0 0.5 0.8;
     fst agenticResult ],
   snd agenticResult).

(** [dimensions.filter(d => d.signal !== null).map(d => d.signal)] *)
Definition collectSignals (dimensions : list DimensionScore) : list jsstring :=
  flat_map (fun d => match signal d with Some s => [s] | None => [] end)
           dimensions.

(** [weightedScore += d.score * (weights[d.name] ?? 0)] over the dimensions. *)
Definition weightedSum (weights : JSMap.t R) (dimensions : list DimensionScore)
  : R :=
  fold_left
    (fun acc d =>
       acc + dscore d * match JSMap.get weights (name d) with
                        | Some w => w
                        | None => 0
                        end)
    dimensions 0.

(** [if (fingerprint)]: [undefined] and the empty string are falsy. *)
Definition truthy_fp (fingerprint : option jsstring) : option jsstring :=
  Fingerprint.truthy_str fingerprint.

(** [classifyByRules], with the score history [h] and the value [rnd] that
    [Math.random()] returns should [updateScoreHistory] run. *)
Definition classifyByRules (prompt : jsstring) (systemPrompt : option jsstring)
  (estimatedTokens : Z) (config : ScoringConfig)
  (fingerprint : option jsstring) (h : HistoryMap) (rnd : R)
  : ScoringResult * HistoryMap :=
  let userText := toLowerCase prompt in
  let '(dimensions, agentic) :=
    scoreDimensions prompt systemPrompt estimatedTokens config in
  let signals := collectSignals dimensions in
  let weightedScore := weightedSum (dimensionWeights config) dimensions in
  let reasoningMatches := keywordMatches userText (reasoningKeywords config) in
  if Nat.leb 2 (List.length reasoningMatches) then
    let confidence :=
      calibrateConfidence (Rmax weightedScore 0.3) (confidenceSteepness config) in
    let h' := match truthy_fp fingerprint with
              | Some fp => updateScoreHistory h rnd fp weightedScore
                             (Some REASONING) (js "reasoning-override")
              | None => h
              end in
    ({| score := weightedScore; tier := Some REASONING;
        confidence := Rmax confidence 0.85;
        signals := signals ++ [js "reasoning-override"];
        agenticScore := Some agentic |}, h')
  else
    let history := match truthy_fp fingerprint with
                   | Some fp => getScoreHistory h fp
                   | None => noHistory
                   end in
    let d := calculateTierWithHysteresis weightedScore (tierBoundaries config)
               history 0.05 in
    let signals' :=
      if td_usedHysteresis d then
        signals ++ [js "hysteresis ("
                    ++ match lastTier history with
                       | Some t => Tier_name t
                       | None => js "null"
                       end
                    ++ [32; 8594; 32]%N ++ js "stable)"]
      else signals in
    let confidence :=
      calibrateConfidence (td_distance d) (confidenceSteepness config) in
    let h' := match truthy_fp fingerprint with
              | Some fp => updateScoreHistory h rnd fp weightedScore
                             (td_tier d) (td_boundary d)
              | None => h
              end in
    if Rlt_dec confidence (confidenceThreshold config) then
      ({| score := weightedScore; tier := None; confidence := confidence;
          signals := signals'; agenticScore := Some agentic |}, h')
    else
      ({| score := weightedScore; tier := td_tier d; confidence := confidence;
          signals := signals'; agenticScore := Some agentic |}, h').

End WithBuiltins.
End Rules.

(* ================================================================== *)
(** * score-cache.ts *)
(* ================================================================== *)

Module ScoreCache.
Import JS.
Local Open Scope R_scope.

Record CachedScore : Type := {
  result : ScoringResult;
  timestamp : Z;
  hitCount : nat;
  lastTier : Tier;
  distanceToBoundary : R;
  boundaryName : jsstring
}.

(** The constructor merges the configuration it is given into the defaults
    without validating it, so [maxSize] and [jitterThreshold], which are
    compared with a size and a length, are any numbers, whole or not. *)
Record ScoreCacheConfig : Type := {
  maxSize : jsnumber;
  ttlMs : Z;
  fuzzyBoundaryWidth : R;
  jitterThreshold : jsnumber
}.

Definition DEFAULT_CACHE_CONFIG : ScoreCacheConfig :=
  {| maxSize := Finite (inject_Z 1000);
     ttlMs := 24 * 60 * 60 * 1000;
     fuzzyBoundaryWidth := 0.05;
     jitterThreshold := Finite (inject_Z 3) |}.

(** The fields of the class [ScoreCache]. *)
Record t : Type := {
  cache : JSMap.t CachedScore;
  config : ScoreCacheConfig;
  accessOrder : list jsstring;
  jitterTracker : JSMap.t (list Tier);
  jitterLocks : JSMap.t Tier
}.

(** [new ScoreCache(config)] *)
Definition create (cfg : ScoreCacheConfig) : t :=
  {| cache := []; config := cfg; accessOrder := [];
     jitterTracker := []; jitterLocks := [] |}.

(** [a.splice(a.indexOf(key), 1)] when the key occurs. *)
Fixpoint remove_first (key : jsstring) (l : list jsstring) : list jsstring :=
  match l with
  | [] => []
  | x :: l' => if str_eqb x key then l' else x :: remove_first key l'
  end.

Definition updateAccessOrder (order : list jsstring) (key : jsstring)
  : list jsstring := remove_first key order ++ [key].

Definition removeFromAccessOrder (order : list jsstring) (key : jsstring)
  : list jsstring := remove_first key order.

Definition with_result_tier (r : ScoringResult) (t : Tier) (c : R)
  : ScoringResult :=
  {| score := score r; tier := Some t; confidence := c;
     signals := signals r; agenticScore := agenticScore r |}.

Section WithBuiltins.
Context {B : Builtins}.

(** [get(prompt, systemPrompt)] at time [now]. *)
Definition get (st : t) (now : Z) (prompt : jsstring)
  (systemPrompt : option jsstring) : option CachedScore * t :=
  let key := Fingerprint.getCacheKey prompt systemPrompt in
  let lockedTier := JSMap.get (jitterLocks st) key in
  match JSMap.get (cache st) key with
  | None => (None, st)
  | Some cached =>
      if (ttlMs (config st) <? now - timestamp cached)%Z then
        (None,
         {| cache := JSMap.delete (cache st) key;
            config := config st;
            accessOrder := removeFromAccessOrder (accessOrder st) key;
            jitterTracker := jitterTracker st;
            jitterLocks := jitterLocks st |})
      else
        let cached' :=
          {| result := result cached; timestamp := timestamp cached;
             hitCount := S (hitCount cached); lastTier := lastTier cached;
             distanceToBoundary := distanceToBoundary cached;
             boundaryName := boundaryName cached |} in
        let st' :=
          {| cache := JSMap.set (cache st) key cached';
             config := config st;
             accessOrder := updateAccessOrder (accessOrder st) key;
             jitterTracker := jitterTracker st;
             jitterLocks := jitterLocks st |} in
        match lockedTier with
        | Some locked =>
            if negb (optTier_eqb (tier (result cached')) (Some locked)) then
              (Some
                 {| result := with_result_tier (result cached') locked
                                (Rmax (confidence (result cached')) 0.7);
                    timestamp := timestamp cached';
                    hitCount := hitCount cached';
                    lastTier := lastTier cached';
                    distanceToBoundary := distanceToBoundary cached';
                    boundaryName := boundaryName cached' |}, st')
            else (Some cached', st')
        | None => (Some cached', st')
        end
  end.

End WithBuiltins.

(** [distances.reduce((min, curr) => curr.dist < min.dist ? curr : min)] *)
Definition calculateBoundaryProximity (score : R) (b : TierBoundaries)
  : R * jsstring :=
  let distances :=
    [ (Rabs (score - simpleMedium b), js "simple-medium");
      (Rabs (score - mediumComplex b), js "medium-complex");
      (Rabs (score - complexReasoning b), js "complex-reasoning") ] in
  fold_left (fun min curr => if Rlt_dec (fst curr) (fst min) then curr else min)
            (tl distances) (hd (0, []) distances).

(** The index at which [a.slice(start)] begins in an array of length [n]:
    [start] is made an integer (NaN is 0, a fraction is cut off towards
    zero), a negative one counts from the end, and the result is kept
    within the array. *)
Definition sliceStart (start : jsnumber) (n : Z) : Z :=
  match start with
  | Finite q =>
      let rel := if Qle_bool 0%Q q then Qfloor q else Qceiling q in
      if (rel <? 0)%Z then Z.max (n + rel) 0 else Z.min rel n
  | PosInfinity => n
  | NegInfinity | NaN => 0%Z
  end.

(** [a.slice(start)] *)
Definition slice_from {A : Type} (start : jsnumber) (l : list A) : list A :=
  skipn (Z.to_nat (sliceStart start (Z.of_nat (List.length l)))) l.

(** [[...new Set(recent)]] *)
Fixpoint uniqueTiers (l : list Tier) : list Tier :=
  match l with
  | [] => []
  | x :: l' => x :: filter (fun y => negb (Tier_eqb x y)) (uniqueTiers l')
  end.

(** [tierCounts.set(t, (tierCounts.get(t) || 0) + 1)] *)
Fixpoint bump (t : Tier) (counts : list (Tier * nat)) : list (Tier * nat) :=
  match counts with
  | [] => [(t, 1%nat)]
  | (t', n) :: rest =>
      if Tier_eqb t' t then (t', S n) :: rest else (t', n) :: bump t rest
  end.

Definition tierCounts (recent : list Tier) : list (Tier * nat) :=
  fold_left (fun counts t => bump t counts) recent [].

(** [entries.sort((a, b) => b[1] - a[1])]: stable, by decreasing count. *)
Fixpoint insert_desc (x : Tier * nat) (l : list (Tier * nat))
  : list (Tier * nat) :=
  match l with
  | [] => [x]
  | y :: rest =>
      if Nat.ltb (snd y) (snd x) then x :: l else y :: insert_desc x rest
  end.

Definition sort_desc (l : list (Tier * nat)) : list (Tier * nat) :=
  fold_left (fun acc x => insert_desc x acc) l [].

Definition mostFrequent (recent : list Tier) : option Tier :=
  option_map fst (hd_error (sort_desc (tierCounts recent))).

(** [trackJitter(key, tier)] on the two jitter maps. *)
Definition trackJitter (cfg : ScoreCacheConfig)
  (tracker : JSMap.t (list Tier)) (locks : JSMap.t Tier)
  (key : jsstring) (tier : option Tier)
  : JSMap.t (list Tier) * JSMap.t Tier :=
  match tier with
  | None => (tracker, locks)
  | Some t =>
      let pushed := match JSMap.get tracker key with
                    | Some hist => hist
                    | None => []
                    end ++ [t] in
      let history := if Nat.ltb 5 (List.length pushed) then tl pushed
                     else pushed in
      let tracker' := JSMap.set tracker key history in
      if int_ge (Z.of_nat (List.length history)) (jitterThreshold cfg) then
        let recent := slice_from (neg (jitterThreshold cfg)) history in
        if Nat.leb 2 (List.length (uniqueTiers recent)) then
          match mostFrequent recent with
          | Some m => (tracker', JSMap.set locks key m)
          | None => (tracker', locks)
          end
        else (tracker', locks)
      else (tracker', locks)
  end.

(** [evictLRU()]; [if (oldest)] skips the empty string. *)
Definition evictLRU (st : t) : t :=
  match accessOrder st with
  | [] => st
  | oldest :: rest =>
      match oldest with
      | [] => {| cache := cache st; config := config st; accessOrder := rest;
                 jitterTracker := jitterTracker st;
                 jitterLocks := jitterLocks st |}
      | _ :: _ =>
          {| cache := JSMap.delete (cache st) oldest;
             config := config st;
             accessOrder := rest;
             jitterTracker := JSMap.delete (jitterTracker st) oldest;
             jitterLocks := JSMap.delete (jitterLocks st) oldest |}
      end
  end.

Section WithBuiltins.
Context {B : Builtins}.

(** [set(prompt, systemPrompt, result, boundaries, score)] at time [now]. *)
Definition set (st : t) (now : Z) (prompt : jsstring)
  (systemPrompt : option jsstring) (res : ScoringResult)
  (boundaries : TierBoundaries) (score : R) : t :=
  let key := Fingerprint.getCacheKey prompt systemPrompt in
  let proximity := calculateBoundaryProximity score boundaries in
  let jitter :=
    trackJitter (config st) (jitterTracker st) (jitterLocks st) key (tier res) in
  let st1 := {| cache := cache st; config := config st;
                accessOrder := accessOrder st;
                jitterTracker := fst jitter; jitterLocks := snd jitter |} in
  let cached :=
    {| result := res; timestamp := now; hitCount := 1;
       lastTier := match tier res with Some t => t | None => MEDIUM end;
       distanceToBoundary := fst proximity; boundaryName := snd proximity |} in
  let st2 :=
    if int_ge (Z.of_nat (JSMap.size (cache st1))) (maxSize (config st1))
       && negb (JSMap.has (cache st1) key)
    then evictLRU st1 else st1 in
  {| cache := JSMap.set (cache st2) key cached;
     config := config st2;
     accessOrder := updateAccessOrder (accessOrder st2) key;
     jitterTracker := jitterTracker st2;
     jitterLocks := jitterLocks st2 |}.

End WithBuiltins.

(** [shouldUseCachedTier(cached, newScore, newTier)] *)
Definition shouldUseCachedTier (st : t) (cached : CachedScore) (newScore : R)
  (newTier : option Tier) : bool :=
  match newTier, tier (result cached) with
  | Some nt, Some ct =>
      if Tier_eqb ct nt then false
      else if Rlt_dec (distanceToBoundary cached) (fuzzyBoundaryWidth (config st))
           then true else false
  | _, _ => false
  end.

(** [clear()] *)
Definition clear (st : t) : t :=
  {| cache := []; config := config st; accessOrder := [];
     jitterTracker := []; jitterLocks := [] |}.

(** [cleanup()] at time [now]: the state after the sweep and the number of
    entries removed. *)
Definition cleanup (st : t) (now : Z) : nat * t :=
  fold_left
    (fun acc e =>
       let '(cleaned, s) := acc in
       let '(key, cached) := e in
       if (ttlMs (config s) <? now - timestamp cached)%Z then
         (S cleaned,
          {| cache := JSMap.delete (cache s) key;
             config := config s;
             accessOrder := removeFromAccessOrder (accessOrder s) key;
             jitterTracker := JSMap.delete (jitterTracker s) key;
             jitterLocks := JSMap.delete (jitterLocks s) key |})
       else acc)
    (cache st) (O, st).

(** [getStats()] *)
Definition getStats (st : t) : nat * jsnumber * list nat * nat :=
  (JSMap.size (cache st), maxSize (config st),
   map (fun e => hitCount (snd e)) (cache st),
   JSMap.size (jitterLocks st)).

End ScoreCache.

(* ================================================================== *)
(** * model-health.ts *)
(* ================================================================== *)

(** A value of the candidate array handed to the health tracker: a model
    name, or (in [route], which passes [Object.values] of a tier entry) the
    fallback array itself. *)
Inductive Candidate : Type :=
| CModel : JS.jsstring -> Candidate
| CList : list JS.jsstring -> Candidate.

(** [!!c]: the empty string is falsy, an array is not. *)
Definition truthyCandidate (c : Candidate) : bool :=
  match c with CModel [] => false | _ => true end.

(** [c === s] for a string [s]: an array is no string. *)
Definition isModel (c : Candidate) (s : JS.jsstring) : bool :=
  match c with CModel m => JS.str_eqb m s | CList _ => false end.

(** The health tracker as [session.ts] and [router/index.ts] use it: the two
    queries they make of the tracker of [model-health.ts].  The tracker is
    stateful and reads the clock; a value of this record is its behaviour at
    the time of one call, and [ModelHealth.tracker] below gives that value
    for a state of the tracker and a clock. *)
Record HealthTracker : Type := {
  getBestModel : Tier -> list Candidate -> option Candidate;
  isAvailable : JS.jsstring -> bool
}.

(** [getBestModel] answers with one of the candidates it is given
    ([HealthProps.tracker_selects] proves it of the tracker of
    [model-health.ts]). *)
Definition selects_candidates (H : HealthTracker) : Prop :=
  forall t cands c, getBestModel H t cands = Some c -> In c cands.

Module ModelHealth.
Import JS.
Local Open Scope R_scope.

Inductive ModelHealthStatus : Type := healthy | degraded | unhealthy | cooldown.

(** [cooldownUntil] is a clock reading plus a duration that is not
    validated. *)
Record ModelHealthRecord : Type := {
  model : jsstring;
  tier : Tier;
  status : ModelHealthStatus;
  totalRequests : nat;
  successfulRequests : nat;
  successRate : R;
  avgLatencyMs : R;
  p95LatencyMs : R;
  consecutiveErrors : nat;
  errorTypes : JSMap.t nat;
  cooldownUntil : jsnumber;
  cooldownReason : option jsstring;
  lastRequest : Z;
  lastSuccess : Z
}.

Record ModelHealthConfig : Type := {
  healthyThreshold : R;
  degradedThreshold : R;
  maxConsecutiveErrors : jsnumber;
  cooldownDurationMs : jsnumber;
  latencyThresholdMs : R;
  recoveryThreshold : R;
  recoveryRequests : jsnumber
}.

Definition DEFAULT_HEALTH_CONFIG : ModelHealthConfig :=
  {| healthyThreshold := 0.95;
     degradedThreshold := 0.8;
     maxConsecutiveErrors := Finite (inject_Z 3);
     cooldownDurationMs := Finite (inject_Z (5 * 60 * 1000));
     latencyThresholdMs := 30000;
     recoveryThreshold := 0.9;
     recoveryRequests := Finite (inject_Z 5) |}.

(** The fields of the class [ModelHealthTracker]. *)
Record t : Type := {
  healthRecords : JSMap.t ModelHealthRecord;
  config : ModelHealthConfig;
  latencyHistory : JSMap.t (list R)
}.

(** [new ModelHealthTracker(config)] *)
Definition create (cfg : ModelHealthConfig) : t :=
  {| healthRecords := []; config := cfg; latencyHistory := [] |}.

(** [this.healthRecords.get(m)]: the keys of the map are model names, so an
    array is not among them. *)
Definition recordOf (st : t) (c : Candidate) : option ModelHealthRecord :=
  match c with
  | CModel m => JSMap.get (healthRecords st) m
  | CList _ => None
  end.

(** The record after its cooldown has run out. *)
Definition recovered (r : ModelHealthRecord) : ModelHealthRecord :=
  {| model := model r; tier := tier r; status := degraded;
     totalRequests := totalRequests r;
     successfulRequests := successfulRequests r;
     successRate := successRate r; avgLatencyMs := avgLatencyMs r;
     p95LatencyMs := p95LatencyMs r;
     consecutiveErrors := consecutiveErrors r; errorTypes := errorTypes r;
     cooldownUntil := Finite 0; cooldownReason := cooldownReason r;
     lastRequest := lastRequest r; lastSuccess := lastSuccess r |}.

(** [isAvailable(model)] at time [now]: the answer and the tracker after
    the call, which moves a record out of an expired cooldown. *)
Definition isAvailable (st : t) (now : Z) (c : Candidate) : bool * t :=
  match c with
  | CModel m =>
      match JSMap.get (healthRecords st) m with
      | None => (true, st)
      | Some record =>
          match status record with
          | cooldown =>
              if int_gt now (cooldownUntil record) then
                (true,
                 {| healthRecords :=
                      JSMap.set (healthRecords st) m (recovered record);
                    config := config st;
                    latencyHistory := latencyHistory st |})
              else (false, st)
          | unhealthy => (false, st)
          | healthy | degraded => (true, st)
          end
      end
  | CList _ => (true, st)
  end.

(** [candidates.filter((m) => this.isAvailable(m))]: the candidates are
    examined in order, the [i]-th at the clock reading [clock i]. *)
Fixpoint available (st : t) (clock : nat -> Z) (i : nat)
  (candidates : list Candidate) : list Candidate * t :=
  match candidates with
  | [] => ([], st)
  | c :: rest =>
      let checked := isAvailable st (clock i) c in
      let others := available (snd checked) clock (S i) rest in
      (if fst checked then c :: fst others else fst others, snd others)
  end.

(** [{ model: m, health: this.healthRecords.get(m) }] *)
Record Ranked : Type := {
  r_model : Candidate;
  r_health : option ModelHealthRecord
}.

Definition statusPriority (s : ModelHealthStatus) : Z :=
  match s with
  | healthy => 0
  | degraded => 1
  | unhealthy => 2
  | cooldown => 3
  end.

(** The comparator of [getBestModel]: status priority, then success rate
    when the rates differ by more than 0.05, then latency. *)
Definition compareHealth (a b : Ranked) : R :=
  let statusOf x := match r_health x with Some h => status h | None => healthy end in
  let rateOf x := match r_health x with Some h => successRate h | None => 1 end in
  let latencyOf x := match r_health x with Some h => avgLatencyMs h | None => 0 end in
  let aPriority := statusPriority (statusOf a) in
  let bPriority := statusPriority (statusOf b) in
  if negb (aPriority =? bPriority)%Z then IZR (aPriority - bPriority)
  else if Rlt_dec 0.05 (Rabs (rateOf a - rateOf b)) then rateOf b - rateOf a
  else latencyOf a - latencyOf b.

(** A stable sort by insertion: an element goes before the first one that
    the comparator ranks after it. *)
Fixpoint insertRanked (cmp : Ranked -> Ranked -> R) (x : Ranked)
  (l : list Ranked) : list Ranked :=
  match l with
  | [] => [x]
  | y :: rest =>
      if Rlt_dec (cmp x y) 0 then x :: l else y :: insertRanked cmp x rest
  end.

Definition stableSort (cmp : Ranked -> Ranked -> R) (l : list Ranked)
  : list Ranked :=
  fold_left (fun acc x => insertRanked cmp x acc) l [].

Section WithSort.

(** [Array.prototype.sort(compareFn)].  The comparator above is not a
    consistent ordering (two rates within 0.05 of each other are ranked by
    latency, whatever a third rate says), and for such a comparator the
    language leaves the order of the result to the implementation: the sort
    is a parameter of [getBestModel], and [stableSort] is one such sort. *)
Variable sortRanked : (Ranked -> Ranked -> R) -> list Ranked -> list Ranked.

(** [getBestModel(tier, candidates)]: the answer and the tracker after the
    call. *)
Definition getBestModel (st : t) (clock : nat -> Z) (tier : Tier)
  (candidates : list Candidate) : option Candidate * t :=
  let filtered := available st clock 0 candidates in
  let st' := snd filtered in
  let ranked :=
    map (fun m => {| r_model := m; r_health := recordOf st' m |})
        (fst filtered) in
  let sorted := sortRanked compareHealth ranked in
  (match sorted with
   | best :: _ =>
       if truthyCandidate (r_model best) then Some (r_model best) else None
   | [] => None
   end, st').

(** The tracker in state [st], as one call sees it. *)
Definition tracker (st : t) (clock : nat -> Z) : HealthTracker :=
  Build_HealthTracker
    (fun tier candidates => fst (getBestModel st clock tier candidates))
    (fun m => fst (isAvailable st (clock O) (CModel m))).

End WithSort.

End ModelHealth.

(** The tracker of a process that has recorded nothing: no health record,
    the default configuration, a clock that stands still. *)
Definition freshTracker : HealthTracker :=
  ModelHealth.tracker ModelHealth.stableSort
    (ModelHealth.create ModelHealth.DEFAULT_HEALTH_CONFIG) (fun _ => 0%Z).

(* ================================================================== *)
(** * session.ts *)
(* ================================================================== *)

Module Session.
Import JS.
Local Open Scope R_scope.

Record SessionContextSnapshot : Type := {
  topics : list jsstring;
  intent : jsstring;
  complexityTrend : R;
  hasUsedTools : bool;
  lastToolSequence : list jsstring;
  avgResponseLength : R
}.

(** [Partial<SessionContextSnapshot>] *)
Record PartialContext : Type := {
  p_topics : option (list jsstring);
  p_intent : option jsstring;
  p_complexityTrend : option R;
  p_hasUsedTools : option bool;
  p_lastToolSequence : option (list jsstring);
  p_avgResponseLength : option R
}.

Record SessionPerformanceMetrics : Type := {
  successRate : R;
  avgLatencyMs : R;
  avgCost : R;
  consecutiveFailures : nat;
  totalInputTokens : Z;
  totalOutputTokens : Z;
  requestTimestamps : list Z
}.

Record SessionDegradationState : Type := {
  isDegraded : bool;
  originalModel : option jsstring;
  originalTier : option Tier;
  reason : option jsstring;
  degradedAt : option Z;
  recoveryRequests : nat
}.

Record ErrorLog : Type := {
  e_timestamp : Z;
  e_error : jsstring;
  e_model : jsstring
}.

Record SessionEntry : Type := {
  model : jsstring;
  tier : Tier;
  createdAt : Z;
  lastUsedAt : Z;
  requestCount : nat;
  contextSnapshot : SessionContextSnapshot;
  metrics : SessionPerformanceMetrics;
  degradation : SessionDegradationState;
  recentErrors : list ErrorLog
}.

Record SessionConfig : Type := {
  enabled : bool;
  timeoutMs : Z;
  headerName : jsstring;
  degradationThreshold : Z;
  recoveryThreshold : Z;
  maxRequestHistory : Z
}.

Definition DEFAULT_SESSION_CONFIG : SessionConfig :=
  {| enabled := false;
     timeoutMs := 30 * 60 * 1000;
     headerName := js "x-session-id";
     degradationThreshold := 2;
     recoveryThreshold := 3;
     maxRequestHistory := 50 |}.

(** The fields of the class [SessionStore] (the interval timer apart). *)
Record t : Type := {
  sessions : JSMap.t SessionEntry;
  config : SessionConfig
}.

(** [new SessionStore(config)] *)
Definition create (cfg : SessionConfig) : t :=
  {| sessions := []; config := cfg |}.

(** The argument of [recordResult]. *)
Record RequestResult : Type := {
  success : bool;
  latencyMs : R;
  cost : R;
  inputTokens : Z;
  outputTokens : Z;
  error : option jsstring
}.

(** [!sessionId]: the empty string is falsy. *)
Definition emptyId (sessionId : jsstring) : bool :=
  match sessionId with [] => true | _ => false end.

Definition with_sessions (st : t) (m : JSMap.t SessionEntry) : t :=
  {| sessions := m; config := config st |}.

(** [getSession(sessionId)] at time [now]. *)
Definition getSession (st : t) (now : Z) (sessionId : jsstring)
  : option SessionEntry * t :=
  if negb (enabled (config st)) || emptyId sessionId then (None, st)
  else
    match JSMap.get (sessions st) sessionId with
    | None => (None, st)
    | Some entry =>
        if (timeoutMs (config st) <? now - lastUsedAt entry)%Z then
          (None, with_sessions st (JSMap.delete (sessions st) sessionId))
        else
          let entry' :=
            {| model := model entry; tier := tier entry;
               createdAt := createdAt entry; lastUsedAt := now;
               requestCount := requestCount entry;
               contextSnapshot := contextSnapshot entry;
               metrics := metrics entry; degradation := degradation entry;
               recentErrors := recentErrors entry |} in
          (Some entry', with_sessions st (JSMap.set (sessions st) sessionId entry'))
    end.

(** [[...new Set(l)]] *)
Fixpoint dedupe (l : list jsstring) : list jsstring :=
  match l with
  | [] => []
  | x :: l' => x :: filter (fun y => negb (str_eqb x y)) (dedupe l')
  end.

(** The class declares [updateContext] twice: first the private method on
    entries, whose body follows, then the public method on session ids.  A
    class body keeps the last declaration of a name, so no call reaches this
    first body. *)
Definition updateContext_shadowed (snapshot : SessionContextSnapshot)
  (context : PartialContext) : SessionContextSnapshot :=
  {| topics := match p_topics context with
               | Some ts => firstn 10 (dedupe (topics snapshot ++ ts))
               | None => topics snapshot
               end;
     intent := match p_intent context with
               | Some (c :: i) => c :: i
               | _ => intent snapshot
               end;
     complexityTrend := match p_complexityTrend context with
                        | Some x => 0.7 * complexityTrend snapshot + 0.3 * x
                        | None => complexityTrend snapshot
                        end;
     hasUsedTools := match p_hasUsedTools context with
                     | Some b => hasUsedTools snapshot || b
                     | None => hasUsedTools snapshot
                     end;
     lastToolSequence := match p_lastToolSequence context with
                         | Some l => l
                         | None => lastToolSequence snapshot
                         end;
     avgResponseLength := match p_avgResponseLength context with
                          | Some x => 0.7 * avgResponseLength snapshot + 0.3 * x
                          | None => avgResponseLength snapshot
                          end |}.

(** [x || d] on a number: [0] is falsy. *)
Definition num_or (x : option R) (d : R) : R :=
  match x with
  | Some v => if Req_dec_T v 0 then d else v
  | None => d
  end.

Definition initialContext (context : option PartialContext)
  : SessionContextSnapshot :=
  let get {A} (f : PartialContext -> option A) : option A :=
    match context with Some c => f c | None => None end in
  {| topics := match get p_topics with Some ts => ts | None => [] end;
     intent := match get p_intent with
               | Some (c :: i) => c :: i
               | _ => js "general"
               end;
     complexityTrend := num_or (get p_complexityTrend) 0.5;
     hasUsedTools := match get p_hasUsedTools with Some b => b | None => false end;
     lastToolSequence := match get p_lastToolSequence with
                         | Some l => l
                         | None => []
                         end;
     avgResponseLength := num_or (get p_avgResponseLength) 0 |}.

Definition push_bounded {A : Type} (limit : Z) (l : list A) (x : A) : list A :=
  let l' := l ++ [x] in
  if (limit <? Z.of_nat (List.length l'))%Z then tl l' else l'.

(** The first argument of a call [this.updateContext(x, context)]: a session
    id (the callers of the store) or an entry ([setSession], and the method
    itself). *)
Inductive ContextTarget : Type :=
| ById : jsstring -> ContextTarget
| ByEntry : SessionEntry -> ContextTarget.

(** [!x]: the empty string is falsy, an object is not. *)
Definition falsyTarget (x : ContextTarget) : bool :=
  match x with ById id => emptyId id | ByEntry _ => false end.

(** [this.sessions.get(x)]: the keys of the map are strings, so an entry is
    not among them. *)
Definition getTarget (st : t) (x : ContextTarget) : option SessionEntry :=
  match x with ById id => JSMap.get (sessions st) id | ByEntry _ => None end.

(** The body of [updateContext(sessionId, context)], the declaration in
    force, with [self] for [this.updateContext]. *)
Definition updateContext_body
  (self : t -> ContextTarget -> PartialContext -> t)
  (st : t) (x : ContextTarget) (context : PartialContext) : t :=
  if negb (enabled (config st)) || falsyTarget x then st
  else
    match getTarget st x with
    | Some entry => self st (ByEntry entry) context
    | None => st
    end.

(** [updateContext]: the method calls itself with the entry it has found;
    that call finds no session under an entry and returns, so two turns of
    the body cover every call. *)
Definition updateContext : t -> ContextTarget -> PartialContext -> t :=
  updateContext_body (updateContext_body (fun st _ _ => st)).

Definition with_metrics (e : SessionEntry) (m : SessionPerformanceMetrics)
  : SessionEntry :=
  {| model := model e; tier := tier e; createdAt := createdAt e;
     lastUsedAt := lastUsedAt e; requestCount := requestCount e;
     contextSnapshot := contextSnapshot e; metrics := m;
     degradation := degradation e; recentErrors := recentErrors e |}.

(** [setSession(sessionId, model, tier, context)] at time [now]. *)
Definition setSession (st : t) (now : Z) (sessionId : jsstring)
  (newModel : jsstring) (newTier : Tier) (context : option PartialContext) : t :=
  if negb (enabled (config st)) || emptyId sessionId then st
  else
    match JSMap.get (sessions st) sessionId with
    | Some existing =>
        let changed := negb (str_eqb (model existing) newModel) in
        let deg := degradation existing in
        let deg' :=
          if changed && negb (isDegraded deg) then
            {| isDegraded := isDegraded deg;
               originalModel := Some (model existing);
               originalTier := Some (tier existing);
               reason := reason deg; degradedAt := degradedAt deg;
               recoveryRequests := recoveryRequests deg |}
          else deg in
        let entry1 :=
          {| model := if changed then newModel else model existing;
             tier := if changed then newTier else tier existing;
             createdAt := createdAt existing;
             lastUsedAt := now;
             requestCount := S (requestCount existing);
             contextSnapshot := contextSnapshot existing;
             metrics := metrics existing;
             degradation := deg';
             recentErrors := recentErrors existing |} in
        let st1 := with_sessions st (JSMap.set (sessions st) sessionId entry1) in
        (* Update context: the call passes the entry *)
        let st2 :=
          match context with
          | Some c => updateContext st1 (ByEntry entry1) c
          | None => st1
          end in
        (* Track request timestamp *)
        let m := metrics entry1 in
        let entry2 :=
          with_metrics entry1
            {| successRate := successRate m; avgLatencyMs := avgLatencyMs m;
               avgCost := avgCost m;
               consecutiveFailures := consecutiveFailures m;
               totalInputTokens := totalInputTokens m;
               totalOutputTokens := totalOutputTokens m;
               requestTimestamps :=
                 push_bounded (maxRequestHistory (config st))
                              (requestTimestamps m) now |} in
        with_sessions st2 (JSMap.set (sessions st2) sessionId entry2)
    | None =>
        with_sessions st
          (JSMap.set (sessions st) sessionId
             {| model := newModel; tier := newTier;
                createdAt := now; lastUsedAt := now; requestCount := 1;
                contextSnapshot := initialContext context;
                metrics := {| successRate := 1; avgLatencyMs := 0; avgCost := 0;
                              consecutiveFailures := 0;
                              totalInputTokens := 0; totalOutputTokens := 0;
                              requestTimestamps := [now] |};
                degradation := {| isDegraded := false; originalModel := None;
                                  originalTier := None; reason := None;
                                  degradedAt := None; recoveryRequests := 0 |};
                recentErrors := [] |})
    end.

(** [getTierModels(tier)]: the placeholder of the source. *)
Definition getTierModels (tier : Tier) : list jsstring := [].

Definition with_failures (m : SessionPerformanceMetrics) (n : nat)
  : SessionPerformanceMetrics :=
  {| successRate := successRate m; avgLatencyMs := avgLatencyMs m;
     avgCost := avgCost m; consecutiveFailures := n;
     totalInputTokens := totalInputTokens m;
     totalOutputTokens := totalOutputTokens m;
     requestTimestamps := requestTimestamps m |}.

(** [degradeSession(sessionId, reason)] at time [now].  The candidates of
    this call are model names and [getBestModel] answers with one of its
    candidates ([selects_candidates]), so the answer is a name or [null]; on
    any other answer the model leaves the store as it is. *)
Definition degradeSession (H : HealthTracker) (st : t) (now : Z)
  (sessionId : jsstring) (why : jsstring) : t :=
  match JSMap.get (sessions st) sessionId with
  | None => st
  | Some entry =>
      if isDegraded (degradation entry) then st
      else
        let currentModel := model entry in
        let currentTier := tier entry in
        let tierModels := getTierModels currentTier in
        match getBestModel H currentTier (map CModel tierModels) with
        | Some (CModel (c :: s)) =>
            let stableModel := c :: s in
            if negb (str_eqb stableModel currentModel) then
              with_sessions st
                (JSMap.set (sessions st) sessionId
                   {| model := stableModel; tier := tier entry;
                      createdAt := createdAt entry;
                      lastUsedAt := lastUsedAt entry;
                      requestCount := requestCount entry;
                      contextSnapshot := contextSnapshot entry;
                      metrics := with_failures (metrics entry) 0;
                      degradation :=
                        {| isDegraded := true;
                           originalModel := Some currentModel;
                           originalTier := Some currentTier;
                           reason := Some why;
                           degradedAt := Some now;
                           recoveryRequests := 0 |};
                      recentErrors := recentErrors entry |})
            else st
        | _ => st
        end
  end.

(** [restoreOriginalModel(sessionId)] *)
Definition restoreOriginalModel (H : HealthTracker) (st : t)
  (sessionId : jsstring) : t :=
  match JSMap.get (sessions st) sessionId with
  | None => st
  | Some entry =>
      if negb (isDegraded (degradation entry)) then st
      else
        match originalModel (degradation entry),
              originalTier (degradation entry) with
        | Some (c :: s), Some oTier =>
            if isAvailable H (c :: s) then
              with_sessions st
                (JSMap.set (sessions st) sessionId
                   {| model := c :: s; tier := oTier;
                      createdAt := createdAt entry;
                      lastUsedAt := lastUsedAt entry;
                      requestCount := requestCount entry;
                      contextSnapshot := contextSnapshot entry;
                      metrics := metrics entry;
                      degradation :=
                        {| isDegraded := false; originalModel := None;
                           originalTier := None; reason := None;
                           degradedAt := None; recoveryRequests := 0 |};
                      recentErrors := recentErrors entry |})
            else st
        | _, _ => st
        end
  end.

(** [recordResult(sessionId, result)] at time [now], with the health tracker
    as it answers during the call. *)
Definition recordResult (H : HealthTracker) (st : t) (now : Z)
  (sessionId : jsstring) (res : RequestResult) : t :=
  if negb (enabled (config st)) || emptyId sessionId then st
  else
    match JSMap.get (sessions st) sessionId with
    | None => st
    | Some entry =>
        let m := metrics entry in
        let alpha := 0.3 in
        let m1 :=
          {| successRate := successRate m;
             avgLatencyMs := (1 - alpha) * avgLatencyMs m + alpha * latencyMs res;
             avgCost := (1 - alpha) * avgCost m + alpha * cost res;
             consecutiveFailures := consecutiveFailures m;
             totalInputTokens := (totalInputTokens m + inputTokens res)%Z;
             totalOutputTokens := (totalOutputTokens m + outputTokens res)%Z;
             requestTimestamps := requestTimestamps m |} in
        if success res then
          let m2 :=
            {| successRate := (1 - alpha) * successRate m1 + alpha * 1;
               avgLatencyMs := avgLatencyMs m1; avgCost := avgCost m1;
               consecutiveFailures := 0;
               totalInputTokens := totalInputTokens m1;
               totalOutputTokens := totalOutputTokens m1;
               requestTimestamps := requestTimestamps m1 |} in
          let deg := degradation entry in
          if isDegraded deg then
            let deg' :=
              {| isDegraded := isDegraded deg;
                 originalModel := originalModel deg;
                 originalTier := originalTier deg;
                 reason := reason deg; degradedAt := degradedAt deg;
                 recoveryRequests := S (recoveryRequests deg) |} in
            let entry' :=
              {| model := model entry; tier := tier entry;
                 createdAt := createdAt entry; lastUsedAt := lastUsedAt entry;
                 requestCount := requestCount entry;
                 contextSnapshot := contextSnapshot entry;
                 metrics := m2; degradation := deg';
                 recentErrors := recentErrors entry |} in
            let st' := with_sessions st (JSMap.set (sessions st) sessionId entry') in
            if (recoveryThreshold (config st) <=? Z.of_nat (recoveryRequests deg'))%Z
            then restoreOriginalModel H st' sessionId
            else st'
          else
            with_sessions st
              (JSMap.set (sessions st) sessionId (with_metrics entry m2))
        else
          let m2 :=
            {| successRate := (1 - alpha) * successRate m1 + alpha * 0;
               avgLatencyMs := avgLatencyMs m1; avgCost := avgCost m1;
               consecutiveFailures := S (consecutiveFailures m1);
               totalInputTokens := totalInputTokens m1;
               totalOutputTokens := totalOutputTokens m1;
               requestTimestamps := requestTimestamps m1 |} in
          let errors' :=
            match error res with
            | Some (c :: e) =>
                push_bounded 5 (recentErrors entry)
                  {| e_timestamp := now; e_error := c :: e;
                     e_model := model entry |}
            | _ => recentErrors entry
            end in
          let entry' :=
            {| model := model entry; tier := tier entry;
               createdAt := createdAt entry; lastUsedAt := lastUsedAt entry;
               requestCount := requestCount entry;
               contextSnapshot := contextSnapshot entry;
               metrics := m2; degradation := degradation entry;
               recentErrors := errors' |} in
          let st' := with_sessions st (JSMap.set (sessions st) sessionId entry') in
          if (degradationThreshold (config st)
              <=? Z.of_nat (consecutiveFailures m2))%Z
          then degradeSession H st' now sessionId
                 (of_nat (consecutiveFailures m2) ++ js " consecutive failures")
          else st'
    end.

(** [isDegraded(sessionId)] *)
Definition isDegradedSession (st : t) (sessionId : jsstring) : bool :=
  match JSMap.get (sessions st) sessionId with
  | Some entry => isDegraded (degradation entry)
  | None => false
  end.

(** [getDegradationInfo(sessionId)]:
    [(isDegraded, currentModel, originalModel, reason)] *)
Definition getDegradationInfo (st : t) (sessionId : jsstring)
  : option (bool * jsstring * option jsstring * option jsstring) :=
  match JSMap.get (sessions st) sessionId with
  | Some entry =>
      Some (isDegraded (degradation entry), model entry,
            originalModel (degradation entry), reason (degradation entry))
  | None => None
  end.

(** [getSessionDetails(sessionId)] *)
Definition getSessionDetails (st : t) (sessionId : jsstring)
  : option SessionEntry := JSMap.get (sessions st) sessionId.

(** [clearSession(sessionId)] and [clearAll()] *)
Definition clearSession (st : t) (sessionId : jsstring) : t :=
  with_sessions st (JSMap.delete (sessions st) sessionId).
Definition clearAll (st : t) : t := with_sessions st [].

(** [touchSession(sessionId)] at time [now]. *)
Definition touchSession (st : t) (now : Z) (sessionId : jsstring) : t :=
  if negb (enabled (config st)) || emptyId sessionId then st
  else
    match JSMap.get (sessions st) sessionId with
    | Some entry =>
        with_sessions st
          (JSMap.set (sessions st) sessionId
             {| model := model entry; tier := tier entry;
                createdAt := createdAt entry; lastUsedAt := now;
                requestCount := S (requestCount entry);
                contextSnapshot := contextSnapshot entry;
                metrics := metrics entry; degradation := degradation entry;
                recentErrors := recentErrors entry |})
    | None => st
    end.

(** The private [cleanup()] run by the interval timer, at time [now]. *)
Definition cleanup (st : t) (now : Z) : t :=
  fold_left
    (fun s e =>
       if (timeoutMs (config s) <? now - lastUsedAt (snd e))%Z
       then with_sessions s (JSMap.delete (sessions s) (fst e))
       else s)
    (sessions st) st.

(** One row of [getStats().sessions]. *)
Record SessionStat : Type := {
  s_id : jsstring;
  s_model : jsstring;
  s_tier : Tier;
  s_requests : nat;
  s_successRate : R;
  s_degraded : bool;
  s_age : Z
}.

(** [Math.round(x / 1000)] for an integer [x]: halves go up. *)
Definition round_div1000 (x : Z) : Z := ((x + 500) / 1000)%Z.

(** [rows.sort((a, b) => b.requests - a.requests)]: stable, by decreasing
    number of requests. *)
Fixpoint insert_by_requests (x : SessionStat) (l : list SessionStat)
  : list SessionStat :=
  match l with
  | [] => [x]
  | y :: rest =>
      if Nat.ltb (s_requests y) (s_requests x) then x :: l
      else y :: insert_by_requests x rest
  end.

Definition sort_by_requests (l : list SessionStat) : list SessionStat :=
  fold_left (fun acc x => insert_by_requests x acc) l [].

Definition statOf (now : Z) (e : jsstring * SessionEntry) : SessionStat :=
  {| s_id := slice_to 8 (fst e) ++ js "...";
     s_model := model (snd e);
     s_tier := tier (snd e);
     s_requests := requestCount (snd e);
     s_successRate := successRate (metrics (snd e));
     s_degraded := isDegraded (degradation (snd e));
     s_age := round_div1000 (now - createdAt (snd e)) |}.

(** [getStats()] at time [now]: [(count, degraded, sessions)]. *)
Definition getStats (st : t) (now : Z) : nat * nat * list SessionStat :=
  let rows := map (statOf now) (sessions st) in
  (JSMap.size (sessions st),
   List.length (filter s_degraded rows),
   sort_by_requests rows).

(** A header value of [Record<string, string | string[] | undefined>]; a
    name that is absent or bound to [undefined] has no entry. *)
Inductive HeaderValue : Type :=
| HString : jsstring -> HeaderValue
| HArray : list jsstring -> HeaderValue.

(** [v || w]: only [undefined] and the empty string are falsy; an array is
    truthy, also when empty. *)
Definition header_or (v w : option HeaderValue) : option HeaderValue :=
  match v with
  | None | Some (HString []) => w
  | Some _ => v
  end.

Section WithBuiltins.
Context {B : Builtins}.

(** [getSessionId(headers, headerName)]; an absent [headerName] takes the
    default of [DEFAULT_SESSION_CONFIG]. *)
Definition getSessionId (headers : JSMap.t HeaderValue)
  (headerName : option jsstring) : option jsstring :=
  let name := match headerName with
              | Some n => n
              | None => Session.headerName DEFAULT_SESSION_CONFIG
              end in
  let value := header_or (JSMap.get headers name)
                         (JSMap.get headers (toLowerCase name)) in
  match value with
  | Some (HString (c :: s)) => Some (c :: s)
  | Some (HArray (x :: _)) => Some x
  | _ => None
  end.

End WithBuiltins.

End Session.

(* ================================================================== *)
(** * router/index.ts *)
(* ================================================================== *)

Module Router.
Import JS Regex.
Local Open Scope R_scope.

Record TierConfig : Type := {
  primary : jsstring;
  fallback : list jsstring
}.

Record Overrides : Type := {
  maxTokensForceComplex : Z;
  structuredOutputMinTier : Tier;
  ambiguousDefaultTier : Tier;
  agenticMode : option bool
}.

Record RoutingConfig : Type := {
  scoring : ScoringConfig;
  overrides : Overrides;
  tiers : Tier -> TierConfig;
  agenticTiers : option (Tier -> TierConfig)
}.

(** [RouterOptions]; an absent flag takes its default [true].  The pricing
    table is only handed on to [selectModel] and is left out. *)
Record RouterOptions : Type := {
  config : RoutingConfig;
  enableCache : option bool;
  enableAdaptive : option bool;
  enableHealthTracking : option bool;
  sessionId : option jsstring
}.

Definition flag (o : option bool) : bool :=
  match o with Some b => b | None => true end.

(** The [" | "]-separated annotations of the [reasoning] text, kept as a
    list instead of being rendered. *)
Inductive ReasoningPart : Type :=
| RInputExceeds : Z -> ReasoningPart       (* Input exceeds N tokens *)
| RScore : R -> ReasoningPart              (* score=X.XX *)
| RSignals : list jsstring -> ReasoningPart
| RCached : ReasoningPart
| RAmbiguous : Tier -> ReasoningPart       (* ambiguous -> default: T *)
| RUpgraded : Tier -> ReasoningPart        (* upgraded to T (structured output) *)
| RAutoAgentic : ReasoningPart
| RAgentic : ReasoningPart
| RHealthOverride : ReasoningPart.

Inductive Method : Type := rules | llm.

Record RoutingDecision : Type := {
  model : jsstring;
  tier : Tier;
  confidence : R;
  method : Method;
  reasoning : list ReasoningPart;
  meta : option (jsstring * list jsstring)   (* _meta: fingerprint, signals *)
}.

(** Modelled from the spec: [selectModel] of [selector.ts], which is not
    among the sources.  "Emit [RoutingDecision { tier, model, confidence,
    method, reasoning }]", the model being the primary of the tier's entry;
    the cost figures computed from the pricing table are left out. *)
Definition selectModel (t : Tier) (conf : R) (m : Method)
  (why : list ReasoningPart) (tierConfigs : Tier -> TierConfig)
  (estimatedTokens maxOutputTokens : Z) : RoutingDecision :=
  {| model := primary (tierConfigs t); tier := t; confidence := conf;
     method := m; reasoning := why; meta := None |}.

(** The state [route] reads and writes: the global score cache and the
    score history of the classifier. *)
Record World : Type := {
  w_cache : ScoreCache.t;
  w_history : Rules.HistoryMap
}.

(** What [route] reads from outside: the two clock readings (in [get] and in
    [set]), the value of [Math.random()], the weights the adaptive manager
    returns from [getAllWeights()], and the health tracker. *)
Record Env : Type := {
  nowGet : Z;
  nowSet : Z;
  rnd : R;
  adaptiveWeights : JSMap.t R;
  health : HealthTracker
}.

Definition tierRank (t : Tier) : nat :=
  match t with SIMPLE => 0 | MEDIUM => 1 | COMPLEX => 2 | REASONING => 3 end.

(** [/json|structured|schema/i] *)
Definition structuredPattern : regex :=
  Alt (Lit true (js "json"))
      (Alt (Lit true (js "structured")) (Lit true (js "schema"))).

(** [sum(Object.values(w)) / Object.values(w).length] *)
Definition weightFactor (w : JSMap.t R) : R :=
  fold_left (fun a b => a + b) (map snd w) 0 / INR (List.length w).

Definition is_some {A : Type} (o : option A) : bool :=
  match o with Some _ => true | None => false end.

Section WithBuiltins.
Context {B : Builtins}.

(** [Math.ceil(`${systemPrompt ?? ""} ${prompt}`.length / 4)] *)
Definition estimateTokens (prompt : jsstring) (systemPrompt : option jsstring)
  : Z := Fingerprint.ceil_div4 (len (Rules.fullText prompt systemPrompt)).

(** The classification step of [route] with the adaptive adjustment: the
    rule result, the adjusted score and the adjusted confidence. *)
Definition adjust (opts : RouterOptions) (cache : ScoreCache.t)
  (cached : option ScoreCache.CachedScore) (ruleResult : ScoringResult)
  (weights : JSMap.t R) : R * R :=
  if flag (enableAdaptive opts) && is_some (Types.tier ruleResult) then
    let adjustedScore := score ruleResult * weightFactor weights in
    match cached with
    | Some c =>
        if flag (enableCache opts)
           && ScoreCache.shouldUseCachedTier cache c adjustedScore
                (Types.tier ruleResult)
           && is_some (Types.tier (ScoreCache.result c))
        then (adjustedScore, Rmax (Types.confidence (ScoreCache.result c)) 0.7)
        else (adjustedScore, Types.confidence ruleResult)
    | None => (adjustedScore, Types.confidence ruleResult)
    end
  else (score ruleResult, Types.confidence ruleResult).

Definition route (prompt : jsstring) (systemPrompt : option jsstring)
  (maxOutputTokens : Z) (opts : RouterOptions) (env : Env) (w : World)
  : RoutingDecision * World :=
  let cfg := config opts in
  let fingerprint := Fingerprint.generateFingerprint prompt systemPrompt in
  let estimatedTokens := estimateTokens prompt systemPrompt in
  (* Check cache first *)
  let looked :=
    if flag (enableCache opts)
    then ScoreCache.get (w_cache w) (nowGet env) prompt systemPrompt
    else (None, w_cache w) in
  let cached := fst looked in
  let cache1 := snd looked in
  (* Rule-based classification with fingerprint for history *)
  let classified :=
    Rules.classifyByRules prompt systemPrompt estimatedTokens (scoring cfg)
      (Some fingerprint) (w_history w) (rnd env) in
  let ruleResult := fst classified in
  let history' := snd classified in
  let adjusted := adjust opts cache1 cached ruleResult (adaptiveWeights env) in
  let adjustedScore := fst adjusted in
  let adjustedConfidence := snd adjusted in
  (* Cache the result *)
  let cache2 :=
    if flag (enableCache opts) then
      ScoreCache.set cache1 (nowSet env) prompt systemPrompt
        {| score := adjustedScore; Types.tier := Types.tier ruleResult;
           Types.confidence := adjustedConfidence;
           signals := signals ruleResult;
           agenticScore := agenticScore ruleResult |}
        (tierBoundaries (scoring cfg)) adjustedScore
    else cache1 in
  let w' := {| w_cache := cache2; w_history := history' |} in
  let agentic := match agenticScore ruleResult with Some a => a | None => 0 end in
  let isAutoAgentic := if Rle_dec 0.75 agentic then true else false in
  let isExplicitAgentic :=
    match agenticMode (overrides cfg) with Some b => b | None => false end in
  let useAgenticTiers :=
    (isAutoAgentic || isExplicitAgentic) && is_some (agenticTiers cfg) in
  let tierConfigs :=
    match agenticTiers cfg with
    | Some a => if useAgenticTiers then a else tiers cfg
    | None => tiers cfg
    end in
  (* Override: large context -> force COMPLEX *)
  if (maxTokensForceComplex (overrides cfg) <? estimatedTokens)%Z then
    (selectModel COMPLEX 0.95 rules
       (RInputExceeds (maxTokensForceComplex (overrides cfg))
        :: if useAgenticTiers then [RAgentic] else [])
       tierConfigs estimatedTokens maxOutputTokens, w')
  else
    let hasStructuredOutput :=
      match Fingerprint.truthy_str systemPrompt with
      | Some s => test structuredPattern s
      | None => false
      end in
    let reasoning0 := [RScore adjustedScore; RSignals (signals ruleResult)] in
    let chosen :=
      match (if flag (enableCache opts) then cached else None) with
      | Some {| ScoreCache.result := {| Types.tier := Some ct |} |} =>
          (* Use cached tier for stability *)
          (ct, adjustedConfidence, reasoning0 ++ [RCached])
      | _ =>
          match Types.tier ruleResult with
          | Some rt => (rt, adjustedConfidence, reasoning0)
          | None =>
              (* Ambiguous: default to configurable tier *)
              (ambiguousDefaultTier (overrides cfg), 0.5,
               reasoning0 ++ [RAmbiguous (ambiguousDefaultTier (overrides cfg))])
          end
      end in
    let tier1 := fst (fst chosen) in
    let confidence1 := snd (fst chosen) in
    let reasoning1 := snd chosen in
    (* Apply structured output minimum tier *)
    let minTier := structuredOutputMinTier (overrides cfg) in
    let upgrade :=
      hasStructuredOutput && Nat.ltb (tierRank tier1) (tierRank minTier) in
    let tier2 := if upgrade then minTier else tier1 in
    let reasoning2 := if upgrade then reasoning1 ++ [RUpgraded minTier]
                      else reasoning1 in
    let reasoning3 :=
      if isAutoAgentic then reasoning2 ++ [RAutoAgentic]
      else if isExplicitAgentic then reasoning2 ++ [RAgentic]
      else reasoning2 in
    (* Check model health if enabled *)
    let reasoning4 :=
      if flag (enableHealthTracking opts) then
        let tierModels := [CModel (primary (tierConfigs tier2));
                           CList (fallback (tierConfigs tier2))] in
        match getBestModel (health env) tier2 tierModels with
        | Some bestModel =>
            if truthyCandidate bestModel
               && negb (isModel bestModel (primary (tierConfigs tier2)))
            then reasoning3 ++ [RHealthOverride] else reasoning3
        | None => reasoning3
        end
      else reasoning3 in
    let decision :=
      selectModel tier2 confidence1 rules reasoning4 tierConfigs
        estimatedTokens maxOutputTokens in
    ({| model := model decision; tier := tier decision;
        confidence := confidence decision; method := method decision;
        reasoning := reasoning decision;
        meta := Some (fingerprint, signals ruleResult) |}, w').

End WithBuiltins.
End Router.

(* ================================================================== *)
(** * Vocabulary of the statements: traces, invariants, scenarios *)
(* ================================================================== *)

(** ** Session store *)

Module SessionSpec.
Import JS.
Local Open Scope R_scope.

(** A sequence of [recordResult] calls on one session: each call comes with
    the tracker as it answers then, the clock reading and the result. *)
Definition recordAll (st : Session.t) (sessionId : jsstring)
  (calls : list (HealthTracker * Z * Session.RequestResult)) : Session.t :=
  fold_left
    (fun s c => Session.recordResult (fst (fst c)) s (snd (fst c)) sessionId (snd c))
    calls st.

(** The store of the test "degrades after consecutive failures". *)
Definition testConfig : Session.SessionConfig :=
  {| Session.enabled := true;
     Session.timeoutMs := Session.timeoutMs Session.DEFAULT_SESSION_CONFIG;
     Session.headerName := Session.headerName Session.DEFAULT_SESSION_CONFIG;
     Session.degradationThreshold := 2;
     Session.recoveryThreshold := 3;
     Session.maxRequestHistory := 50 |}.

Definition pinned : Session.t :=
  Session.setSession (Session.create testConfig) 0 (js "session-1")
    (js "gpt-4") COMPLEX None.

Definition timeoutFailure : Session.RequestResult :=
  {| Session.success := false; Session.latencyMs := 100; Session.cost := 0;
     Session.inputTokens := 50; Session.outputTokens := 0;
     Session.error := Some (js "timeout") |}.

End SessionSpec.

(** ** Rule classifier *)

Module RulesSpec.
Import JS Rules.
Local Open Scope R_scope.

(** A signal of a dimension holds a space or is ["multi-step"]; the marker
    ["reasoning-override"] is neither. *)
Definition hasSpace (s : jsstring) : bool := existsb (N.eqb 32) s.

Definition plainSignal (s : jsstring) : Prop :=
  hasSpace s = true \/ s = js "multi-step".

Section WithBuiltins.
Context {B : Builtins}.

(** The weighted score of a request. *)
Definition weightedScoreOf (prompt : jsstring) (systemPrompt : option jsstring)
  (estimatedTokens : Z) (config : ScoringConfig) : R :=
  weightedSum (dimensionWeights config)
    (fst (scoreDimensions prompt systemPrompt estimatedTokens config)).

(** The entries of the reasoning keyword list found in the user prompt. *)
Definition reasoningMatches (prompt : jsstring) (config : ScoringConfig)
  : list jsstring :=
  keywordMatches (toLowerCase prompt) (reasoningKeywords config).

(** The history the classifier consults. *)
Definition historyOf (fingerprint : option jsstring) (h : HistoryMap)
  : ScoreHistory :=
  match truthy_fp fingerprint with
  | Some fp => getScoreHistory h fp
  | None => noHistory
  end.

End WithBuiltins.

(** The numeric defaults of the configuration (weights of the four
    dimensions used, boundaries, steepness) with one code keyword and two
    reasoning keywords; the confidence threshold is left open. *)
Definition codeConfig (threshold : R) : ScoringConfig :=
  {| tokenCountThresholds_simple := 50; tokenCountThresholds_complex := 500;
     codeKeywords := [js "function"];
     reasoningKeywords := [js "prove"; js "step by step"];
     technicalKeywords := []; creativeKeywords := []; simpleKeywords := [];
     imperativeVerbs := []; constraintIndicators := [];
     outputFormatKeywords := []; referenceKeywords := [];
     negationKeywords := []; domainSpecificKeywords := [];
     agenticTaskKeywords := [];
     dimensionWeights := [(js "tokenCount", 0.08); (js "codePresence", 0.15);
                          (js "multiStepPatterns", 0.12);
                          (js "reasoningMarkers", 0.18)];
     tierBoundaries := {| simpleMedium := 0; mediumComplex := 0.18;
                          complexReasoning := 0.4 |};
     confidenceSteepness := 12;
     confidenceThreshold := threshold |}.

(** The prompt of scenario 4 of the specification: two reasoning keywords. *)
Definition provePrompt : jsstring :=
  js "Prove that sqrt(2) is irrational, step by step.".

(** Two prompts with one fingerprint: the punctuation that tells them apart
    is removed by [normalize]. *)
Definition promptA : jsstring := js "function 2. b".

Definition promptB : jsstring := js "function 2 .b".

Definition fingerprintAB : jsstring :=
  Fingerprint.generateFingerprint (B := asciiBuiltins) promptA None.

(** The score history after [promptA] has been classified. *)
Definition historyAfterA (threshold : R) : HistoryMap :=
  snd (classifyByRules (B := asciiBuiltins) promptA None 4
         (codeConfig threshold) (Some fingerprintAB) [] 0.5).

End RulesSpec.

(** ** Fingerprints *)

Module FingerprintSpec.
Import JS Fingerprint.
#[local] Existing Instance asciiBuiltins.
Local Open Scope R_scope.

(** The feature-tag block of the fingerprint of a prompt. *)
Definition featureBlock (prompt : jsstring) : jsstring :=
  join (js "|") (sort (extractFeatures prompt)).

(** The similarity bound in the words of the specification: the differing
    positions of the common prefix plus the difference of the lengths,
    divided by the longer length, is below 0.1. *)
Definition spec_digestsWithinBound (d1 d2 : jsstring) : bool :=
  Qltb (inject_Z (Z.of_nat (diffPositions d1 d2) + Z.abs (len d1 - len d2))
        / inject_Z (Z.max (len d1) (len d2)))
       (1 # 10).

(** What the specification says [fingerprintsSimilar] decides for the
    fingerprints of two prompts. *)
Definition spec_similar (prompt1 prompt2 : jsstring) : bool :=
  str_eqb (featureBlock prompt1) (featureBlock prompt2)
  && spec_digestsWithinBound (contentHash prompt1) (contentHash prompt2).

Definition skyPrompt : jsstring := js "why is the sky blue?".

Definition birdsPrompt : jsstring := js "how do birds fly?".

Definition barPrompt1 : jsstring := js "x|yyyyyyyyyyyyyyyyyyyyyyy".

Definition barPrompt2 : jsstring := js "xz|yyyyyyyyyyyyyyyyyyyyyy".

End FingerprintSpec.

(** ** Score cache *)

Module CacheSpec.
Import JS ScoreCache.
Local Open Scope R_scope.

(** The operations of the cache, as a client issues them. *)
Inductive op : Type :=
| OpGet (now : Z) (prompt : jsstring) (systemPrompt : option jsstring)
| OpSet (now : Z) (prompt : jsstring) (systemPrompt : option jsstring)
        (res : ScoringResult) (boundaries : TierBoundaries) (score : R)
| OpCleanup (now : Z)
| OpClear.

Section WithBuiltins.
Context {B : Builtins}.

Definition step (st : t) (o : op) : t :=
  match o with
  | OpGet now p s => snd (get st now p s)
  | OpSet now p s res b sc => set st now p s res b sc
  | OpCleanup now => snd (cleanup st now)
  | OpClear => clear st
  end.

Definition run (ops : list op) (st : t) : t := fold_left step ops st.

End WithBuiltins.


(** The access order and the cache hold the same keys, each once, none
    empty. *)
Record wf (st : t) : Prop := {
  wf_order_nodup : NoDup (accessOrder st);
  wf_keys_nodup : NoDup (JSMap.keys (cache st));
  wf_same : forall k, In k (accessOrder st) <-> In k (JSMap.keys (cache st));
  wf_nonempty : forall k, In k (accessOrder st) -> k <> []
}.




(** One turn of the loop of [cleanup]. *)
Definition sweep (now : Z) (acc : nat * t) (e : jsstring * CachedScore)
  : nat * t :=
  let '(cleaned, s) := acc in
  let '(key, cached) := e in
  if (ttlMs (config s) <? now - timestamp cached)%Z then
    (S cleaned,
     {| cache := JSMap.delete (cache s) key;
        config := config s;
        accessOrder := removeFromAccessOrder (accessOrder s) key;
        jitterTracker := JSMap.delete (jitterTracker s) key;
        jitterLocks := JSMap.delete (jitterLocks s) key |})
  else acc.



(** The number of times a tier occurs in a window. *)
Definition count (l : list Tier) (x : Tier) : nat := count_occ Tier_eq_dec l x.



Section WithBuiltins.
Context {B : Builtins}.


End WithBuiltins.

(** The cache of the test "enforces max size with LRU eviction". *)
Definition smallCacheConfig : ScoreCacheConfig :=
  {| maxSize := Finite (inject_Z 2); ttlMs := ttlMs DEFAULT_CACHE_CONFIG;
     fuzzyBoundaryWidth := 0.05; jitterThreshold := Finite (inject_Z 3) |}.



Definition simpleResult : ScoringResult :=
  {| score := 0.5; tier := Some SIMPLE; confidence := 0.9; signals := [];
     agenticScore := None |}.

Definition testBoundaries : TierBoundaries :=
  {| simpleMedium := -0.2; mediumComplex := 0; complexReasoning := 0.3 |}.

Definition setPrompt (p : string) : op :=
  OpSet 0 (js p) None simpleResult testBoundaries 0.5.


Definition setTier (r : ScoringResult) (sc : R) : op :=
  OpSet 0 (js "prompt") None r testBoundaries sc.



End CacheSpec.

(** ** Route orchestrator *)

Module RouterSpec.
Import JS Router.
Local Open Scope R_scope.

Section WithBuiltins.
Context {B : Builtins}.

(** The lookup [route] starts with. *)
Definition lookedUp (prompt : jsstring) (systemPrompt : option jsstring)
  (opts : RouterOptions) (env : Env) (w : World)
  : option ScoreCache.CachedScore * ScoreCache.t :=
  if flag (enableCache opts)
  then ScoreCache.get (w_cache w) (nowGet env) prompt systemPrompt
  else (None, w_cache w).

(** The rule result [route] works with. *)
Definition ruleResultOf (prompt : jsstring) (systemPrompt : option jsstring)
  (opts : RouterOptions) (env : Env) (w : World) : ScoringResult :=
  fst (Rules.classifyByRules prompt systemPrompt
         (estimateTokens prompt systemPrompt) (scoring (config opts))
         (Some (Fingerprint.generateFingerprint prompt systemPrompt))
         (w_history w) (rnd env)).

(** The structured-output override: the tier raised to the configured
    minimum when the system prompt mentions json, structured or schema. *)
Definition raised (systemPrompt : option jsstring) (opts : RouterOptions)
  (t : Tier) : Tier :=
  let hasStructuredOutput :=
    match Fingerprint.truthy_str systemPrompt with
    | Some s => Regex.test structuredPattern s
    | None => false
    end in
  if hasStructuredOutput
     && Nat.ltb (tierRank t)
          (tierRank (structuredOutputMinTier (overrides (config opts))))
  then structuredOutputMinTier (overrides (config opts)) else t.

(** The cached entry [route] can use: present (cache enabled, not expired)
    and with a tier that is not [null]. *)
Definition usableCached (prompt : jsstring) (systemPrompt : option jsstring)
  (opts : RouterOptions) (env : Env) (w : World)
  : option (ScoreCache.CachedScore * Tier) :=
  match fst (lookedUp prompt systemPrompt opts env w) with
  | Some c =>
      match Types.tier (ScoreCache.result c) with
      | Some ct => Some (c, ct)
      | None => None
      end
  | None => None
  end.

End WithBuiltins.

(** A scoring configuration with the default weights of the table of the
    specification, default boundaries, steepness and threshold, and empty
    keyword lists. *)
Definition plainScoring : ScoringConfig :=
  {| tokenCountThresholds_simple := 50; tokenCountThresholds_complex := 500;
     codeKeywords := []; reasoningKeywords := []; technicalKeywords := [];
     creativeKeywords := []; simpleKeywords := []; imperativeVerbs := [];
     constraintIndicators := []; outputFormatKeywords := [];
     referenceKeywords := []; negationKeywords := [];
     domainSpecificKeywords := []; agenticTaskKeywords := [];
     dimensionWeights :=
       [(js "tokenCount", 0.08); (js "codePresence", 0.15);
        (js "reasoningMarkers", 0.18); (js "technicalTerms", 0.10);
        (js "creativeMarkers", 0.05); (js "simpleIndicators", 0.02);
        (js "multiStepPatterns", 0.12); (js "questionComplexity", 0.05);
        (js "imperativeVerbs", 0.03); (js "constraintCount", 0.04);
        (js "outputFormat", 0.03); (js "referenceComplexity", 0.02);
        (js "negationComplexity", 0.01); (js "domainSpecificity", 0.02);
        (js "agenticTask", 0.04)];
     tierBoundaries := {| simpleMedium := 0; mediumComplex := 0.18;
                          complexReasoning := 0.4 |};
     confidenceSteepness := 12;
     confidenceThreshold := 0.7 |}.

(** The reference tier table of the specification. *)
Definition defaultTiers (t : Tier) : TierConfig :=
  match t with
  | SIMPLE => {| primary := js "gemini-2.5-flash"; fallback := [] |}
  | MEDIUM => {| primary := js "grok-code-fast-1"; fallback := [] |}
  | COMPLEX => {| primary := js "gemini-2.5-pro"; fallback := [] |}
  | REASONING => {| primary := js "grok-4-fast-reasoning"; fallback := [] |}
  end.

Definition plainOptions : RouterOptions :=
  {| config := {| scoring := plainScoring;
                  overrides := {| maxTokensForceComplex := 100000;
                                  structuredOutputMinTier := MEDIUM;
                                  ambiguousDefaultTier := MEDIUM;
                                  agenticMode := None |};
                  tiers := defaultTiers;
                  agenticTiers := None |};
     enableCache := None; enableAdaptive := None;
     enableHealthTracking := None; sessionId := None |}.

(** The surroundings of the calls: a clock that stands still, a random draw
    that does not trigger the history cleanup, adaptive weights at their
    initial value 1, a health tracker without records. *)
Definition quietEnv : Env :=
  {| nowGet := 0; nowSet := 0; rnd := 0.5;
     adaptiveWeights := [(js "tokenCount", 1); (js "multiStepPatterns", 1)];
     health := freshTracker |}.

Definition freshWorld : World :=
  {| w_cache := ScoreCache.create ScoreCache.DEFAULT_CACHE_CONFIG;
     w_history := [] |}.

(** Two prompts with one fingerprint ([normalize] removes the full stop);
    only the second matches a multi-step pattern of the classifier. *)
Definition firstPrompt : jsstring := js "2 .b".

Definition secondPrompt : jsstring := js "2. b".

(** The state after the first prompt has been routed. *)
Definition afterFirst : World :=
  snd (route (B := asciiBuiltins) firstPrompt None 64 plainOptions quietEnv
         freshWorld).

(** A prompt of 479999 units: 120000 estimated tokens. *)
Definition hugePrompt : jsstring := repeat 97%N (Z.to_nat 479999).

End RouterSpec.

(** ** Further vocabulary: fingerprints *)

Module FingerprintTerms.
Import JS.

(** The first piece of [fp.split('|')]. *)
Definition firstPiece (fp : jsstring) : jsstring := hd [] (split 124 fp).

(** Whether the string holds a ['|']. *)
Definition hasBar (fp : jsstring) : bool := existsb (N.eqb 124) fp.

(** A string made of white space only. *)
Definition blank (s : jsstring) : Prop := forallb isSpace s = true.

(** [x] is [core] between two blank strings. *)
Definition padded (core x : jsstring) : Prop :=
  exists e e', blank e /\ blank e' /\ x = e ++ core ++ e'.

End FingerprintTerms.

(** ** Further vocabulary: rule classifier *)

Module RulesTerms.
Import JS Rules.
Local Open Scope R_scope.

(** [weights[name] ?? 0] *)
Definition weightOf (weights : JSMap.t R) (nm : jsstring) : R :=
  match JSMap.get weights nm with Some w => w | None => 0 end.

(** The names of the 15 dimensions, in the order [classifyByRules] scores
    them. *)
Definition dimensionNames : list jsstring :=
  [ js "tokenCount"; js "codePresence"; js "reasoningMarkers";
    js "technicalTerms"; js "creativeMarkers"; js "simpleIndicators";
    js "multiStepPatterns"; js "questionComplexity"; js "imperativeVerbs";
    js "constraintCount"; js "outputFormat"; js "referenceComplexity";
    js "negationComplexity"; js "domainSpecificity"; js "agenticTask" ].

(** The sum of the absolute weights of the 15 dimensions. *)
Definition weightBudget (weights : JSMap.t R) : R :=
  fold_right (fun nm acc => Rabs (weightOf weights nm) + acc) 0 dimensionNames.

(** Successive [updateScoreHistory] calls on one fingerprint with one tier;
    each comes with its random draw, score and boundary name. *)
Definition recordStreak (fingerprint : jsstring) (t : option Tier)
  (calls : list (R * R * jsstring)) (h : HistoryMap) : HistoryMap :=
  fold_left
    (fun h' u => updateScoreHistory h' (fst (fst u)) fingerprint (snd (fst u))
                   t (snd u))
    calls h.

(** A history of [n] fingerprints, oldest first. *)
Definition numberedHistory (n : nat) : HistoryMap :=
  map (fun i => (of_nat i, noHistory)) (seq 0 n).

(** Duplicate-free lists of strings, decided. *)
Fixpoint nodupb (l : list jsstring) : bool :=
  match l with
  | [] => true
  | x :: t => negb (existsb (str_eqb x) t) && nodupb t
  end.

End RulesTerms.

(** ** Further vocabulary: score cache *)

Module CacheTerms.
Import JS ScoreCache CacheSpec.
Local Open Scope R_scope.

(** Every [set] of the trace made under [key] carries the tier [t] or no
    tier. *)
Definition steady {B : Builtins} (key : jsstring) (t : Tier) (o : op) : Prop :=
  match o with
  | OpSet _ p s res _ _ =>
      Fingerprint.getCacheKey p s = key -> tier res = None \/ tier res = Some t
  | _ => True
  end.

(** A recorded window of tiers: between one and five entries. *)
Definition windowOk (l : list Tier) : Prop := (1 <= List.length l <= 5)%nat.

(** The entry is past its time to live at [now]. *)
Definition expired (cfg : ScoreCacheConfig) (now : Z) (c : CachedScore) : bool :=
  (ttlMs cfg <? now - timestamp c)%Z.

(** What the sweep does to one expired key. *)
Definition forget (s : t) (key : jsstring) : t :=
  {| cache := JSMap.delete (cache s) key;
     config := config s;
     accessOrder := removeFromAccessOrder (accessOrder s) key;
     jitterTracker := JSMap.delete (jitterTracker s) key;
     jitterLocks := JSMap.delete (jitterLocks s) key |}.

(** The key has an expired entry in the cache. *)
Definition expiredKey (st : t) (now : Z) (k : jsstring) : bool :=
  match JSMap.get (cache st) k with
  | Some c => expired (config st) now c
  | None => false
  end.

End CacheTerms.

(** ** Further vocabulary: session store *)

Module SessionTerms.
Import JS Session.
Local Open Scope R_scope.

(** The operations of the session store, as its clients (and its timer)
    issue them. *)
Inductive op : Type :=
| OpGetSession (now : Z) (sessionId : jsstring)
| OpSetSession (now : Z) (sessionId model : jsstring) (tier : Tier)
               (context : option PartialContext)
| OpRecordResult (H : HealthTracker) (now : Z) (sessionId : jsstring)
                 (res : RequestResult)
| OpUpdateContext (sessionId : jsstring) (context : PartialContext)
| OpTouchSession (now : Z) (sessionId : jsstring)
| OpClearSession (sessionId : jsstring)
| OpClearAll
| OpCleanup (now : Z).

Definition step (st : t) (o : op) : t :=
  match o with
  | OpGetSession now id => snd (getSession st now id)
  | OpSetSession now id m tr ctx => setSession st now id m tr ctx
  | OpRecordResult H now id res => recordResult H st now id res
  | OpUpdateContext id ctx => updateContext st (ById id) ctx
  | OpTouchSession now id => touchSession st now id
  | OpClearSession id => clearSession st id
  | OpClearAll => clearAll st
  | OpCleanup now => cleanup st now
  end.

Definition run (ops : list op) (st : t) : t := fold_left step ops st.





End SessionTerms.

(** ** Further vocabulary: route orchestrator *)

Module RouterTerms.
Import JS Router RouterSpec.
Local Open Scope R_scope.

(** The options of [plainOptions] with the score cache switched off. *)
Definition uncachedOptions : RouterOptions :=
  {| config := config plainOptions; enableCache := Some false;
     enableAdaptive := enableAdaptive plainOptions;
     enableHealthTracking := enableHealthTracking plainOptions;
     sessionId := sessionId plainOptions |}.

End RouterTerms.

(* ================================================================== *)
(** * Properties *)
(* ================================================================== *)

(** ** Sanity checks of the embedding *)

Module RegexExamples.
Import JS Regex.
Example step_digits :
  test (Seq (Lit true (js "step")) (Seq (Plus (Class isSpace)) (Plus (Class isDigit))))
       (js "do Step  12 now") = true.
Proof. reflexivity. Qed.
Example word_boundary :
  test (Seq WordB (Seq (Lit false (js "function")) WordB)) (js "functional") = false
  /\ test (Seq WordB (Seq (Lit false (js "function")) WordB)) (js "a function(x)") = true.
Proof. split; reflexivity. Qed.
Example bounded_repeat :
  test (Seq (Chr 97) (Seq (Repeat 1 2 (Class (fun _ => true))) (Chr 98))) (js "axxb") = true
  /\ test (Seq (Chr 97) (Seq (Repeat 1 2 (Class (fun _ => true))) (Chr 98))) (js "axxxb") = false
  /\ test (Seq (Chr 97) (Seq (Repeat 1 2 (Class (fun _ => true))) (Chr 98))) (js "ab") = false.
Proof. repeat split; reflexivity. Qed.
End RegexExamples.

Module FingerprintExamples.
Import JS Fingerprint.
#[local] Existing Instance asciiBuiltins.

Example fp_what_is :
  generateFingerprint (js "What is 2+2?") None = js "Q1|SHORT|what is 2+2?|none".
Proof. vm_compute. reflexivity. Qed.

Example fp_explain :
  generateFingerprint (js "Explain quantum physics") None
  = js "REASONING|SHORT|explain quantum physics|none".
Proof. vm_compute. reflexivity. Qed.

Example fp_code :
  generateFingerprint (js "function add(a, b) { return a + b; }") None
  = js "CODE|SHORT|function add(a  b) { return a + b  }|none".
Proof. vm_compute. reflexivity. Qed.

Example fp_steps :
  generateFingerprint (js "Step 1: Do this. Step 2: Do that.") (Some (js "Be brief."))
  = js "MULTISTEP|REASONING|SHORT|step 1  do this  step 2  do that|be brief".
Proof. vm_compute. reflexivity. Qed.

Example similar_case :
  fingerprintsSimilar (generateFingerprint (js "Hello World") None)
                      (generateFingerprint (js "hello world") None) = Some true.
Proof. vm_compute. reflexivity. Qed.

Example different_features :
  fingerprintsSimilar (generateFingerprint (js "What is 2+2?") None)
                      (generateFingerprint (js "Explain quantum physics") None)
  = Some false.
Proof. vm_compute. reflexivity. Qed.
End FingerprintExamples.

(** ** Strings and maps *)

Module JSFacts.
Import JS.

Lemma str_eqb_eq : forall a b, str_eqb a b = true <-> a = b.
Proof.
  induction a as [|x a IH]; destruct b as [|y b]; simpl; split;
    try discriminate; try reflexivity.
  - intros H. apply andb_true_iff in H as [H1 H2].
    apply N.eqb_eq in H1. apply IH in H2. congruence.
  - intros H. injection H as -> ->.
    rewrite N.eqb_refl. simpl. now apply IH.
Qed.

Lemma str_eqb_refl : forall a, str_eqb a a = true.
Proof. intros a. now apply str_eqb_eq. Qed.

Lemma str_eqb_neq : forall a b, str_eqb a b = false <-> a <> b.
Proof.
  intros a b. split.
  - intros H E. apply str_eqb_eq in E. congruence.
  - intros H. destruct (str_eqb a b) eqn:E; [|reflexivity].
    apply str_eqb_eq in E. contradiction.
Qed.

Lemma str_eqb_sym : forall a b, str_eqb a b = str_eqb b a.
Proof.
  intros a b. destruct (str_eqb a b) eqn:E.
  - apply str_eqb_eq in E. subst. now rewrite str_eqb_refl.
  - apply str_eqb_neq in E. symmetry. apply str_eqb_neq. congruence.
Qed.

Section MapFacts.
Variable V : Type.
Implicit Types (m : JSMap.t V) (k : jsstring) (v : V).

Lemma get_set_same : forall m k v, JSMap.get (JSMap.set m k v) k = Some v.
Proof.
  induction m as [|[k' v'] m IH]; intros k v; simpl.
  - now rewrite str_eqb_refl.
  - destruct (str_eqb k' k) eqn:E; simpl; rewrite E; auto.
Qed.

Lemma get_set_other : forall m k k' v,
  k' <> k -> JSMap.get (JSMap.set m k v) k' = JSMap.get m k'.
Proof.
  induction m as [|[k0 v0] m IH]; intros k k' v Hne; simpl.
  - destruct (str_eqb k k') eqn:E; [|reflexivity].
    apply str_eqb_eq in E. congruence.
  - destruct (str_eqb k0 k) eqn:E; simpl.
    + apply str_eqb_eq in E. subst k0.
      destruct (str_eqb k k') eqn:E'; [|reflexivity].
      apply str_eqb_eq in E'. congruence.
    + destruct (str_eqb k0 k'); auto.
Qed.

Lemma get_delete_same : forall m k, JSMap.get (JSMap.delete m k) k = None.
Proof.
  induction m as [|[k0 v0] m IH]; intros k; simpl; [reflexivity|].
  unfold JSMap.delete in *. simpl.
  destruct (str_eqb k0 k) eqn:E; simpl; [apply IH|].
  rewrite E. apply IH.
Qed.

Lemma get_delete_other : forall m k k',
  k' <> k -> JSMap.get (JSMap.delete m k) k' = JSMap.get m k'.
Proof.
  induction m as [|[k0 v0] m IH]; intros k k' Hne; simpl; [reflexivity|].
  unfold JSMap.delete in *. simpl.
  destruct (str_eqb k0 k) eqn:E; simpl.
  - apply str_eqb_eq in E. subst k0.
    destruct (str_eqb k k') eqn:E'.
    + apply str_eqb_eq in E'. congruence.
    + now apply IH.
  - destruct (str_eqb k0 k'); [reflexivity|]. now apply IH.
Qed.

Lemma get_In_keys : forall m k,
  JSMap.get m k <> None <-> In k (JSMap.keys m).
Proof.
  induction m as [|[k0 v0] m IH]; intros k; simpl.
  - split; [congruence | tauto].
  - destruct (str_eqb k0 k) eqn:E.
    + apply str_eqb_eq in E. split; [auto | discriminate].
    + apply str_eqb_neq in E. rewrite IH. split; [auto | intros [?|?]; tauto].
Qed.

Lemma has_true_iff : forall m k, JSMap.has m k = true <-> In k (JSMap.keys m).
Proof.
  intros m k. rewrite <- get_In_keys. unfold JSMap.has.
  destruct (JSMap.get m k); split; congruence.
Qed.

End MapFacts.
End JSFacts.

(** ** Health tracker *)

Module HealthProps.
Import JS JSFacts.
Local Open Scope R_scope.

Lemma available_incl : forall cands st clock i c,
  In c (fst (ModelHealth.available st clock i cands)) -> In c cands.
Proof.
  induction cands as [|x cands IH]; intros st clock i c H; [exact H|].
  cbn [ModelHealth.available fst] in H.
  destruct (fst (ModelHealth.isAvailable st (clock i) x)).
  - destruct H as [<-|H]; [now left | right; eapply IH; exact H].
  - right. eapply IH. exact H.
Qed.

(** Whatever the sort of the engine does with the comparator, as long as it
    returns entries of the array it is given, [getBestModel] answers with
    one of its candidates. *)
Lemma tracker_selects :
  forall sortRanked : (ModelHealth.Ranked -> ModelHealth.Ranked -> R)
                      -> list ModelHealth.Ranked -> list ModelHealth.Ranked,
    (forall cmp l x, In x (sortRanked cmp l) -> In x l) ->
    forall st clock, selects_candidates (ModelHealth.tracker sortRanked st clock).
Proof.
  intros sortRanked Hsort st clock t cands c.
  unfold ModelHealth.tracker, ModelHealth.getBestModel. cbn [getBestModel fst].
  destruct (sortRanked ModelHealth.compareHealth _) as [|best rest] eqn:E;
    [discriminate|].
  destruct (truthyCandidate (ModelHealth.r_model best)); [|discriminate].
  intros H. injection H as <-.
  assert (Hin : In best (sortRanked ModelHealth.compareHealth
                           (map (fun m => {| ModelHealth.r_model := m;
                                             ModelHealth.r_health :=
                                               ModelHealth.recordOf
                                                 (snd (ModelHealth.available st clock 0 cands)) m |})
                                (fst (ModelHealth.available st clock 0 cands))))).
  { rewrite E. now left. }
  apply Hsort in Hin. apply in_map_iff in Hin. destruct Hin as (m & <- & Hm).
  cbn [ModelHealth.r_model]. eapply available_incl. exact Hm.
Qed.

Lemma insertRanked_In : forall cmp x l y,
  In y (ModelHealth.insertRanked cmp x l) -> y = x \/ In y l.
Proof.
  intros cmp x. induction l as [|z l IH]; intros y H; simpl in *.
  - destruct H as [<-|[]]. now left.
  - destruct (Rlt_dec (cmp x z) 0).
    + destruct H as [<-|H]; [now left | now right].
    + destruct H as [<-|H]; [right; now left|].
      destruct (IH y H) as [->|Hy]; [now left | right; now right].
Qed.

Lemma stableSort_incl : forall cmp l x,
  In x (ModelHealth.stableSort cmp l) -> In x l.
Proof.
  intros cmp l x. unfold ModelHealth.stableSort.
  assert (H : forall l acc,
            In x (fold_left (fun a y => ModelHealth.insertRanked cmp y a) l acc) ->
            In x acc \/ In x l).
  { clear l. induction l as [|z l IH]; intros acc Hin; [now left|].
    cbn [fold_left] in Hin. destruct (IH _ Hin) as [Hacc|Hl].
    - destruct (insertRanked_In _ _ _ _ Hacc) as [->|Hy];
        [right; now left | now left].
    - right. now right. }
  intros Hin. destruct (H l [] Hin) as [[]|Hl]. exact Hl.
Qed.

(** The tracker of [model-health.ts], with the stable sort, answers with one
    of its candidates in every state. *)
Lemma stableSort_selects : forall st clock,
  selects_candidates (ModelHealth.tracker ModelHealth.stableSort st clock).
Proof. intros st clock. apply tracker_selects. exact stableSort_incl. Qed.

Lemma freshTracker_selects : selects_candidates freshTracker.
Proof. apply stableSort_selects. Qed.

(** ** The tracker without records *)

Lemma available_fresh : forall cfg clock cands i,
  ModelHealth.available (ModelHealth.create cfg) clock i cands
  = (cands, ModelHealth.create cfg).
Proof.
  intros cfg clock. induction cands as [|c cands IH]; intros i; [reflexivity|].
  cbn [ModelHealth.available]. cbv zeta.
  assert (Hi : ModelHealth.isAvailable (ModelHealth.create cfg) (clock i) c
               = (true, ModelHealth.create cfg)) by (destruct c; reflexivity).
  rewrite Hi. cbn [fst snd]. now rewrite IH.
Qed.

Lemma compareHealth_unknown : forall a b,
  ModelHealth.r_health a = None -> ModelHealth.r_health b = None ->
  ModelHealth.compareHealth a b = 0.
Proof.
  intros a b Ha Hb. unfold ModelHealth.compareHealth. rewrite Ha, Hb.
  cbn [ModelHealth.statusPriority Z.eqb negb].
  destruct (Rlt_dec 0.05 (Rabs (1 - 1))) as [H|_]; [|lra].
  replace (1 - 1) with 0 in H by lra. rewrite Rabs_R0 in H. lra.
Qed.

Lemma stableSort_unknown : forall l,
  Forall (fun x => ModelHealth.r_health x = None) l ->
  ModelHealth.stableSort ModelHealth.compareHealth l = l.
Proof.
  intros l Hl. unfold ModelHealth.stableSort.
  assert (Hins : forall x acc,
            ModelHealth.r_health x = None ->
            Forall (fun y => ModelHealth.r_health y = None) acc ->
            ModelHealth.insertRanked ModelHealth.compareHealth x acc = acc ++ [x]).
  { intros x. induction acc as [|y acc IH]; intros Hx Hacc; [reflexivity|].
    inversion Hacc as [|? ? Hy Hrest]; subst. cbn [ModelHealth.insertRanked app].
    rewrite (compareHealth_unknown _ _ Hx Hy).
    destruct (Rlt_dec 0 0) as [H|_]; [lra|]. now rewrite IH. }
  assert (H : forall l acc,
            Forall (fun x => ModelHealth.r_health x = None) l ->
            Forall (fun x => ModelHealth.r_health x = None) acc ->
            fold_left (fun a x => ModelHealth.insertRanked ModelHealth.compareHealth x a)
              l acc = acc ++ l).
  { clear l Hl. induction l as [|x l IH]; intros acc Hl Hacc.
    - now rewrite app_nil_r.
    - inversion Hl as [|? ? Hx Hrest]; subst. cbn [fold_left].
      rewrite Hins by assumption. rewrite IH.
      + now rewrite <- app_assoc.
      + exact Hrest.
      + apply Forall_app. split; [exact Hacc | now constructor]. }
  now rewrite H.
Qed.

(** Without records every model is available, and [getBestModel] answers
    with the first candidate, or with [null] when that is the empty
    string. *)
Lemma freshTracker_first : forall t cands,
  getBestModel freshTracker t cands
  = match cands with
    | c :: _ => if truthyCandidate c then Some c else None
    | [] => None
    end
  /\ forall m, isAvailable freshTracker m = true.
Proof.
  intros t cands. split; [|reflexivity].
  unfold freshTracker, ModelHealth.tracker, ModelHealth.getBestModel.
  cbn [getBestModel]. rewrite available_fresh. cbn [fst snd].
  rewrite stableSort_unknown.
  - destruct cands as [|c cands]; reflexivity.
  - apply Forall_forall. intros x Hx. apply in_map_iff in Hx.
    destruct Hx as (m & <- & _). cbn [ModelHealth.r_health].
    destruct m; reflexivity.
Qed.

End HealthProps.

(** ** Session store *)

Module SessionProps.
Import JS JSFacts SessionSpec.

Lemma degradeSession_no_candidates :
  forall H st now sid why,
    selects_candidates H -> Session.degradeSession H st now sid why = st.
Proof.
  intros H st now sid why Hsel. unfold Session.degradeSession.
  destruct (JSMap.get (Session.sessions st) sid) as [entry|]; [|reflexivity].
  destruct (Session.isDegraded (Session.degradation entry)); [reflexivity|].
  unfold Session.getTierModels. cbn [map].
  destruct (getBestModel H (Session.tier entry) []) as [m|] eqn:E; [|reflexivity].
  apply Hsel in E. destruct E.
Qed.

Lemma isDegraded_set_same : forall st sid e,
  Session.isDegradedSession
    (Session.with_sessions st (JSMap.set (Session.sessions st) sid e)) sid
  = Session.isDegraded (Session.degradation e).
Proof.
  intros. unfold Session.isDegradedSession, Session.with_sessions. simpl.
  now rewrite get_set_same.
Qed.

Lemma isDegraded_set_other : forall st sid sid' e,
  sid' <> sid ->
  Session.isDegradedSession
    (Session.with_sessions st (JSMap.set (Session.sessions st) sid e)) sid'
  = Session.isDegradedSession st sid'.
Proof.
  intros. unfold Session.isDegradedSession, Session.with_sessions. simpl.
  now rewrite get_set_other.
Qed.

Lemma recordResult_keeps_undegraded :
  forall H st now sid res sid',
    selects_candidates H ->
    Session.isDegradedSession st sid' = false ->
    Session.isDegradedSession (Session.recordResult H st now sid res) sid' = false.
Proof.
  intros H st now sid res sid' Hsel Hnot.
  unfold Session.recordResult.
  destruct (negb (Session.enabled (Session.config st)) || Session.emptyId sid);
    [assumption|].
  destruct (JSMap.get (Session.sessions st) sid) as [entry|] eqn:Eget;
    [|assumption].
  assert (Hsame : sid' = sid ->
            Session.isDegraded (Session.degradation entry) = false).
  { intros ->. unfold Session.isDegradedSession in Hnot.
    now rewrite Eget in Hnot. }
  destruct (list_eq_dec N.eq_dec sid' sid) as [Heq|Hne].
  - specialize (Hsame Heq). subst sid'.
    destruct (Session.success res).
    + rewrite Hsame. now rewrite isDegraded_set_same.
    + match goal with
      | |- context [if ?c then Session.degradeSession _ _ _ _ _ else _] =>
          destruct c
      end.
      * rewrite degradeSession_no_candidates by assumption.
        now rewrite isDegraded_set_same.
      * now rewrite isDegraded_set_same.
  - destruct (Session.success res).
    + destruct (Session.isDegraded (Session.degradation entry)).
      * match goal with
        | |- context [if ?c then Session.restoreOriginalModel _ _ _ else _] =>
            destruct c
        end.
        -- unfold Session.restoreOriginalModel.
           simpl. rewrite get_set_same. simpl.
           destruct (Session.originalModel (Session.degradation entry))
             as [[|c s]|]; try now rewrite isDegraded_set_other.
           destruct (Session.originalTier (Session.degradation entry));
             try now rewrite isDegraded_set_other.
           destruct (isAvailable H (c :: s)).
           ++ unfold Session.isDegradedSession, Session.with_sessions. simpl.
              rewrite !get_set_other by assumption. exact Hnot.
           ++ now rewrite isDegraded_set_other.
        -- now rewrite isDegraded_set_other.
      * now rewrite isDegraded_set_other.
    + match goal with
      | |- context [if ?c then Session.degradeSession _ _ _ _ _ else _] =>
          destruct c
      end.
      * rewrite degradeSession_no_candidates by assumption.
        now rewrite isDegraded_set_other.
      * now rewrite isDegraded_set_other.
Qed.

(** C4.  Whatever the results reported, [recordResult] never moves a
    session into the degraded state: [degradeSession] asks the health
    tracker to choose among [getTierModels(tier)], which is the empty
    array, so a tracker that answers with one of its candidates has
    nothing to answer and [isDegraded] stays [false] after any number of
    consecutive failures. *)
Theorem C4_recordResult_never_degrades :
  forall (calls : list (HealthTracker * Z * Session.RequestResult))
         (st : Session.t) (sessionId : jsstring),
    (forall c, In c calls -> selects_candidates (fst (fst c))) ->
    Session.isDegradedSession st sessionId = false ->
    Session.isDegradedSession (recordAll st sessionId calls) sessionId = false.
Proof.
  induction calls as [|c calls IH]; intros st sid Hall Hnot; simpl.
  - exact Hnot.
  - apply IH.
    + intros c' Hin. apply Hall. now right.
    + apply recordResult_keeps_undegraded; [|exact Hnot].
      apply Hall. now left.
Qed.

(** The run of the repository's test: two consecutive failures at the
    default threshold 2 leave the session undegraded. *)
Lemma C4_two_failures_witness :
  Session.isDegradedSession
    (recordAll pinned (js "session-1")
       [(freshTracker, 1%Z, timeoutFailure); (freshTracker, 2%Z, timeoutFailure)])
    (js "session-1") = false.
Proof.
  apply C4_recordResult_never_degrades.
  - intros c [<-|[<-|[]]]; exact HealthProps.freshTracker_selects.
  - reflexivity.
Defined.

(** C10.  The default configuration has sessions disabled; with a disabled
    store (whatever the session id) or with the empty session id,
    [setSession] and [recordResult] return the store unchanged and
    [getSession] returns [undefined], also leaving the store unchanged. *)
Theorem C10_disabled_store_is_inert :
  Session.enabled Session.DEFAULT_SESSION_CONFIG = false /\
  forall (H : HealthTracker) (st : Session.t) (now : Z) (sessionId : jsstring)
         (m : jsstring) (t : Tier) (ctx : option Session.PartialContext)
         (res : Session.RequestResult),
    Session.enabled (Session.config st) = false \/ sessionId = [] ->
    Session.setSession st now sessionId m t ctx = st /\
    Session.recordResult H st now sessionId res = st /\
    Session.getSession st now sessionId = (None, st).
Proof.
  split; [reflexivity|].
  intros H st now sid m t ctx res Hoff.
  assert (E : negb (Session.enabled (Session.config st)) || Session.emptyId sid
              = true).
  { destruct Hoff as [-> | ->]; [reflexivity|]. apply orb_true_r. }
  unfold Session.setSession, Session.recordResult, Session.getSession.
  rewrite E. auto.
Qed.

(** The store built from [DEFAULT_SESSION_CONFIG] is disabled. *)
Lemma C10_default_store_witness :
  Session.setSession (Session.create Session.DEFAULT_SESSION_CONFIG) 0
    (js "session-1") (js "gpt-4") COMPLEX None
  = Session.create Session.DEFAULT_SESSION_CONFIG /\
  Session.recordResult freshTracker
    (Session.create Session.DEFAULT_SESSION_CONFIG) 0 (js "session-1")
    timeoutFailure
  = Session.create Session.DEFAULT_SESSION_CONFIG /\
  Session.getSession (Session.create Session.DEFAULT_SESSION_CONFIG) 0
    (js "session-1")
  = (None, Session.create Session.DEFAULT_SESSION_CONFIG).
Proof.
  apply (proj2 C10_disabled_store_is_inert). left. reflexivity.
Defined.

End SessionProps.

(** ** Rule classifier *)

Module RulesProps.
Import JS JSFacts Rules RulesSpec.
Local Open Scope R_scope.

Section WithBuiltins.
Context {B : Builtins}.

Lemma classify_override :
  forall prompt sys n cfg fp h rnd,
    (2 <= List.length (reasoningMatches prompt cfg))%nat ->
    let r := fst (classifyByRules prompt sys n cfg fp h rnd) in
    tier r = Some REASONING /\
    confidence r
    = Rmax (calibrateConfidence (Rmax (weightedScoreOf prompt sys n cfg) 0.3)
              (confidenceSteepness cfg)) 0.85.
Proof.
  intros prompt sys n cfg fp h rnd Hm r. subst r.
  unfold classifyByRules, weightedScoreOf, reasoningMatches in *.
  destruct (scoreDimensions prompt sys n cfg) as [dims ag]. cbv zeta. cbn [fst].
  apply Nat.leb_le in Hm. rewrite Hm. simpl. auto.
Qed.

Lemma classify_no_override :
  forall prompt sys n cfg fp h rnd,
    (List.length (reasoningMatches prompt cfg) < 2)%nat ->
    let r := fst (classifyByRules prompt sys n cfg fp h rnd) in
    let d := calculateTierWithHysteresis (weightedScoreOf prompt sys n cfg)
               (tierBoundaries cfg) (historyOf fp h) 0.05 in
    let c := calibrateConfidence (td_distance d) (confidenceSteepness cfg) in
    confidence r = c /\
    tier r = (if Rlt_dec c (confidenceThreshold cfg) then None else td_tier d) /\
    exists extra,
      signals r
      = collectSignals (fst (scoreDimensions prompt sys n cfg)) ++ extra /\
      Forall plainSignal extra.
Proof.
  intros prompt sys n cfg fp h rnd Hm r d c. subst r d c.
  unfold classifyByRules, weightedScoreOf, reasoningMatches, historyOf in *.
  destruct (scoreDimensions prompt sys n cfg) as [dims ag]. cbv zeta. cbn [fst].
  apply Nat.leb_gt in Hm. rewrite Hm.
  set (hist := match truthy_fp fp with
               | Some fp0 => getScoreHistory h fp0
               | None => noHistory
               end).
  set (d := calculateTierWithHysteresis _ _ hist 0.05).
  destruct (Rlt_dec (calibrateConfidence (td_distance d) (confidenceSteepness cfg))
              (confidenceThreshold cfg)); simpl;
    (split; [reflexivity|split; [reflexivity|]]);
    destruct (td_usedHysteresis d);
    solve [ exists []; rewrite app_nil_r; split; [reflexivity|constructor]
          | eexists; split; [reflexivity|];
            constructor; [left; reflexivity|constructor] ].
Qed.

Lemma filter_two_distinct :
  forall (f : jsstring -> bool) (l : list jsstring) a b,
    In a l -> In b l -> a <> b -> f a = true -> f b = true ->
    (2 <= List.length (filter f l))%nat.
Proof.
  intros f l a b Ha Hb Hne Hfa Hfb.
  assert (Hin : forall x, In x l -> f x = true -> In x (filter f l)).
  { intros x Hx Hf. apply filter_In. auto. }
  pose proof (Hin a Ha Hfa) as Ia. pose proof (Hin b Hb Hfb) as Ib.
  destruct (filter f l) as [|x [|y t]]; simpl in *.
  - contradiction.
  - destruct Ia as [<-|[]]. destruct Ib as [<-|[]]. contradiction.
  - lia.
Qed.

Lemma hasSpace_app_l : forall a b, hasSpace a = true -> hasSpace (a ++ b) = true.
Proof. intros a b H. unfold hasSpace in *. rewrite existsb_app, H. reflexivity. Qed.

Lemma hasSpace_app_r : forall a b, hasSpace b = true -> hasSpace (a ++ b) = true.
Proof.
  intros a b H. unfold hasSpace in *. rewrite existsb_app, H. apply orb_true_r.
Qed.

Lemma hasSpace_mid : forall a b, hasSpace (a ++ 32%N :: b) = true.
Proof. intros a b. apply hasSpace_app_r. reflexivity. Qed.

Ltac find_space :=
  first [ reflexivity
        | apply hasSpace_mid
        | apply hasSpace_app_r; reflexivity
        | apply hasSpace_app_l; reflexivity ].

Lemma scoreKeywordMatch_signal :
  forall text kws nm label lo hi sn sl sh s,
    signal (scoreKeywordMatch text kws nm label lo hi sn sl sh) = Some s ->
    plainSignal s.
Proof.
  intros text kws nm label lo hi sn sl sh s. unfold scoreKeywordMatch.
  destruct (Nat.leb hi _); [|destruct (Nat.leb lo _)]; cbn [signal];
    intros E; try discriminate; injection E as <-; left; find_space.
Qed.

Lemma scoreTokenCount_signal :
  forall n lo hi s, signal (scoreTokenCount n lo hi) = Some s -> plainSignal s.
Proof.
  intros n lo hi s. unfold scoreTokenCount.
  destruct (n <? lo)%Z; [|destruct (hi <? n)%Z]; cbn [signal];
    intros E; try discriminate; injection E as <-; left; find_space.
Qed.

Lemma scoreMultiStep_signal :
  forall text s, signal (scoreMultiStep text) = Some s -> plainSignal s.
Proof.
  intros text s. unfold scoreMultiStep.
  destruct (Nat.ltb 0 _); cbn [signal]; intros E; try discriminate.
  injection E as <-. right. reflexivity.
Qed.

Lemma scoreQuestionComplexity_signal :
  forall prompt s,
    signal (scoreQuestionComplexity prompt) = Some s -> plainSignal s.
Proof.
  intros prompt s. unfold scoreQuestionComplexity.
  destruct (Nat.ltb 3 _); [|destruct (_ && _)]; cbn [signal];
    intros E; try discriminate; injection E as <-; left; find_space.
Qed.

Lemma scoreAgenticTask_signal :
  forall text kws s,
    signal (fst (scoreAgenticTask text kws)) = Some s -> plainSignal s.
Proof.
  intros text kws s. unfold scoreAgenticTask.
  destruct (Nat.leb 4 _); [|destruct (Nat.leb 3 _); [|destruct (Nat.leb 1 _)]];
    cbn [fst signal]; intros E; try discriminate; injection E as <-;
    left; find_space.
Qed.

Lemma collectSignals_cons :
  forall d ds,
    (forall s, signal d = Some s -> plainSignal s) ->
    Forall plainSignal (collectSignals ds) ->
    Forall plainSignal (collectSignals (d :: ds)).
Proof.
  intros d ds Hd Hds. unfold collectSignals in *. cbn [flat_map].
  destruct (signal d) as [s|]; cbn [app]; [|exact Hds].
  constructor; [now apply Hd | exact Hds].
Qed.

Lemma scoreDimensions_signals :
  forall prompt sys n cfg,
    Forall plainSignal (collectSignals (fst (scoreDimensions prompt sys n cfg))).
Proof.
  intros prompt sys n cfg. unfold scoreDimensions. cbn [fst].
  repeat (apply collectSignals_cons;
          [ intros s;
            first [ apply scoreTokenCount_signal
                  | apply scoreKeywordMatch_signal
                  | apply scoreMultiStep_signal
                  | apply scoreQuestionComplexity_signal
                  | apply scoreAgenticTask_signal ] | ]).
  constructor.
Qed.

Lemma override_marker_not_plain : ~ plainSignal (js "reasoning-override").
Proof. intros [H|H]; vm_compute in H; discriminate. Qed.

End WithBuiltins.
End RulesProps.

Module RulesClaims.
Import JS JSFacts Rules RulesProps RulesSpec.
Local Open Scope R_scope.

Lemma exp_neg_06_lower : 0.49 <= exp (- 12 * 0.05).
Proof.
  replace (- 12 * 0.05) with (- 0.3 + - 0.3) by lra.
  rewrite exp_plus.
  pose proof (exp_ineq1_le (- 0.3)) as H.
  nra.
Qed.

Lemma exp_neg_06_upper : exp (- 12 * 0.05) <= 0.625.
Proof.
  replace (- 12 * 0.05) with (Ropp 0.6) by lra.
  rewrite (exp_Ropp 0.6).
  pose proof (exp_ineq1_le 0.6) as H.
  pose proof (exp_pos 0.6) as Hp.
  apply Rmult_le_reg_r with (exp 0.6); [exact Hp|].
  rewrite Rinv_l by lra. lra.
Qed.

(** The confidence of a tier kept in the fuzzy region, at the default
    steepness: [sigmoid(0.6)], about 0.646. *)
Lemma fuzzy_confidence_below_default : calibrateConfidence 0.05 12 < 0.7.
Proof.
  unfold calibrateConfidence.
  pose proof exp_neg_06_lower as H.
  set (e := exp (- 12 * 0.05)) in *.
  apply Rmult_lt_reg_r with (1 + e); [lra|].
  unfold Rdiv. rewrite Rmult_assoc, Rinv_l by lra. lra.
Qed.

Lemma fuzzy_confidence_above_06 : 0.6 <= calibrateConfidence 0.05 12.
Proof.
  unfold calibrateConfidence.
  pose proof exp_neg_06_upper as H.
  pose proof (exp_pos (- 12 * 0.05)) as Hp.
  set (e := exp (- 12 * 0.05)) in *.
  apply Rmult_le_reg_r with (1 + e); [lra|].
  unfold Rdiv. rewrite Rmult_assoc, Rinv_l by lra. lra.
Qed.

Section WithBuiltins.
Context {B : Builtins}.

Lemma historyOf_truthy :
  forall (fp : jsstring) h, fp <> [] -> historyOf (Some fp) h = getScoreHistory h fp.
Proof.
  intros fp h Hne. unfold historyOf, truthy_fp, Fingerprint.truthy_str.
  destruct fp; [contradiction|reflexivity].
Qed.

(** In the fuzzy region the hysteresis step keeps the last tier and reports
    the distance 0.05. *)
Lemma hysteresis_fuzzy :
  forall ws b hist T nt dist bn,
    lastTier hist = Some T ->
    naturalTier ws b = (nt, dist, bn) ->
    nt <> T -> dist < 0.05 ->
    calculateTierWithHysteresis ws b hist 0.05
    = {| td_tier := Some T; td_distance := 0.05; td_boundary := bn;
         td_usedHysteresis := true |}.
Proof.
  intros ws b hist T nt dist bn HT Hnat Hne Hd.
  unfold calculateTierWithHysteresis. rewrite Hnat, HT.
  unfold Tier_eqb. destruct (Tier_eq_dec nt T) as [E|_]; [contradiction|].
  destruct (Rlt_dec dist 0.05); [reflexivity|contradiction].
Qed.

(** With no last tier, or with the last tier equal to the natural one, the
    hysteresis step returns the natural tier. *)
Lemma hysteresis_plain :
  forall ws b hist nt dist bn,
    lastTier hist = None \/ lastTier hist = Some nt ->
    naturalTier ws b = (nt, dist, bn) ->
    calculateTierWithHysteresis ws b hist 0.05
    = {| td_tier := Some nt; td_distance := dist; td_boundary := bn;
         td_usedHysteresis := false |}.
Proof.
  intros ws b hist nt dist bn Hlast Hnat.
  unfold calculateTierWithHysteresis. rewrite Hnat.
  destruct Hlast as [-> | ->]; [reflexivity|].
  unfold Tier_eqb. destruct (Tier_eq_dec nt nt); [reflexivity|contradiction].
Qed.

Lemma classify_fuzzy :
  forall prompt sys n cfg fp h rnd T nt dist bn,
    lastTier (historyOf fp h) = Some T ->
    (List.length (reasoningMatches prompt cfg) < 2)%nat ->
    naturalTier (weightedScoreOf prompt sys n cfg) (tierBoundaries cfg)
    = (nt, dist, bn) ->
    nt <> T -> dist < 0.05 ->
    let r := fst (classifyByRules prompt sys n cfg fp h rnd) in
    let c := calibrateConfidence 0.05 (confidenceSteepness cfg) in
    confidence r = c /\
    tier r = if Rlt_dec c (confidenceThreshold cfg) then None else Some T.
Proof.
  intros prompt sys n cfg fp h rnd T nt dist bn HT Hm Hnat Hne Hd r c.
  destruct (classify_no_override prompt sys n cfg fp h rnd Hm) as (Hc & Ht & _).
  rewrite (hysteresis_fuzzy _ _ _ HT Hnat Hne Hd) in Hc, Ht.
  simpl in Hc, Ht. split; assumption.
Qed.

(** Without a reasoning override and with a fingerprint, the call records
    the tier chosen by the hysteresis step. *)
Lemma classify_records :
  forall prompt sys n cfg (fp : jsstring) h rnd,
    fp <> [] ->
    (List.length (reasoningMatches prompt cfg) < 2)%nat ->
    ~ rnd < 0.01 ->
    let d := calculateTierWithHysteresis (weightedScoreOf prompt sys n cfg)
               (tierBoundaries cfg) (getScoreHistory h fp) 0.05 in
    lastTier (getScoreHistory
                (snd (classifyByRules prompt sys n cfg (Some fp) h rnd)) fp)
    = td_tier d.
Proof.
  intros prompt sys n cfg fp h rnd Hfp Hm Hrnd d. subst d.
  unfold classifyByRules, weightedScoreOf, reasoningMatches in *.
  destruct (scoreDimensions prompt sys n cfg) as [dims ag]. cbv zeta. cbn [fst].
  apply Nat.leb_gt in Hm. rewrite Hm.
  unfold truthy_fp, Fingerprint.truthy_str.
  destruct fp as [|c0 fp0]; [contradiction|].
  set (d := calculateTierWithHysteresis _ _ _ 0.05).
  assert (Hupd : forall s t bnd,
    lastTier (getScoreHistory (updateScoreHistory h rnd (c0 :: fp0) s t bnd)
                (c0 :: fp0)) = t).
  { intros s t bnd. unfold updateScoreHistory.
    destruct (Rlt_dec rnd 0.01); [contradiction|].
    unfold getScoreHistory. now rewrite get_set_same. }
  destruct (Rlt_dec _ (confidenceThreshold cfg)); cbn [snd]; apply Hupd.
Qed.

End WithBuiltins.

(** C9.  A call of [classifyByRules] without a fingerprint returns a result
    that does not depend on the score history or on the random draw, and
    leaves the history as it found it: two such calls with the same prompt,
    system prompt, token estimate and configuration return the same
    [ScoringResult]. *)
Theorem C9_classify_without_fingerprint_is_a_function :
  forall (B : Builtins) (prompt : jsstring) (systemPrompt : option jsstring)
         (estimatedTokens : Z) (config : ScoringConfig)
         (h1 h2 : HistoryMap) (rnd1 rnd2 : R),
    fst (classifyByRules prompt systemPrompt estimatedTokens config None h1 rnd1)
    = fst (classifyByRules prompt systemPrompt estimatedTokens config None h2 rnd2)
    /\ snd (classifyByRules prompt systemPrompt estimatedTokens config None h1 rnd1)
       = h1.
Proof.
  intros B prompt sys n cfg h1 h2 r1 r2.
  unfold classifyByRules.
  destruct (scoreDimensions prompt sys n cfg) as [dims ag]. cbv zeta.
  cbn [truthy_fp Fingerprint.truthy_str].
  destruct (Nat.leb 2 _); [split; reflexivity|].
  destruct (Rlt_dec _ (confidenceThreshold cfg)); split; reflexivity.
Qed.

(** [sigmoid(12 * 0.3)], about 0.973. *)
Lemma override_confidence_value : 0.95 <= 1 / (1 + exp (- (12 * 0.3))).
Proof.
  replace (- (12 * 0.3))
    with (Ropp (0.45 + 0.45 + 0.45 + 0.45 + 0.45 + 0.45 + 0.45 + 0.45)) by lra.
  rewrite exp_Ropp, !exp_plus.
  pose proof (exp_ineq1_le 0.45) as H.
  set (e := exp 0.45) in *.
  assert (H2 : 2.1025 <= e * e) by nra.
  assert (H4 : 4.42 <= e * e * e * e) by nra.
  set (q := e * e * e * e * e * e * e * e).
  assert (H8 : 19.5 <= q).
  { replace q with ((e * e * e * e) * (e * e * e * e)) by (unfold q; ring). nra. }
  assert (Hq : / q <= 0.0513).
  { apply Rmult_le_reg_r with q; [lra|]. rewrite Rinv_l by lra. nra. }
  assert (Hpos : 0 < / q) by (apply Rinv_0_lt_compat; lra).
  apply Rmult_le_reg_r with (1 + / q); [lra|].
  unfold Rdiv. rewrite Rmult_assoc, Rinv_l by lra. lra.
Qed.

Lemma score_prove :
  weightedScoreOf (B := asciiBuiltins) provePrompt None 12 (codeConfig 0.7) = 0.1.
Proof. vm_compute. lra. Qed.

(** C5.  If the lowercased user prompt contains two distinct configured
    reasoning keywords, [classifyByRules] returns REASONING with confidence
    [max(1 / (1 + exp(-steepness * max(weightedScore, 0.3))), 0.85)], which
    is at least 0.85, whatever the system prompt, the other dimensions, the
    fingerprint and the score history.  If fewer than two entries of the
    keyword list occur in the user prompt, then whatever the system prompt
    contains the override is not taken: the result carries no
    ["reasoning-override"] signal, its confidence is the sigmoid of the
    distance that the boundary mapping with hysteresis reports, and its tier
    is the tier of that mapping or [null]. *)
Theorem C5_reasoning_override :
  forall (B : Builtins) (prompt : jsstring) (systemPrompt : option jsstring)
         (estimatedTokens : Z) (config : ScoringConfig)
         (fingerprint : option jsstring) (h : HistoryMap) (rnd : R),
    let r := fst (classifyByRules prompt systemPrompt estimatedTokens config
                    fingerprint h rnd) in
    let ws := weightedScoreOf prompt systemPrompt estimatedTokens config in
    let d := calculateTierWithHysteresis ws (tierBoundaries config)
               (historyOf fingerprint h) 0.05 in
    ((exists kw1 kw2,
         In kw1 (reasoningKeywords config) /\
         In kw2 (reasoningKeywords config) /\ kw1 <> kw2 /\
         includes (toLowerCase prompt) (toLowerCase kw1) = true /\
         includes (toLowerCase prompt) (toLowerCase kw2) = true) ->
     tier r = Some REASONING /\
     confidence r
     = Rmax (1 / (1 + exp (- confidenceSteepness config * Rmax ws 0.3))) 0.85 /\
     0.85 <= confidence r)
    /\
    ((List.length (reasoningMatches prompt config) < 2)%nat ->
     ~ In (js "reasoning-override") (signals r) /\
     confidence r
     = 1 / (1 + exp (- confidenceSteepness config * td_distance d)) /\
     (tier r = None \/ tier r = td_tier d)).
Proof.
  intros B prompt sys n cfg fp h rnd r ws d. split.
  - intros (kw1 & kw2 & H1 & H2 & Hne & I1 & I2).
    assert (Hm : (2 <= List.length (reasoningMatches prompt cfg))%nat).
    { unfold reasoningMatches, keywordMatches.
      eapply filter_two_distinct with (a := kw1) (b := kw2); eauto. }
    destruct (classify_override prompt sys n cfg fp h rnd Hm) as [Ht Hc].
    fold r in Ht, Hc. fold ws in Hc. unfold calibrateConfidence in Hc.
    repeat split; [exact Ht | exact Hc |].
    rewrite Hc. apply Rmax_r.
  - intros Hm.
    destruct (classify_no_override prompt sys n cfg fp h rnd Hm)
      as (Hc & Ht & extra & Hs & Hextra).
    fold r in Hc, Ht, Hs. fold ws in Hc, Ht. fold d in Hc, Ht.
    unfold calibrateConfidence in Hc.
    repeat split.
    + rewrite Hs. intros Hin. apply in_app_or in Hin.
      apply override_marker_not_plain.
      destruct Hin as [Hin|Hin].
      * pose proof (scoreDimensions_signals prompt sys n cfg) as Hall.
        rewrite Forall_forall in Hall. now apply Hall.
      * rewrite Forall_forall in Hextra. now apply Hextra.
    + exact Hc.
    + rewrite Ht. destruct (Rlt_dec _ _); [left|right]; reflexivity.
Qed.

(** Scenario 4 of the specification: the weighted score is 0.1, so the
    confidence is the sigmoid at [12 * 0.3], about 0.973; and a trivial
    prompt under a system prompt that contains both reasoning keywords. *)
Lemma C5_witness :
  let r := fst (classifyByRules (B := asciiBuiltins) provePrompt None 12
                  (codeConfig 0.7) None [] 0) in
  (tier r = Some REASONING /\
   confidence r = 1 / (1 + exp (- (12 * 0.3))) /\
   0.95 <= confidence r)
  /\ ~ In (js "reasoning-override")
        (signals (fst (classifyByRules (B := asciiBuiltins) (js "hi")
                         (Some (js "Prove every claim step by step.")) 9
                         (codeConfig 0.7) None [] 0))).
Proof.
  cbv zeta. split.
  - destruct (proj1 (C5_reasoning_override asciiBuiltins provePrompt None 12
                       (codeConfig 0.7) None [] 0)) as (Ht & Hc & _).
    { exists (js "prove"), (js "step by step").
      repeat split; try (vm_compute; tauto).
      intros E. vm_compute in E. discriminate. }
    rewrite score_prove in Hc.
    cbn [confidenceSteepness codeConfig] in Hc.
    rewrite (Rmax_right 0.1 0.3) in Hc by lra.
    replace (Ropp 12 * 0.3) with (- (12 * 0.3)) in Hc by lra.
    pose proof override_confidence_value as Hv.
    rewrite Rmax_left in Hc by lra.
    split; [exact Ht|]. split; [exact Hc|]. rewrite Hc. exact Hv.
  - apply (proj2 (C5_reasoning_override asciiBuiltins (js "hi")
                    (Some (js "Prove every claim step by step.")) 9
                    (codeConfig 0.7) None [] 0)).
    vm_compute. lia.
Defined.

(** ** The two-prompt scenario *)

Lemma promptB_same_fingerprint :
  Fingerprint.generateFingerprint (B := asciiBuiltins) promptB None = fingerprintAB.
Proof. vm_compute. reflexivity. Qed.

Lemma fingerprintAB_nonempty : fingerprintAB <> [].
Proof. intros E. vm_compute in E. discriminate. Qed.

Lemma score_promptA : forall thr,
  weightedScoreOf (B := asciiBuiltins) promptA None 4 (codeConfig thr) = 0.055.
Proof. intros thr. vm_compute. lra. Qed.

Lemma score_promptB : forall thr,
  weightedScoreOf (B := asciiBuiltins) promptB None 4 (codeConfig thr) = - 0.005.
Proof. intros thr. vm_compute. lra. Qed.

Lemma no_reasoning_in_A : forall thr,
  List.length (reasoningMatches (B := asciiBuiltins) promptA (codeConfig thr)) = 0%nat.
Proof. intros thr. vm_compute. reflexivity. Qed.

Lemma no_reasoning_in_B : forall thr,
  List.length (reasoningMatches (B := asciiBuiltins) promptB (codeConfig thr)) = 0%nat.
Proof. intros thr. vm_compute. reflexivity. Qed.

Lemma natural_tier_B : forall thr,
  naturalTier (weightedScoreOf (B := asciiBuiltins) promptB None 4 (codeConfig thr))
    (tierBoundaries (codeConfig thr))
  = (SIMPLE, 0 - - 0.005, js "simple-medium").
Proof.
  intros thr. rewrite score_promptB. unfold naturalTier. cbn [tierBoundaries codeConfig simpleMedium].
  destruct (Rlt_dec (- 0.005) 0); [reflexivity|lra].
Qed.

Lemma history_after_A : forall thr,
  lastTier (getScoreHistory (historyAfterA thr) fingerprintAB) = Some MEDIUM.
Proof.
  intros thr. unfold historyAfterA.
  assert (Hm : (List.length (reasoningMatches (B := asciiBuiltins) promptA
                               (codeConfig thr)) < 2)%nat).
  { rewrite no_reasoning_in_A. lia. }
  assert (Hrnd : ~ 0.5 < 0.01) by lra.
  pose proof (@classify_records asciiBuiltins promptA None 4 (codeConfig thr)
                fingerprintAB [] 0.5 fingerprintAB_nonempty Hm Hrnd) as H.
  cbv zeta in H. rewrite H. clear H.
  rewrite score_promptA. unfold calculateTierWithHysteresis, naturalTier.
  cbn [tierBoundaries codeConfig simpleMedium mediumComplex complexReasoning
       getScoreHistory JSMap.get noHistory lastTier].
  destruct (Rlt_dec 0.055 0); [lra|].
  destruct (Rlt_dec 0.055 0.18); [reflexivity|lra].
Qed.

(** C2.  Let the history of a (non-empty) fingerprint end in tier [T], let
    the user prompt hold fewer than two reasoning keywords, and let the
    weighted score fall in a different tier, less than 0.05 from the nearest
    end of that tier's interval.  Then the hysteresis step keeps [T] and
    reports the distance 0.05; [classifyByRules] returns tier [T] when
    [sigmoid(steepness * 0.05)] reaches the confidence threshold, and the
    ambiguous tier [null] when it does not. *)
Theorem C2_fuzzy_region_keeps_tier_when_confident :
  forall (B : Builtins) (prompt : jsstring) (systemPrompt : option jsstring)
         (estimatedTokens : Z) (config : ScoringConfig) (fingerprint : jsstring)
         (h : HistoryMap) (rnd : R) (T nt : Tier) (dist : R) (bn : jsstring),
    fingerprint <> [] ->
    lastTier (getScoreHistory h fingerprint) = Some T ->
    (List.length (reasoningMatches prompt config) < 2)%nat ->
    naturalTier (weightedScoreOf prompt systemPrompt estimatedTokens config)
      (tierBoundaries config) = (nt, dist, bn) ->
    nt <> T -> dist < 0.05 ->
    let r := fst (classifyByRules prompt systemPrompt estimatedTokens config
                    (Some fingerprint) h rnd) in
    let c := calibrateConfidence 0.05 (confidenceSteepness config) in
    td_tier (calculateTierWithHysteresis
               (weightedScoreOf prompt systemPrompt estimatedTokens config)
               (tierBoundaries config) (getScoreHistory h fingerprint) 0.05)
    = Some T /\
    confidence r = c /\
    (confidenceThreshold config <= c -> tier r = Some T) /\
    (c < confidenceThreshold config -> tier r = None).
Proof.
  intros B prompt sys n cfg fp h rnd T nt dist bn Hfp HT Hm Hnat Hne Hd r c.
  split.
  - now rewrite (hysteresis_fuzzy _ _ _ HT Hnat Hne Hd).
  - rewrite <- (historyOf_truthy h Hfp) in HT.
    destruct (classify_fuzzy prompt sys n cfg (Some fp) h rnd HT Hm Hnat Hne Hd)
      as [Hc Ht].
    fold r in Hc, Ht. fold c in Hc, Ht.
    split; [exact Hc|]. rewrite Ht.
    destruct (Rlt_dec c (confidenceThreshold cfg)); split; intros; try reflexivity; lra.
Qed.

(** With the threshold lowered to 0.6, the second prompt keeps the tier
    MEDIUM recorded for the first. *)
Lemma C2_witness :
  tier (fst (classifyByRules (B := asciiBuiltins) promptB None 4 (codeConfig 0.6)
               (Some fingerprintAB) (historyAfterA 0.6) 0.5))
  = Some MEDIUM.
Proof.
  refine (proj1 (proj2 (proj2
    (C2_fuzzy_region_keeps_tier_when_confident asciiBuiltins promptB None 4
       (codeConfig 0.6) (historyAfterA 0.6) 0.5
       fingerprintAB_nonempty (history_after_A 0.6) _ (natural_tier_B 0.6) _ _))) _).
  - rewrite no_reasoning_in_B. lia.
  - discriminate.
  - lra.
  - exact fuzzy_confidence_above_06.
Defined.

(** C2 fails as stated: at the default steepness 12 and threshold 0.7 the
    second prompt has the fingerprint of the first, whose recorded tier is
    MEDIUM; its own score lies in SIMPLE, 0.005 below the boundary; and the
    call returns the ambiguous tier, not MEDIUM. *)
Lemma C2_counterexample :
  Fingerprint.generateFingerprint (B := asciiBuiltins) promptB None = fingerprintAB /\
  lastTier (getScoreHistory (historyAfterA 0.7) fingerprintAB) = Some MEDIUM /\
  List.length (reasoningMatches (B := asciiBuiltins) promptB (codeConfig 0.7)) = 0%nat /\
  fst (fst (naturalTier
              (weightedScoreOf (B := asciiBuiltins) promptB None 4 (codeConfig 0.7))
              (tierBoundaries (codeConfig 0.7)))) = SIMPLE /\
  snd (fst (naturalTier
              (weightedScoreOf (B := asciiBuiltins) promptB None 4 (codeConfig 0.7))
              (tierBoundaries (codeConfig 0.7)))) < 0.05 /\
  tier (fst (classifyByRules (B := asciiBuiltins) promptB None 4 (codeConfig 0.7)
               (Some fingerprintAB) (historyAfterA 0.7) 0.5))
  = None.
Proof.
  split; [exact promptB_same_fingerprint|].
  split; [exact (history_after_A 0.7)|].
  split; [exact (no_reasoning_in_B 0.7)|].
  rewrite natural_tier_B. cbn [fst snd].
  split; [reflexivity|]. split; [lra|].
  assert (HT : lastTier (historyOf (Some fingerprintAB)
                           (historyAfterA 0.7)) = Some MEDIUM).
  { rewrite (historyOf_truthy _ fingerprintAB_nonempty). exact (history_after_A 0.7). }
  assert (Hm : (List.length (reasoningMatches (B := asciiBuiltins) promptB
                               (codeConfig 0.7)) < 2)%nat).
  { rewrite no_reasoning_in_B. lia. }
  destruct (classify_fuzzy (B := asciiBuiltins) promptB None 4 (codeConfig 0.7)
              (Some fingerprintAB) (historyAfterA 0.7) 0.5 HT Hm
              (natural_tier_B 0.7)) as [_ Ht]; [discriminate | lra |].
  rewrite Ht. cbn [confidenceSteepness confidenceThreshold codeConfig].
  destruct (Rlt_dec (calibrateConfidence 0.05 12) 0.7) as [_|Hn]; [reflexivity|].
  exfalso. apply Hn. exact fuzzy_confidence_below_default.
Qed.

End RulesClaims.

(** ** Fingerprints *)

Module FingerprintClaims.
Import JS Fingerprint FingerprintSpec.
#[local] Existing Instance asciiBuiltins.

(** C3.  [fingerprintsSimilar] splits a fingerprint at its first two ['|'],
    which also separate the feature tags.  With two or more tags it
    compares the first tag and then the second, never the digests: two
    unrelated questions are "similar".  With one tag it compares the
    digests only up to their first ['|']: two prompts at 8% distance are
    not "similar". *)
Theorem C3_similarity_splits_inside_the_tags :
  (generateFingerprint skyPrompt None
     = js "Q1|REASONING|SHORT|why is the sky blue?|none" /\
   generateFingerprint birdsPrompt None
     = js "Q1|REASONING|SHORT|how do birds fly?|none" /\
   fingerprintsSimilar (generateFingerprint skyPrompt None)
                       (generateFingerprint birdsPrompt None) = Some true /\
   spec_digestsWithinBound (contentHash skyPrompt) (contentHash birdsPrompt) = false /\
   spec_similar skyPrompt birdsPrompt = false)
  /\
  (generateFingerprint barPrompt1 None = js "SHORT|x|yyyyyyyyyyyyyyyyyyyyyyy|none" /\
   generateFingerprint barPrompt2 None = js "SHORT|xz|yyyyyyyyyyyyyyyyyyyyyy|none" /\
   fingerprintsSimilar (generateFingerprint barPrompt1 None)
                       (generateFingerprint barPrompt2 None) = Some false /\
   spec_similar barPrompt1 barPrompt2 = true).
Proof. vm_compute. repeat split; reflexivity. Qed.

(** The first example of property P2 and the repository's test "normalizes
    punctuation differences": the comma and the space after it become two
    spaces, which shifts the rest of the digest. *)
Example hello_world_not_similar :
  generateFingerprint (js "Hello, world!") None = js "SHORT|hello  world|none" /\
  generateFingerprint (js "hello world") None = js "SHORT|hello world|none" /\
  fingerprintsSimilar (generateFingerprint (js "Hello, world!") None)
                      (generateFingerprint (js "hello world") None) = Some false.
Proof. vm_compute. repeat split; reflexivity. Qed.

End FingerprintClaims.

(** ** Score cache *)

Module CacheProps.
Import JS JSFacts ScoreCache CacheSpec.

Lemma remove_first_incl : forall k l x, In x (remove_first k l) -> In x l.
Proof.
  induction l as [|y l IH]; simpl; intros x H; [exact H|].
  destruct (str_eqb y k); [now right|].
  destruct H as [H|H]; [now left | right; now apply IH].
Qed.

Lemma remove_first_In : forall k l x,
  NoDup l -> (In x (remove_first k l) <-> In x l /\ x <> k).
Proof.
  induction l as [|y l IH]; simpl; intros x Hnd.
  - tauto.
  - inversion Hnd as [|? ? Hy Hl]; subst.
    destruct (str_eqb y k) eqn:E.
    + apply str_eqb_eq in E. subst y. split.
      * intros H. split; [now right|]. intros ->. contradiction.
      * intros [[H|H] Hne]; [congruence|exact H].
    + apply str_eqb_neq in E. simpl. rewrite IH by assumption. split.
      * intros [H|[H1 H2]]; [subst; tauto | tauto].
      * intros [[H|H] Hne]; [now left | right; tauto].
Qed.

Lemma remove_first_NoDup : forall k l, NoDup l -> NoDup (remove_first k l).
Proof.
  induction l as [|y l IH]; simpl; intros Hnd; [constructor|].
  inversion Hnd as [|? ? Hy Hl]; subst.
  destruct (str_eqb y k); [assumption|].
  constructor; [|now apply IH].
  intros H. apply Hy. eapply remove_first_incl; eauto.
Qed.


Section MapKeys.
Variable V : Type.
Implicit Types (m : JSMap.t V).

Lemma keys_set : forall m k v,
  JSMap.keys (JSMap.set m k v)
  = if JSMap.has m k then JSMap.keys m else JSMap.keys m ++ [k].
Proof.
  induction m as [|[k0 v0] m IH]; intros k v; simpl; [reflexivity|].
  unfold JSMap.has in *. simpl.
  destruct (str_eqb k0 k) eqn:E; simpl; [reflexivity|].
  rewrite IH. destruct (JSMap.get m k); reflexivity.
Qed.

Lemma keys_delete : forall m k,
  JSMap.keys (JSMap.delete m k)
  = filter (fun k' => negb (str_eqb k' k)) (JSMap.keys m).
Proof.
  induction m as [|[k0 v0] m IH]; intros k; simpl; [reflexivity|].
  unfold JSMap.delete in *. simpl.
  destruct (str_eqb k0 k); simpl; [apply IH | f_equal; apply IH].
Qed.

Lemma In_keys_delete : forall m k x,
  In x (JSMap.keys (JSMap.delete m k)) <-> In x (JSMap.keys m) /\ x <> k.
Proof.
  intros m k x. rewrite keys_delete, filter_In.
  destruct (str_eqb x k) eqn:E.
  - apply str_eqb_eq in E. subst. simpl. split; [intros [_ H]; discriminate|tauto].
  - apply str_eqb_neq in E. simpl. tauto.
Qed.

Lemma size_keys : forall m, JSMap.size m = List.length (JSMap.keys m).
Proof. intros m. unfold JSMap.size, JSMap.keys. now rewrite length_map. Qed.




End MapKeys.

Lemma wf_size : forall st,
  wf st -> JSMap.size (cache st) = List.length (accessOrder st).
Proof.
  intros st [Ho Hk Hs _]. rewrite size_keys.
  apply Permutation_length. apply NoDup_Permutation; try assumption.
  intros k. symmetry. apply Hs.
Qed.

Lemma wf_create : forall cfg, wf (create cfg).
Proof.
  intros cfg. split; simpl; try constructor; try tauto.
Qed.

Lemma wf_clear : forall st, wf (clear st).
Proof. intros st. split; simpl; try constructor; try tauto. Qed.

(** Removing a key from the cache and from the access order. *)
Lemma wf_remove : forall st st' k,
  wf st ->
  cache st' = JSMap.delete (cache st) k ->
  accessOrder st' = remove_first k (accessOrder st) ->
  wf st'.
Proof.
  intros st st' k [Ho Hk Hs Hn] Hc Ha. split; rewrite ?Hc, ?Ha.
  - now apply remove_first_NoDup.
  - rewrite keys_delete. now apply NoDup_filter.
  - intros x. rewrite remove_first_In by assumption.
    rewrite In_keys_delete, Hs. tauto.
  - intros x Hx. apply Hn. eapply remove_first_incl; eauto.
Qed.

(** Writing a key into the cache and moving it to the end of the order. *)
Lemma wf_touch : forall st st' k v,
  wf st -> k <> [] ->
  cache st' = JSMap.set (cache st) k v ->
  accessOrder st' = updateAccessOrder (accessOrder st) k ->
  wf st'.
Proof.
  intros st st' k v [Ho Hk Hs Hn] Hne Hc Ha.
  unfold updateAccessOrder in Ha. split; rewrite ?Hc, ?Ha.
  - apply NoDup_app.
    + now apply remove_first_NoDup.
    + constructor; [tauto|constructor].
    + intros x Hx [<-|[]]. apply remove_first_In in Hx; tauto.
  - rewrite keys_set. destruct (JSMap.has (cache st) k) eqn:E; [assumption|].
    apply NoDup_app; [assumption | constructor; [tauto|constructor] |].
    intros x Hx [<-|[]].
    apply has_true_iff in Hx. congruence.
  - intros x. rewrite in_app_iff, remove_first_In by assumption. simpl.
    rewrite keys_set.
    destruct (list_eq_dec N.eq_dec x k) as [->|Hxk].
    + split; [intros _|tauto].
      destruct (JSMap.has (cache st) k) eqn:E.
      * now apply has_true_iff.
      * apply in_or_app. right. now left.
    + rewrite Hs. destruct (JSMap.has (cache st) k).
      * split; [intros [[H _]|[H|[]]]; [exact H|congruence] | tauto].
      * rewrite in_app_iff. simpl.
        split; [intros [[H _]|[H|[]]]; [tauto|congruence]
               | intros [H|[H|[]]]; [tauto|congruence]].
  - intros x Hx. apply in_app_or in Hx. destruct Hx as [Hx|[<-|[]]]; [|exact Hne].
    apply Hn. eapply remove_first_incl; eauto.
Qed.

Lemma wf_evictLRU : forall st, wf st -> wf (evictLRU st).
Proof.
  intros st Hwf. unfold evictLRU.
  destruct (accessOrder st) as [|oldest rest] eqn:Eo; [assumption|].
  assert (Hne : oldest <> []).
  { apply (wf_nonempty Hwf). rewrite Eo. now left. }
  destruct oldest as [|c o]; [contradiction|].
  eapply wf_remove with (k := c :: o); [exact Hwf | reflexivity |].
  simpl. rewrite Eo. simpl. now rewrite N.eqb_refl, str_eqb_refl.
Qed.

Section WithBuiltins.
Context {B : Builtins}.

Lemma getCacheKey_nonempty : forall p s, Fingerprint.getCacheKey p s <> [].
Proof.
  intros p s E. unfold Fingerprint.getCacheKey, Fingerprint.generateFingerprint in E.
  apply app_eq_nil in E. destruct E as [_ E]. discriminate E.
Qed.

Lemma wf_ext : forall st st',
  cache st' = cache st -> accessOrder st' = accessOrder st -> wf st -> wf st'.
Proof.
  intros st st' Hc Ha [Ho Hk Hs Hn]. split; rewrite ?Hc, ?Ha; assumption.
Qed.

Lemma wf_get : forall st now p s, wf st -> wf (snd (get st now p s)).
Proof.
  intros st now p s Hwf. unfold get.
  destruct (JSMap.get (cache st) (Fingerprint.getCacheKey p s)) as [c|];
    [|exact Hwf].
  destruct (ttlMs (config st) <? now - timestamp c)%Z.
  - eapply wf_remove; [exact Hwf | reflexivity | reflexivity].
  - assert (Ht : forall r,
      wf (snd (r : option CachedScore,
               {| cache := JSMap.set (cache st) (Fingerprint.getCacheKey p s)
                             {| result := result c; timestamp := timestamp c;
                                hitCount := S (hitCount c); lastTier := lastTier c;
                                distanceToBoundary := distanceToBoundary c;
                                boundaryName := boundaryName c |};
                  config := config st;
                  accessOrder := updateAccessOrder (accessOrder st)
                                   (Fingerprint.getCacheKey p s);
                  jitterTracker := jitterTracker st;
                  jitterLocks := jitterLocks st |}))).
    { intros r. eapply wf_touch;
        [exact Hwf | apply getCacheKey_nonempty | reflexivity | reflexivity]. }
    destruct (JSMap.get (jitterLocks st) (Fingerprint.getCacheKey p s));
      [destruct (negb _)|]; apply Ht.
Qed.

Lemma wf_set : forall st now p s res b sc, wf st -> wf (set st now p s res b sc).
Proof.
  intros st now p s res b sc Hwf. unfold set. cbv zeta.
  match goal with
  | |- context [if ?c then evictLRU ?a else _] => set (cond := c); set (st1 := a)
  end.
  assert (H1 : wf st1) by (eapply wf_ext; [| |exact Hwf]; reflexivity).
  assert (H2 : wf (if cond then evictLRU st1 else st1)).
  { destruct cond; [now apply wf_evictLRU | exact H1]. }
  eapply wf_touch;
    [exact H2 | apply getCacheKey_nonempty | reflexivity | reflexivity].
Qed.

Lemma cleanup_fold : forall st now,
  cleanup st now = fold_left (sweep now) (cache st) (O, st).
Proof. reflexivity. Qed.

Lemma sweep_invariant :
  forall (P : t -> Prop) now,
    (forall s k, P s ->
       P {| cache := JSMap.delete (cache s) k; config := config s;
            accessOrder := removeFromAccessOrder (accessOrder s) k;
            jitterTracker := JSMap.delete (jitterTracker s) k;
            jitterLocks := JSMap.delete (jitterLocks s) k |}) ->
    forall entries acc, P (snd acc) -> P (snd (fold_left (sweep now) entries acc)).
Proof.
  intros P now Hstep. induction entries as [|[k c] entries IH]; intros [n s] HP;
    simpl; [exact HP|].
  apply IH. destruct (_ <? _)%Z; simpl; [now apply Hstep | exact HP].
Qed.

Lemma wf_cleanup : forall st now, wf st -> wf (snd (cleanup st now)).
Proof.
  intros st now Hwf. rewrite cleanup_fold.
  apply sweep_invariant with (P := wf); [|exact Hwf].
  intros s k Hs. eapply wf_remove; [exact Hs | reflexivity | reflexivity].
Qed.

Lemma wf_step : forall st o, wf st -> wf (step st o).
Proof.
  intros st [now p s|now p s res b sc|now|] Hwf; cbn [step].
  - now apply wf_get.
  - now apply wf_set.
  - now apply wf_cleanup.
  - apply wf_clear.
Qed.

Lemma wf_run : forall ops st, wf st -> wf (run ops st).
Proof.
  induction ops as [|o ops IH]; intros st Hwf; simpl; [exact Hwf|].
  apply IH. now apply wf_step.
Qed.

(** ** The configuration never changes *)

Lemma config_get : forall st now p s, config (snd (get st now p s)) = config st.
Proof.
  intros st now p s. unfold get.
  destruct (JSMap.get (cache st) _); [|reflexivity].
  destruct (_ <? _)%Z; [reflexivity|].
  destruct (JSMap.get (jitterLocks st) _); [destruct (negb _)|]; reflexivity.
Qed.

Lemma config_evictLRU : forall st, config (evictLRU st) = config st.
Proof.
  intros st. unfold evictLRU.
  destruct (accessOrder st) as [|[|c o] rest]; reflexivity.
Qed.

Lemma config_set : forall st now p s res b sc,
  config (set st now p s res b sc) = config st.
Proof.
  intros. unfold set. cbv zeta. cbn [config].
  destruct (_ && _); [rewrite config_evictLRU|]; reflexivity.
Qed.

Lemma config_cleanup : forall st now, config (snd (cleanup st now)) = config st.
Proof.
  intros st now. rewrite cleanup_fold.
  apply sweep_invariant with (P := fun s => config s = config st);
    [|reflexivity].
  intros s k Hs. exact Hs.
Qed.

Lemma config_step : forall st o, config (step st o) = config st.
Proof.
  intros st [now p s|now p s res b sc|now|]; cbn [step];
    [apply config_get | apply config_set | apply config_cleanup | reflexivity].
Qed.

Lemma config_run : forall ops st, config (run ops st) = config st.
Proof.
  induction ops as [|o ops IH]; intros st; simpl; [reflexivity|].
  rewrite IH. apply config_step.
Qed.

(** ** The size bound *)









End WithBuiltins.

End CacheProps.

(** ** Jitter locks *)

Module JitterProps.
Import JS JSFacts ScoreCache CacheProps CacheSpec.

Lemma Tier_eqb_eq : forall a b, Tier_eqb a b = true <-> a = b.
Proof.
  intros a b. unfold Tier_eqb. destruct (Tier_eq_dec a b); split; congruence.
Qed.

Lemma Tier_eqb_neq : forall a b, Tier_eqb a b = false <-> a <> b.
Proof.
  intros a b. unfold Tier_eqb. destruct (Tier_eq_dec a b); split; congruence.
Qed.
















Lemma In_uniqueTiers : forall l x, In x (uniqueTiers l) <-> In x l.
Proof.
  induction l as [|y l IH]; intros x; simpl; [tauto|].
  rewrite filter_In, IH.
  destruct (Tier_eq_dec y x) as [->|Hne]; [tauto|].
  rewrite negb_true_iff, Tier_eqb_neq. tauto.
Qed.




End JitterProps.

(** ** Locks over the operations *)

Module LockProps.
Import JS JSFacts ScoreCache CacheProps JitterProps CacheSpec.
Local Open Scope R_scope.

Lemma optTier_eqb_eq : forall a b, optTier_eqb a b = true <-> a = b.
Proof.
  intros [a|] [b|]; simpl; try (split; congruence).
  rewrite Tier_eqb_eq. split; congruence.
Qed.

Section WithBuiltins.
Context {B : Builtins}.


Lemma locks_get : forall st now p s,
  jitterLocks (snd (get st now p s)) = jitterLocks st.
Proof.
  intros st now p s. unfold get.
  destruct (JSMap.get (cache st) _); [|reflexivity].
  destruct (_ <? _)%Z; [reflexivity|].
  destruct (JSMap.get (jitterLocks st) _); [destruct (negb _)|]; reflexivity.
Qed.












End WithBuiltins.
End LockProps.

Module CacheClaims.
Import JS JSFacts ScoreCache CacheProps CacheSpec.
Local Open Scope R_scope.







End CacheClaims.

(** ** Route orchestrator *)

Module RouterProps.
Import JS JSFacts Router RouterSpec.
Local Open Scope R_scope.

Section WithBuiltins.
Context {B : Builtins}.

Lemma len_fullText : forall prompt systemPrompt,
  len (Rules.fullText prompt systemPrompt)
  = (match systemPrompt with Some s => len s | None => 0 end + 1 + len prompt)%Z.
Proof.
  intros prompt sys. unfold Rules.fullText, len.
  rewrite !length_app, !Nat2Z.inj_add.
  change (List.length (js " ")) with 1%nat.
  destruct sys; cbn [List.length]; lia.
Qed.

Lemma route_world : forall prompt sys maxOut opts env w,
  w_history (snd (route prompt sys maxOut opts env w))
  = snd (Rules.classifyByRules prompt sys (estimateTokens prompt sys)
           (scoring (config opts))
           (Some (Fingerprint.generateFingerprint prompt sys))
           (w_history w) (rnd env))
  /\
  w_cache (snd (route prompt sys maxOut opts env w))
  = let looked := lookedUp prompt sys opts env w in
    let rr := ruleResultOf prompt sys opts env w in
    let adjusted := adjust opts (snd looked) (fst looked) rr (adaptiveWeights env) in
    if flag (enableCache opts) then
      ScoreCache.set (snd looked) (nowSet env) prompt sys
        {| score := fst adjusted; Types.tier := Types.tier rr;
           Types.confidence := snd adjusted; signals := signals rr;
           agenticScore := agenticScore rr |}
        (tierBoundaries (scoring (config opts))) (fst adjusted)
    else snd looked.
Proof.
  intros prompt sys maxOut opts env w. unfold route. cbv zeta.
  destruct (_ <? _)%Z; split; reflexivity.
Qed.

Lemma route_large : forall prompt sys maxOut opts env w,
  (maxTokensForceComplex (overrides (config opts)) < estimateTokens prompt sys)%Z ->
  tier (fst (route prompt sys maxOut opts env w)) = COMPLEX /\
  confidence (fst (route prompt sys maxOut opts env w)) = 0.95 /\
  method (fst (route prompt sys maxOut opts env w)) = rules /\
  hd_error (reasoning (fst (route prompt sys maxOut opts env w)))
  = Some (RInputExceeds (maxTokensForceComplex (overrides (config opts)))).
Proof.
  intros prompt sys maxOut opts env w Hlarge.
  unfold route. cbv zeta. apply Z.ltb_lt in Hlarge. rewrite Hlarge.
  repeat split; reflexivity.
Qed.

(** The tier and the confidence of the decision when the large-context
    override does not apply. *)
Lemma route_decision : forall prompt sys maxOut opts env w,
  (estimateTokens prompt sys <= maxTokensForceComplex (overrides (config opts)))%Z ->
  let rr := ruleResultOf prompt sys opts env w in
  let d := fst (route prompt sys maxOut opts env w) in
  match usableCached prompt sys opts env w with
  | Some (c, ct) =>
      tier d = raised sys opts ct /\
      confidence d
      = if flag (enableAdaptive opts)
           && ScoreCache.shouldUseCachedTier
                (snd (lookedUp prompt sys opts env w)) c
                (score rr * weightFactor (adaptiveWeights env)) (Types.tier rr)
        then Rmax (Types.confidence (ScoreCache.result c)) 0.7
        else Types.confidence rr
  | None =>
      match Types.tier rr with
      | Some rt => tier d = raised sys opts rt /\ confidence d = Types.confidence rr
      | None =>
          tier d = raised sys opts (ambiguousDefaultTier (overrides (config opts))) /\
          confidence d = 0.5
      end
  end.
Proof.
  intros prompt sys maxOut opts env w Hsmall rr d. subst rr d.
  unfold usableCached, ruleResultOf, lookedUp, raised, route. cbv zeta.
  apply Z.ltb_ge in Hsmall. rewrite Hsmall.
  set (rr := fst (Rules.classifyByRules _ _ _ _ _ _ _)).
  cbn [fst tier confidence selectModel].
  unfold adjust.
  destruct (flag (enableCache opts)) eqn:Ecache.
  - destruct (fst (ScoreCache.get (w_cache w) (nowGet env) prompt sys))
      as [[[sc [ct|] cf sg ag] ts hc lt db bn]|] eqn:Eget; cbn [fst snd].
    + (* a cached entry with a tier *)
      cbn [ScoreCache.result Types.tier Types.confidence is_some].
      split; [reflexivity|].
      destruct (flag (enableAdaptive opts)); cbn [andb];
        [|reflexivity].
      unfold ScoreCache.shouldUseCachedTier.
      cbn [ScoreCache.result Types.tier].
      destruct (Types.tier rr) as [rt|]; cbn [is_some andb]; [|reflexivity].
      rewrite andb_true_r. destruct (if Tier_eqb ct rt then false else _);
        reflexivity.
    + (* a cached entry whose tier is null *)
      cbn [ScoreCache.result Types.tier].
      destruct (Types.tier rr) as [rt|] eqn:Ert; [|split; reflexivity].
      split; [reflexivity|].
      destruct (flag (enableAdaptive opts)); cbn [andb is_some]; [|reflexivity].
      unfold ScoreCache.shouldUseCachedTier.
      cbn [ScoreCache.result Types.tier andb snd]. reflexivity.
    + destruct (Types.tier rr) as [rt|] eqn:Ert; [|split; reflexivity].
      split; [reflexivity|].
      destruct (flag (enableAdaptive opts)); reflexivity.
  - cbn [fst snd].
    destruct (Types.tier rr) as [rt|] eqn:Ert; [|split; reflexivity].
    split; [reflexivity|].
    destruct (flag (enableAdaptive opts)); reflexivity.
Qed.

(** What the lookup of [route] serves, from what the cache holds: nothing
    when the cache is switched off, holds no entry under the key or holds an
    expired one; otherwise the stored entry, with the tier of the key's jitter
    lock when there is one. *)
Lemma lookup_serves : forall prompt sys opts env w,
  let key := Fingerprint.getCacheKey prompt sys in
  (flag (enableCache opts) = false -> usableCached prompt sys opts env w = None) /\
  (JSMap.get (ScoreCache.cache (w_cache w)) key = None ->
   usableCached prompt sys opts env w = None) /\
  (forall stored,
      JSMap.get (ScoreCache.cache (w_cache w)) key = Some stored ->
      (ScoreCache.ttlMs (ScoreCache.config (w_cache w))
       < nowGet env - ScoreCache.timestamp stored)%Z ->
      usableCached prompt sys opts env w = None) /\
  (forall stored,
      flag (enableCache opts) = true ->
      JSMap.get (ScoreCache.cache (w_cache w)) key = Some stored ->
      (nowGet env - ScoreCache.timestamp stored
       <= ScoreCache.ttlMs (ScoreCache.config (w_cache w)))%Z ->
      match JSMap.get (ScoreCache.jitterLocks (w_cache w)) key with
      | Some locked =>
          exists c,
            usableCached prompt sys opts env w = Some (c, locked) /\
            Types.confidence (ScoreCache.result c)
            = (if optTier_eqb (Types.tier (ScoreCache.result stored)) (Some locked)
               then Types.confidence (ScoreCache.result stored)
               else Rmax (Types.confidence (ScoreCache.result stored)) 0.7) /\
            ScoreCache.distanceToBoundary c = ScoreCache.distanceToBoundary stored
      | None =>
          match Types.tier (ScoreCache.result stored) with
          | Some ct =>
              exists c,
                usableCached prompt sys opts env w = Some (c, ct) /\
                ScoreCache.result c = ScoreCache.result stored /\
                ScoreCache.distanceToBoundary c
                = ScoreCache.distanceToBoundary stored
          | None => usableCached prompt sys opts env w = None
          end
      end).
Proof.
  intros prompt sys opts env w key.
  unfold usableCached, lookedUp, ScoreCache.get. fold key.
  split; [intros ->; reflexivity|].
  split; [intros ->; now destruct (flag (enableCache opts))|].
  split.
  - intros stored -> Hexp. apply Z.ltb_lt in Hexp. rewrite Hexp.
    now destruct (flag (enableCache opts)).
  - intros stored -> -> Hlive. apply Z.ltb_ge in Hlive. rewrite Hlive.
    cbn [ScoreCache.result].
    destruct (JSMap.get (ScoreCache.jitterLocks (w_cache w)) key) as [locked|].
    + destruct (optTier_eqb (Types.tier (ScoreCache.result stored)) (Some locked))
        eqn:E; cbn [negb fst].
      * apply LockProps.optTier_eqb_eq in E.
        cbn [ScoreCache.result]. rewrite E.
        eexists. split; [reflexivity|]. split; reflexivity.
      * cbn [ScoreCache.result ScoreCache.with_result_tier Types.tier].
        eexists. split; [reflexivity|]. split; reflexivity.
    + cbn [fst ScoreCache.result].
      destruct (Types.tier (ScoreCache.result stored)) as [ct|]; [|reflexivity].
      eexists. split; [reflexivity|]. split; reflexivity.
Qed.

End WithBuiltins.
End RouterProps.

Module RouterClaims.
Import JS JSFacts Router RouterProps RouterSpec.
Local Open Scope R_scope.

(** C6.  The token estimate of [route] is
    [ceil((len(systemPrompt) + 1 + len(prompt)) / 4)]; when it exceeds
    [overrides.maxTokensForceComplex], the decision has tier COMPLEX and
    confidence 0.95, whatever the classifier, the cache, the flags and the
    other overrides say. *)
Theorem C6_large_context_forces_complex :
  forall (B : Builtins) (prompt : jsstring) (systemPrompt : option jsstring)
         (maxOutputTokens : Z) (opts : RouterOptions) (env : Env) (w : World),
    let total := (match systemPrompt with Some s => len s | None => 0 end
                  + 1 + len prompt)%Z in
    let estimatedTokens := estimateTokens prompt systemPrompt in
    (total <= 4 * estimatedTokens < total + 4)%Z /\
    ((maxTokensForceComplex (overrides (config opts)) < estimatedTokens)%Z ->
     tier (fst (route prompt systemPrompt maxOutputTokens opts env w)) = COMPLEX /\
     confidence (fst (route prompt systemPrompt maxOutputTokens opts env w)) = 0.95).
Proof.
  intros B prompt sys maxOut opts env w total n. split.
  - subst n total. unfold estimateTokens, Fingerprint.ceil_div4.
    rewrite len_fullText.
    set (L := (match sys with Some s => len s | None => 0 end + 1 + len prompt)%Z).
    pose proof (Z.div_mod (L + 3) 4 ltac:(lia)) as Hd.
    pose proof (Z.mod_pos_bound (L + 3) 4 ltac:(lia)) as Hm.
    lia.
  - intros Hlarge.
    destruct (route_large prompt sys maxOut opts env w Hlarge) as (Ht & Hc & _).
    split; assumption.
Qed.

(** Scenario 6 of the specification. *)
Lemma C6_witness :
  tier (fst (route (B := asciiBuiltins) hugePrompt None 64 plainOptions quietEnv
               freshWorld)) = COMPLEX /\
  confidence (fst (route (B := asciiBuiltins) hugePrompt None 64 plainOptions
                     quietEnv freshWorld)) = 0.95.
Proof.
  apply (proj2 (C6_large_context_forces_complex asciiBuiltins hugePrompt None 64
                  plainOptions quietEnv freshWorld)).
  vm_compute. reflexivity.
Defined.

(** C1.  Outside the large-context override:
    - the lookup of [route] serves nothing when the cache is switched off,
      holds no entry under the key of the request, or holds an expired one;
      for an entry that is not expired it serves the tier of the key's jitter
      lock when the key is locked (with the stored confidence, raised to at
      least 0.7 when the stored tier is another one), and the stored tier
      otherwise;
    - when a tier is served, the decision takes it (raised by the
      structured-output override), whether or not [shouldUseCachedTier]
      holds; [shouldUseCachedTier], applied to the served entry, decides the
      confidence only: [max(served confidence, 0.7)] when it holds and
      adaptive weighting is enabled, the classifier's confidence otherwise;
    - when no tier is served, the decision takes the freshly classified tier
      with the classifier's confidence, or the ambiguous default with
      confidence 0.5 when that tier is [null]. *)
Theorem C1_cached_tier_is_kept_whenever_present :
  forall (B : Builtins) (prompt : jsstring) (systemPrompt : option jsstring)
         (maxOutputTokens : Z) (opts : RouterOptions) (env : Env) (w : World),
    (estimateTokens prompt systemPrompt
     <= maxTokensForceComplex (overrides (config opts)))%Z ->
    let rr := ruleResultOf prompt systemPrompt opts env w in
    let d := fst (route prompt systemPrompt maxOutputTokens opts env w) in
    let key := Fingerprint.getCacheKey prompt systemPrompt in
    let served := usableCached prompt systemPrompt opts env w in
    ((flag (enableCache opts) = false -> served = None) /\
     (JSMap.get (ScoreCache.cache (w_cache w)) key = None -> served = None) /\
     (forall stored,
         JSMap.get (ScoreCache.cache (w_cache w)) key = Some stored ->
         (ScoreCache.ttlMs (ScoreCache.config (w_cache w))
          < nowGet env - ScoreCache.timestamp stored)%Z ->
         served = None) /\
     (forall stored,
         flag (enableCache opts) = true ->
         JSMap.get (ScoreCache.cache (w_cache w)) key = Some stored ->
         (nowGet env - ScoreCache.timestamp stored
          <= ScoreCache.ttlMs (ScoreCache.config (w_cache w)))%Z ->
         match JSMap.get (ScoreCache.jitterLocks (w_cache w)) key with
         | Some locked =>
             exists c,
               served = Some (c, locked) /\
               Types.confidence (ScoreCache.result c)
               = (if optTier_eqb (Types.tier (ScoreCache.result stored))
                       (Some locked)
                  then Types.confidence (ScoreCache.result stored)
                  else Rmax (Types.confidence (ScoreCache.result stored)) 0.7) /\
               ScoreCache.distanceToBoundary c
               = ScoreCache.distanceToBoundary stored
         | None =>
             match Types.tier (ScoreCache.result stored) with
             | Some ct =>
                 exists c,
                   served = Some (c, ct) /\
                   ScoreCache.result c = ScoreCache.result stored /\
                   ScoreCache.distanceToBoundary c
                   = ScoreCache.distanceToBoundary stored
             | None => served = None
             end
         end))
    /\
    match served with
    | Some (c, ct) =>
        tier d = raised systemPrompt opts ct /\
        confidence d
        = if flag (enableAdaptive opts)
             && ScoreCache.shouldUseCachedTier
                  (snd (lookedUp prompt systemPrompt opts env w)) c
                  (score rr * weightFactor (adaptiveWeights env)) (Types.tier rr)
          then Rmax (Types.confidence (ScoreCache.result c)) 0.7
          else Types.confidence rr
    | None =>
        match Types.tier rr with
        | Some rt =>
            tier d = raised systemPrompt opts rt /\
            confidence d = Types.confidence rr
        | None =>
            tier d = raised systemPrompt opts
                       (ambiguousDefaultTier (overrides (config opts))) /\
            confidence d = 0.5
        end
    end.
Proof.
  intros B prompt sys maxOut opts env w Hsmall. cbv zeta. split.
  - exact (lookup_serves prompt sys opts env w).
  - exact (route_decision prompt sys maxOut opts env w Hsmall).
Qed.

(** ** The two-request scenario *)

Lemma second_same_fingerprint :
  Fingerprint.generateFingerprint (B := asciiBuiltins) secondPrompt None
  = Fingerprint.generateFingerprint (B := asciiBuiltins) firstPrompt None.
Proof. vm_compute. reflexivity. Qed.

Lemma first_fingerprint_nonempty :
  Fingerprint.generateFingerprint (B := asciiBuiltins) firstPrompt None <> [].
Proof. intros E. vm_compute in E. discriminate. Qed.

Lemma score_first :
  RulesSpec.weightedScoreOf (B := asciiBuiltins) firstPrompt None
    (estimateTokens firstPrompt None) plainScoring = - 0.08.
Proof. vm_compute. lra. Qed.

Lemma score_second :
  RulesSpec.weightedScoreOf (B := asciiBuiltins) secondPrompt None
    (estimateTokens secondPrompt None) plainScoring = - 0.02.
Proof. vm_compute. lra. Qed.

Lemma no_keywords : forall p,
  (List.length (RulesSpec.reasoningMatches (B := asciiBuiltins) p plainScoring) < 2)%nat.
Proof. intros p. cbn. lia. Qed.

(** [sigmoid(12 * 0.08)], about 0.723, and [sigmoid(12 * 0.02)], about
    0.560. *)
Lemma confident_at_008 : forall x,
  x = 0.08 -> 0.7 <= Rules.calibrateConfidence x 12.
Proof.
  intros x ->. unfold Rules.calibrateConfidence.
  replace (Ropp 12 * 0.08) with (Ropp (0.24 + 0.24 + 0.24 + 0.24)) by lra.
  rewrite exp_Ropp, !exp_plus.
  pose proof (exp_ineq1_le 0.24) as H.
  set (e := exp 0.24) in *.
  assert (H2 : 1.5376 <= e * e) by nra.
  assert (H4 : 2.364 <= e * e * e * e) by nra.
  set (q := e * e * e * e) in *.
  assert (Hq : / q <= 0.4231).
  { apply Rmult_le_reg_r with q; [lra|]. rewrite Rinv_l by lra. nra. }
  assert (Hpos : 0 < / q) by (apply Rinv_0_lt_compat; lra).
  apply Rmult_le_reg_r with (1 + / q); [lra|].
  unfold Rdiv. rewrite Rmult_assoc, Rinv_l by lra. lra.
Qed.

Lemma ambiguous_at_002 : forall x,
  x = 0.02 -> Rules.calibrateConfidence x 12 < 0.7.
Proof.
  intros x ->. unfold Rules.calibrateConfidence.
  pose proof (exp_ineq1_le (Ropp 12 * 0.02)) as H.
  set (e := exp (Ropp 12 * 0.02)) in *.
  apply Rmult_lt_reg_r with (1 + e); [lra|].
  unfold Rdiv. rewrite Rmult_assoc, Rinv_l by lra. lra.
Qed.

Lemma natural_first :
  Rules.naturalTier (- 0.08) (tierBoundaries plainScoring)
  = (SIMPLE, 0 - - 0.08, js "simple-medium").
Proof.
  unfold Rules.naturalTier. cbn [tierBoundaries plainScoring simpleMedium].
  destruct (Rlt_dec (- 0.08) 0); [reflexivity|lra].
Qed.

Lemma natural_second :
  Rules.naturalTier (- 0.02) (tierBoundaries plainScoring)
  = (SIMPLE, 0 - - 0.02, js "simple-medium").
Proof.
  unfold Rules.naturalTier. cbn [tierBoundaries plainScoring simpleMedium].
  destruct (Rlt_dec (- 0.02) 0); [reflexivity|lra].
Qed.

(** The first request is classified SIMPLE, with confidence. *)
Lemma first_is_simple :
  Types.tier (ruleResultOf (B := asciiBuiltins) firstPrompt None plainOptions
                quietEnv freshWorld) = Some SIMPLE.
Proof.
  unfold ruleResultOf.
  destruct (RulesProps.classify_no_override (B := asciiBuiltins) firstPrompt None
              (estimateTokens firstPrompt None) plainScoring
              (Some (Fingerprint.generateFingerprint (B := asciiBuiltins)
                       firstPrompt None))
              [] 0.5 (no_keywords firstPrompt)) as (_ & Ht & _).
  cbn [scoring config plainOptions w_history freshWorld rnd quietEnv].
  rewrite Ht. rewrite score_first.
  rewrite (@RulesClaims.hysteresis_plain (- 0.08) (tierBoundaries plainScoring) _
             SIMPLE (0 - - 0.08) (js "simple-medium"));
    [|left; reflexivity|exact natural_first].
  cbn [Rules.td_distance Rules.td_tier confidenceSteepness confidenceThreshold
       plainScoring].
  destruct (Rlt_dec (Rules.calibrateConfidence (0 - - 0.08) 12) 0.7) as [Hlt|_];
    [|reflexivity].
  pose proof (confident_at_008 (x := 0 - - 0.08) ltac:(lra)). lra.
Qed.

(** The history after the first request records SIMPLE. *)
Lemma history_after_first :
  Rules.lastTier
    (Rules.getScoreHistory (w_history afterFirst)
       (Fingerprint.generateFingerprint (B := asciiBuiltins) firstPrompt None))
  = Some SIMPLE.
Proof.
  unfold afterFirst.
  rewrite (proj1 (route_world (B := asciiBuiltins) firstPrompt None 64 plainOptions
                    quietEnv freshWorld)).
  cbn [scoring config plainOptions w_history freshWorld rnd quietEnv].
  assert (Hrnd : ~ 0.5 < 0.01) by lra.
  pose proof (@RulesClaims.classify_records asciiBuiltins firstPrompt None
                (estimateTokens firstPrompt None) plainScoring
                _ [] 0.5 first_fingerprint_nonempty (no_keywords firstPrompt) Hrnd)
    as H.
  cbv zeta in H. rewrite H. clear H.
  rewrite score_first.
  rewrite (@RulesClaims.hysteresis_plain (- 0.08) (tierBoundaries plainScoring) _
             SIMPLE (0 - - 0.08) (js "simple-medium"));
    [reflexivity|left; reflexivity|exact natural_first].
Qed.

(** The second request is ambiguous. *)
Lemma second_is_ambiguous :
  Types.tier (ruleResultOf (B := asciiBuiltins) secondPrompt None plainOptions
                quietEnv afterFirst) = None.
Proof.
  unfold ruleResultOf.
  destruct (RulesProps.classify_no_override (B := asciiBuiltins) secondPrompt None
              (estimateTokens secondPrompt None) plainScoring
              (Some (Fingerprint.generateFingerprint (B := asciiBuiltins)
                       secondPrompt None))
              (w_history afterFirst) 0.5 (no_keywords secondPrompt)) as (_ & Ht & _).
  cbn [scoring config plainOptions rnd quietEnv].
  rewrite Ht. rewrite score_second.
  rewrite (@RulesClaims.hysteresis_plain (- 0.02) (tierBoundaries plainScoring) _
             SIMPLE (0 - - 0.02) (js "simple-medium")).
  - cbn [Rules.td_distance Rules.td_tier confidenceSteepness confidenceThreshold
         plainScoring].
    destruct (Rlt_dec (Rules.calibrateConfidence (0 - - 0.02) 12) 0.7) as [_|Hn];
      [reflexivity|].
    exfalso. apply Hn. apply ambiguous_at_002. lra.
  - right. rewrite second_same_fingerprint.
    rewrite (RulesClaims.historyOf_truthy _ first_fingerprint_nonempty).
    exact history_after_first.
  - exact natural_second.
Qed.

(** After a first [set] on a fresh cache, a [get] under the same key finds
    the entry as it was stored. *)
Lemma get_after_first_set :
  forall (B : Builtins) cfg now p s res b sc now' p' s',
    Fingerprint.getCacheKey p' s' = Fingerprint.getCacheKey p s ->
    (now' - now <= ScoreCache.ttlMs cfg)%Z ->
    int_ge 1 (ScoreCache.jitterThreshold cfg) = false ->
    exists c,
      fst (ScoreCache.get (ScoreCache.set (ScoreCache.create cfg) now p s res b sc)
             now' p' s') = Some c /\
      ScoreCache.result c = res /\
      ScoreCache.distanceToBoundary c
      = fst (ScoreCache.calculateBoundaryProximity sc b).
Proof.
  intros B cfg now p s res b sc now' p' s' Hkey Httl Hjt.
  unfold ScoreCache.get. rewrite Hkey.
  set (key := Fingerprint.getCacheKey p s).
  assert (Hlocks : ScoreCache.jitterLocks
                     (ScoreCache.set (ScoreCache.create cfg) now p s res b sc) = []).
  { unfold ScoreCache.set. cbv zeta. fold key.
    cbn [ScoreCache.jitterLocks ScoreCache.create ScoreCache.cache
         ScoreCache.config ScoreCache.accessOrder ScoreCache.jitterTracker].
    assert (Ht : snd (ScoreCache.trackJitter cfg [] [] key (Types.tier res)) = []).
    { unfold ScoreCache.trackJitter. destruct (Types.tier res); [|reflexivity].
      cbn [JSMap.get app List.length Nat.ltb Nat.leb].
      change (Z.of_nat 1) with 1%Z. rewrite Hjt. reflexivity. }
    destruct (_ && _); [|exact Ht].
    unfold ScoreCache.evictLRU. cbn [ScoreCache.accessOrder]. exact Ht. }
  assert (Hcache : ScoreCache.cache
                     (ScoreCache.set (ScoreCache.create cfg) now p s res b sc)
                   = [(key,
                       {| ScoreCache.result := res; ScoreCache.timestamp := now;
                          ScoreCache.hitCount := 1;
                          ScoreCache.lastTier :=
                            match Types.tier res with Some t => t | None => MEDIUM end;
                          ScoreCache.distanceToBoundary :=
                            fst (ScoreCache.calculateBoundaryProximity sc b);
                          ScoreCache.boundaryName :=
                            snd (ScoreCache.calculateBoundaryProximity sc b) |})]).
  { unfold ScoreCache.set. cbv zeta. fold key.
    cbn [ScoreCache.jitterLocks ScoreCache.create ScoreCache.cache
         ScoreCache.config ScoreCache.accessOrder ScoreCache.jitterTracker].
    destruct (_ && _); [unfold ScoreCache.evictLRU; cbn [ScoreCache.accessOrder]|];
      reflexivity. }
  assert (Hcfg : ScoreCache.config
                   (ScoreCache.set (ScoreCache.create cfg) now p s res b sc) = cfg).
  { rewrite CacheProps.config_set. reflexivity. }
  rewrite Hlocks, Hcache, Hcfg.
  cbn [JSMap.get]. rewrite str_eqb_refl.
  cbn [ScoreCache.timestamp].
  destruct (ScoreCache.ttlMs cfg <? now' - now)%Z eqn:E;
    [apply Z.ltb_lt in E; lia|].
  eexists. split; [reflexivity|]. split; reflexivity.
Qed.

(** The second request finds the entry of the first, whose tier is SIMPLE. *)
Lemma second_finds_simple :
  exists c,
    usableCached (B := asciiBuiltins) secondPrompt None plainOptions quietEnv
      afterFirst = Some (c, SIMPLE).
Proof.
  unfold usableCached, lookedUp, afterFirst.
  rewrite (proj2 (route_world (B := asciiBuiltins) firstPrompt None 64 plainOptions
                    quietEnv freshWorld)).
  cbv zeta.
  assert (Hl : lookedUp (B := asciiBuiltins) firstPrompt None plainOptions quietEnv
                 freshWorld
               = (None, ScoreCache.create ScoreCache.DEFAULT_CACHE_CONFIG)).
  { reflexivity. }
  rewrite Hl. cbn [fst snd flag enableCache plainOptions nowGet nowSet quietEnv].
  destruct (@get_after_first_set asciiBuiltins ScoreCache.DEFAULT_CACHE_CONFIG 0%Z
              firstPrompt None
              {| score := fst (adjust plainOptions
                                 (ScoreCache.create ScoreCache.DEFAULT_CACHE_CONFIG)
                                 None
                                 (ruleResultOf (B := asciiBuiltins) firstPrompt None
                                    plainOptions quietEnv freshWorld)
                                 (adaptiveWeights quietEnv));
                 Types.tier := Types.tier
                                 (ruleResultOf (B := asciiBuiltins) firstPrompt None
                                    plainOptions quietEnv freshWorld);
                 Types.confidence :=
                   snd (adjust plainOptions
                          (ScoreCache.create ScoreCache.DEFAULT_CACHE_CONFIG) None
                          (ruleResultOf (B := asciiBuiltins) firstPrompt None
                             plainOptions quietEnv freshWorld)
                          (adaptiveWeights quietEnv));
                 signals := signals (ruleResultOf (B := asciiBuiltins) firstPrompt
                                       None plainOptions quietEnv freshWorld);
                 agenticScore := agenticScore
                                   (ruleResultOf (B := asciiBuiltins) firstPrompt
                                      None plainOptions quietEnv freshWorld) |}
              (tierBoundaries (scoring (config plainOptions)))
              (fst (adjust plainOptions
                      (ScoreCache.create ScoreCache.DEFAULT_CACHE_CONFIG) None
                      (ruleResultOf (B := asciiBuiltins) firstPrompt None
                         plainOptions quietEnv freshWorld)
                      (adaptiveWeights quietEnv)))
              0%Z secondPrompt None)
    as (c & Hget & Hres & _).
  - unfold Fingerprint.getCacheKey. exact second_same_fingerprint.
  - vm_compute. discriminate.
  - vm_compute. reflexivity.
  - exists c. rewrite Hget, Hres. cbn [Types.tier]. now rewrite first_is_simple.
Qed.

(** The theorem at the second request of the two-request scenario. *)
Lemma C1_witness :
  let rr := ruleResultOf (B := asciiBuiltins) secondPrompt None plainOptions
              quietEnv afterFirst in
  let d := fst (route (B := asciiBuiltins) secondPrompt None 64 plainOptions
                  quietEnv afterFirst) in
  match usableCached (B := asciiBuiltins) secondPrompt None plainOptions quietEnv
          afterFirst with
  | Some (c, ct) =>
      tier d = raised None plainOptions ct /\
      confidence d
      = if flag (enableAdaptive plainOptions)
           && ScoreCache.shouldUseCachedTier
                (snd (lookedUp (B := asciiBuiltins) secondPrompt None plainOptions
                        quietEnv afterFirst)) c
                (score rr * weightFactor (adaptiveWeights quietEnv)) (Types.tier rr)
        then Rmax (Types.confidence (ScoreCache.result c)) 0.7
        else Types.confidence rr
  | None =>
      match Types.tier rr with
      | Some rt =>
          tier d = raised None plainOptions rt /\
          confidence d = Types.confidence rr
      | None =>
          tier d = raised None plainOptions
                     (ambiguousDefaultTier (overrides (config plainOptions))) /\
          confidence d = 0.5
      end
  end.
Proof.
  refine (proj2 (C1_cached_tier_is_kept_whenever_present asciiBuiltins secondPrompt
                   None 64 plainOptions quietEnv afterFirst _)).
  vm_compute. discriminate.
Defined.

(** C1 fails as stated.  Two requests with one fingerprint are routed one
    after the other under the default numbers.  The first is classified
    SIMPLE and cached.  For the second the classifier is ambiguous, so
    [shouldUseCachedTier] is false for every cached entry and the statement
    asks for the ambiguous default MEDIUM; the decision keeps the cached
    tier SIMPLE. *)
Lemma C1_counterexample :
  let rr := ruleResultOf (B := asciiBuiltins) secondPrompt None plainOptions
              quietEnv afterFirst in
  let d := fst (route (B := asciiBuiltins) secondPrompt None 64 plainOptions
                  quietEnv afterFirst) in
  (estimateTokens secondPrompt None
   <= maxTokensForceComplex (overrides (config plainOptions)))%Z /\
  option_map snd (usableCached (B := asciiBuiltins) secondPrompt None plainOptions
                    quietEnv afterFirst) = Some SIMPLE /\
  Types.tier rr = None /\
  (forall c,
      ScoreCache.shouldUseCachedTier
        (snd (lookedUp (B := asciiBuiltins) secondPrompt None plainOptions quietEnv
                afterFirst)) c
        (score rr * weightFactor (adaptiveWeights quietEnv)) (Types.tier rr)
      = false) /\
  ambiguousDefaultTier (overrides (config plainOptions)) = MEDIUM /\
  tier d = SIMPLE.
Proof.
  intros rr d.
  assert (Hsmall : (estimateTokens secondPrompt None
                    <= maxTokensForceComplex (overrides (config plainOptions)))%Z).
  { vm_compute. discriminate. }
  destruct second_finds_simple as [c Hc].
  split; [exact Hsmall|].
  split; [rewrite Hc; reflexivity|].
  split; [exact second_is_ambiguous|].
  split.
  { intros c'. subst rr. rewrite second_is_ambiguous. reflexivity. }
  split; [reflexivity|].
  pose proof (route_decision (B := asciiBuiltins) secondPrompt None 64 plainOptions
                quietEnv afterFirst Hsmall) as H.
  cbv zeta in H. rewrite Hc in H. destruct H as [Ht _].
  subst d. rewrite Ht. reflexivity.
Qed.

End RouterClaims.

(* ================================================================== *)
(** * Further properties of the modules *)
(* ================================================================== *)

(** ** Insertion-ordered maps and lists *)

Module MapProps.
Import JS JSFacts.

Lemma filter_none : forall (A : Type) (f : A -> bool) (l : list A),
  (forall x, In x l -> f x = false) -> filter f l = [].
Proof.
  intros A f. induction l as [|x l IH]; intros H; [reflexivity|].
  simpl. rewrite (H x (or_introl eq_refl)). apply IH. intros y Hy. apply H. now right.
Qed.

Lemma filter_all : forall (A : Type) (f : A -> bool) (l : list A),
  (forall x, In x l -> f x = true) -> filter f l = l.
Proof.
  intros A f. induction l as [|x l IH]; intros H; [reflexivity|].
  simpl. rewrite (H x (or_introl eq_refl)). f_equal. apply IH.
  intros y Hy. apply H. now right.
Qed.

Lemma Forall_skipn : forall (A : Type) (P : A -> Prop) n (l : list A),
  Forall P l -> Forall P (skipn n l).
Proof.
  intros A P n l H. rewrite Forall_forall in *. intros x Hx. apply H.
  rewrite <- (firstn_skipn n l). apply in_or_app. now right.
Qed.

Section Values.
Variable V : Type.
Implicit Types (m : JSMap.t V).




(** With distinct keys a lookup finds the one entry of the key. *)
Lemma get_In : forall m k v,
  NoDup (JSMap.keys m) -> (JSMap.get m k = Some v <-> In (k, v) m).
Proof.
  induction m as [|[k' v'] m IH]; intros k v Hnd; simpl.
  - split; [discriminate | intros []].
  - inversion Hnd as [|? ? Hk Hm]; subst.
    destruct (str_eqb k' k) eqn:E.
    + apply str_eqb_eq in E. subst k'. split.
      * intros H. injection H as <-. now left.
      * intros [H|H]; [congruence|]. exfalso. apply Hk.
        change k with (fst (k, v)). now apply in_map.
    + apply str_eqb_neq in E. rewrite (IH k v Hm). split.
      * intros H. now right.
      * intros [H|H]; [congruence | exact H].
Qed.

(** Deleting a list of keys one after the other. *)
Lemma delete_all_filter : forall ks m,
  fold_left (fun m' key => JSMap.delete m' key) ks m
  = filter (fun e => negb (existsb (str_eqb (fst e)) ks)) m.
Proof.
  induction ks as [|k ks IH]; intros m.
  - simpl. induction m as [|e m IHm]; [reflexivity|]. simpl. now rewrite <- IHm.
  - simpl. rewrite IH. unfold JSMap.delete.
    induction m as [|e m IHm]; [reflexivity|]. simpl.
    destruct (str_eqb (fst e) k); simpl.
    + exact IHm.
    + destruct (existsb _ ks); simpl; [exact IHm | now rewrite IHm].
Qed.

Lemma get_delete_all : forall ks m k,
  JSMap.get (fold_left (fun m' key => JSMap.delete m' key) ks m) k
  = if existsb (str_eqb k) ks then None else JSMap.get m k.
Proof.
  induction ks as [|k0 ks IH]; intros m k; [reflexivity|].
  simpl. rewrite IH. destruct (existsb (str_eqb k) ks) eqn:E.
  - now rewrite orb_true_r.
  - rewrite orb_false_r. destruct (str_eqb k k0) eqn:E0.
    + apply str_eqb_eq in E0. subst. apply get_delete_same.
    + apply str_eqb_neq in E0. now apply get_delete_other.
Qed.

(** The keys of the entries that satisfy a test, with distinct keys. *)
Lemma listed_key : forall (f : V -> bool) m k,
  NoDup (JSMap.keys m) ->
  existsb (str_eqb k) (map fst (filter (fun e => f (snd e)) m))
  = match JSMap.get m k with
    | Some v => f v
    | None => false
    end.
Proof.
  intros f m k Hnd.
  destruct (existsb _ _) eqn:E.
  - apply existsb_exists in E. destruct E as (k' & Hin & Ek).
    apply str_eqb_eq in Ek. subst k'. apply in_map_iff in Hin.
    destruct Hin as ([k' c] & Hk & Hin). simpl in Hk. subst k'.
    apply filter_In in Hin. destruct Hin as [Hin Hexp]. simpl in Hexp.
    apply (proj2 (@get_In m k c Hnd)) in Hin. now rewrite Hin.
  - destruct (JSMap.get m k) as [c|] eqn:Eg; [|reflexivity].
    destruct (f c) eqn:Ec; [|reflexivity].
    apply (proj1 (@get_In m k c Hnd)) in Eg.
    assert (existsb (str_eqb k) (map fst (filter (fun e => f (snd e)) m)) = true).
    { apply existsb_exists. exists k. split; [|apply str_eqb_refl].
      apply in_map_iff. exists (k, c). split; [reflexivity|].
      apply filter_In. split; assumption. }
    congruence.
Qed.


(** The first [n] keys deleted, oldest first. *)
Lemma delete_first_keys : forall m n,
  NoDup (JSMap.keys m) ->
  fold_left (fun m' key => JSMap.delete m' key) (firstn n (JSMap.keys m)) m
  = skipn n m.
Proof.
  intros m n Hnd. rewrite delete_all_filter. revert n Hnd.
  induction m as [|[k v] m IH]; intros n Hnd.
  - now destruct n.
  - destruct n as [|n].
    + simpl. f_equal. apply filter_all. reflexivity.
    + simpl in Hnd. inversion Hnd as [|? ? Hk Hm]; subst.
      cbn [JSMap.keys map firstn filter fst existsb skipn].
      rewrite str_eqb_refl. cbn [orb negb].
      rewrite <- (IH n Hm). apply filter_ext_in.
      intros [k' v'] Hin. cbn [fst].
      destruct (str_eqb k' k) eqn:E; [|reflexivity].
      apply str_eqb_eq in E. subst k'. exfalso. apply Hk.
      change k with (fst (k, v')). now apply in_map.
Qed.

Variable Q : V -> Prop.

Lemma Forall_map_set : forall m k v,
  Forall (fun e => Q (snd e)) m -> Q v ->
  Forall (fun e => Q (snd e)) (JSMap.set m k v).
Proof.
  induction m as [|[k' v'] m IH]; intros k v Hm Hv; simpl.
  - constructor; [exact Hv | constructor].
  - inversion Hm; subst. destruct (str_eqb k' k); constructor; auto.
Qed.

Lemma Forall_map_delete : forall m k,
  Forall (fun e => Q (snd e)) m ->
  Forall (fun e => Q (snd e)) (JSMap.delete m k).
Proof.
  intros m k H. unfold JSMap.delete. rewrite Forall_forall in *.
  intros e He. apply filter_In in He. now apply H.
Qed.

Lemma Forall_map_get : forall m k v,
  Forall (fun e => Q (snd e)) m -> JSMap.get m k = Some v -> Q v.
Proof.
  induction m as [|[k' v'] m IH]; intros k v Hm Hg; simpl in Hg; [discriminate|].
  inversion Hm; subst. destruct (str_eqb k' k); [|eauto].
  injection Hg as <-. assumption.
Qed.

End Values.

Lemma has_set : forall (V : Type) (m : JSMap.t V) k k' v,
  JSMap.has m k = true -> JSMap.has (JSMap.set m k' v) k = true.
Proof.
  intros V m k k' v H. unfold JSMap.has in *.
  destruct (list_eq_dec N.eq_dec k k') as [->|Hne].
  - now rewrite get_set_same.
  - now rewrite get_set_other.
Qed.

Lemma has_delete_other : forall (V : Type) (m : JSMap.t V) k k',
  k <> k' -> JSMap.has m k = true -> JSMap.has (JSMap.delete m k') k = true.
Proof.
  intros V m k k' Hne H. unfold JSMap.has in *. now rewrite get_delete_other.
Qed.

Lemma set_set : forall (V : Type) (m : JSMap.t V) k (a b : V),
  JSMap.set (JSMap.set m k a) k b = JSMap.set m k b.
Proof.
  intros V. induction m as [|[k0 v0] m IH]; intros k a b; simpl.
  - now rewrite str_eqb_refl.
  - destruct (str_eqb k0 k) eqn:E; simpl; rewrite E; [reflexivity|].
    now rewrite IH.
Qed.

End MapProps.

(** ** Fingerprints: size, similarity, white space *)

Module FingerprintExtra.
Import JS JSFacts MapProps Fingerprint FingerprintTerms.



Section WithBuiltins.
Context {B : Builtins}.






End WithBuiltins.

Lemma opt_str_eqb_refl : forall a, opt_str_eqb a a = true.
Proof. intros [a|]; simpl; [apply str_eqb_refl | reflexivity]. Qed.

Lemma opt_str_eqb_sym : forall a b, opt_str_eqb a b = opt_str_eqb b a.
Proof. intros [a|] [b|]; simpl; try reflexivity. apply str_eqb_sym. Qed.

Lemma opt_str_eqb_eq : forall a b, opt_str_eqb a b = true <-> a = b.
Proof.
  intros [a|] [b|]; simpl; try (split; congruence).
  rewrite str_eqb_eq. split; congruence.
Qed.

Lemma diffPositions_sym : forall a b, diffPositions a b = diffPositions b a.
Proof.
  induction a as [|x a IH]; intros [|y b]; simpl; try reflexivity.
  rewrite (N.eqb_sym x y), IH. reflexivity.
Qed.

Lemma contentClose_sym : forall a b, contentClose a b = contentClose b a.
Proof.
  intros a b. unfold contentClose. cbv zeta.
  rewrite (Z.max_comm (len b)), (Z.min_comm (len b)), (diffPositions_sym b a).
  replace (Z.abs (len b - len a)) with (Z.abs (len a - len b)) by lia.
  reflexivity.
Qed.

(** X2.  [fingerprintsSimilar] is reflexive on every string, also one
    without a ['|'] (both content pieces are then [undefined] and compare
    equal), and symmetric: swapping the arguments gives the same answer or
    the same exception. *)
Theorem X2_fingerprintsSimilar_reflexive_symmetric :
  (forall fp : jsstring, fingerprintsSimilar fp fp = Some true) /\
  (forall fp1 fp2 : jsstring,
      fingerprintsSimilar fp1 fp2 = fingerprintsSimilar fp2 fp1).
Proof.
  split.
  - intros fp. unfold fingerprintsSimilar. cbv zeta.
    now rewrite !opt_str_eqb_refl.
  - intros fp1 fp2. unfold fingerprintsSimilar. cbv zeta.
    rewrite (opt_str_eqb_sym (nth_error (firstn 2 (split 124 fp2)) 0)).
    rewrite (opt_str_eqb_sym (nth_error (firstn 2 (split 124 fp2)) 1)).
    destruct (negb _); [reflexivity|].
    destruct (opt_str_eqb _ _); [reflexivity|].
    destruct (nth_error (firstn 2 (split 124 fp1)) 1),
             (nth_error (firstn 2 (split 124 fp2)) 1); try reflexivity.
    now rewrite contentClose_sym.
Qed.

Lemma split_nonempty : forall sep s, split sep s <> [].
Proof.
  intros sep s. destruct s as [|c s]; simpl; [discriminate|].
  destruct (N.eqb c sep); [discriminate|].
  destruct (split sep s); discriminate.
Qed.

(** The pieces of [split]: one piece without a separator, two or more with
    one. *)
Lemma split_second : forall s,
  nth_error (firstn 2 (split 124 s)) 1 = None <-> hasBar s = false.
Proof.
  unfold hasBar. induction s as [|c s IH].
  - simpl. tauto.
  - cbn [split existsb]. rewrite (N.eqb_sym 124 c).
    pose proof (split_nonempty 124 s) as Hne.
    destruct (N.eqb c 124) eqn:E.
    + destruct (split 124 s); [contradiction|]. simpl. split; discriminate.
    + rewrite orb_false_l.
      destruct (split 124 s) as [|h [|h2 t]] eqn:Es; [contradiction| |];
        simpl in *; exact IH.
Qed.

Lemma split_second_some : forall s c,
  nth_error (firstn 2 (split 124 s)) 1 = Some c -> hasBar s = true.
Proof.
  intros s c H. destruct (hasBar s) eqn:E; [reflexivity|].
  apply split_second in E. congruence.
Qed.

Lemma split_first : forall s,
  nth_error (firstn 2 (split 124 s)) 0 = Some (firstPiece s).
Proof.
  intros s. unfold firstPiece. pose proof (split_nonempty 124 s).
  destruct (split 124 s) as [|h [|h2 t]]; [contradiction| |]; reflexivity.
Qed.

Lemma similar_none_iff : forall fp1 fp2 : jsstring,
  fingerprintsSimilar fp1 fp2 = None
  <-> firstPiece fp1 = firstPiece fp2 /\ hasBar fp1 <> hasBar fp2.
Proof.
  intros fp1 fp2. unfold fingerprintsSimilar. cbv zeta.
  rewrite !split_first.
  destruct (opt_str_eqb (Some (firstPiece fp1)) (Some (firstPiece fp2))) eqn:Ef.
  - apply opt_str_eqb_eq in Ef. injection Ef as Ef. simpl negb. cbv iota.
    destruct (nth_error (firstn 2 (split 124 fp1)) 1) as [c1|] eqn:E1,
             (nth_error (firstn 2 (split 124 fp2)) 1) as [c2|] eqn:E2.
    + apply split_second_some in E1. apply split_second_some in E2.
      rewrite E1, E2. simpl. destruct (str_eqb c1 c2); split; try discriminate;
        intros [_ Hb]; now elim Hb.
    + apply split_second_some in E1. apply split_second in E2.
      rewrite E1, E2. simpl. split; [intros _|reflexivity].
      split; [exact Ef | discriminate].
    + apply split_second in E1. apply split_second_some in E2.
      rewrite E1, E2. simpl. split; [intros _|reflexivity].
      split; [exact Ef | discriminate].
    + apply split_second in E1. apply split_second in E2.
      rewrite E1, E2. simpl. split; [discriminate|]. intros [_ Hb]. now elim Hb.
  - simpl negb. cbv iota. split; [discriminate|]. intros [Hf _].
    rewrite Hf in Ef. simpl in Ef. now rewrite str_eqb_refl in Ef.
Qed.

Lemma hasBar_app_r : forall a b, hasBar b = true -> hasBar (a ++ b) = true.
Proof. intros a b H. unfold hasBar in *. rewrite existsb_app, H. apply orb_true_r. Qed.

Lemma generated_hasBar : forall (B : Builtins) p s,
  hasBar (generateFingerprint p s) = true.
Proof.
  intros B p s. unfold generateFingerprint. cbv zeta.
  apply hasBar_app_r. reflexivity.
Qed.

(** X3.  [fingerprintsSimilar] throws (reading [.length] of [undefined])
    exactly when the two strings agree up to their first ['|'] and one of
    them has a ['|'] while the other has none.  A fingerprint made by
    [generateFingerprint] always has a ['|'], so the comparison of two
    generated fingerprints never throws. *)
Theorem X3_fingerprintsSimilar_throws_only_without_bar :
  (forall fp1 fp2 : jsstring,
      fingerprintsSimilar fp1 fp2 = None
      <-> firstPiece fp1 = firstPiece fp2 /\ hasBar fp1 <> hasBar fp2) /\
  (forall (B : Builtins) (p1 p2 : jsstring) (s1 s2 : option jsstring),
      fingerprintsSimilar (generateFingerprint p1 s1) (generateFingerprint p2 s2)
      <> None).
Proof.
  split; [exact similar_none_iff|].
  intros B p1 p2 s1 s2 H. apply similar_none_iff in H.
  destruct H as [_ H]. apply H. now rewrite !generated_hasBar.
Qed.

(** *** White space around the text *)

Lemma blank_nil : blank [].
Proof. reflexivity. Qed.

Lemma blank_app : forall a b, blank a -> blank b -> blank (a ++ b).
Proof. intros a b Ha Hb. unfold blank in *. now rewrite forallb_app, Ha, Hb. Qed.

Lemma blank_cons : forall c s, blank (c :: s) <-> isSpace c = true /\ blank s.
Proof. intros c s. unfold blank. simpl. apply andb_true_iff. Qed.

Lemma blank_rev : forall s, blank s -> blank (rev s).
Proof.
  intros s H. unfold blank in *. rewrite forallb_forall in *.
  intros x Hx. apply H. now apply in_rev.
Qed.

Lemma dropWhile_blank_app : forall e x,
  blank e -> dropWhile isSpace (e ++ x) = dropWhile isSpace x.
Proof.
  induction e as [|c e IH]; intros x H; [reflexivity|].
  apply blank_cons in H. destruct H as [Hc He]. simpl. rewrite Hc. now apply IH.
Qed.

Lemma dropWhile_blank : forall e, blank e -> dropWhile isSpace e = [].
Proof.
  intros e H. rewrite <- (app_nil_r e). now rewrite dropWhile_blank_app.
Qed.

Lemma dropWhile_rev_tail : forall x e,
  blank e ->
  dropWhile isSpace (rev (dropWhile isSpace (x ++ e)))
  = dropWhile isSpace (rev (dropWhile isSpace x)).
Proof.
  induction x as [|c x IH]; intros e H.
  - cbn [app]. rewrite (dropWhile_blank H). reflexivity.
  - cbn [app dropWhile]. destruct (isSpace c) eqn:Ec; [now apply IH|].
    change (c :: x ++ e) with ((c :: x) ++ e).
    rewrite rev_app_distr. apply dropWhile_blank_app. now apply blank_rev.
Qed.

(** [trim] does not see the padding. *)
Lemma trim_padded : forall core x, padded core x -> trim x = trim core.
Proof.
  intros core x (e & e' & He & He' & ->). unfold trim.
  rewrite dropWhile_blank_app by assumption.
  now rewrite dropWhile_rev_tail.
Qed.

Lemma padded_map : forall (f : N -> N) core x,
  (forall c, isSpace c = true -> f c = c) ->
  padded core x -> padded (map f core) (map f x).
Proof.
  intros f core x Hf (e & e' & He & He' & ->).
  assert (Hfix : forall s, blank s -> map f s = s).
  { induction s as [|c s IH]; intros H; [reflexivity|].
    apply blank_cons in H. destruct H as [Hc Hs]. simpl.
    now rewrite Hf, IH. }
  exists e, e'. repeat split; try assumption.
  now rewrite !map_app, (Hfix e He), (Hfix e' He').
Qed.

Section Runs.
Variable p : N -> bool.
Variable rep : jsstring.
Hypothesis p_space : forall c, isSpace c = true -> p c = false.

Lemma runs_blank_l : forall e x,
  blank e ->
  replace_runs_from p rep false (e ++ x) = e ++ replace_runs_from p rep false x.
Proof.
  induction e as [|c e IH]; intros x H; [reflexivity|].
  apply blank_cons in H. destruct H as [Hc He]. simpl.
  rewrite (p_space _ Hc). now rewrite IH.
Qed.

Lemma runs_blank : forall e b, blank e -> replace_runs_from p rep b e = e.
Proof.
  induction e as [|c e IH]; intros b H; [reflexivity|].
  apply blank_cons in H. destruct H as [Hc He]. simpl.
  rewrite (p_space _ Hc). now rewrite IH.
Qed.

Lemma runs_blank_r : forall x e b,
  blank e ->
  replace_runs_from p rep b (x ++ e) = replace_runs_from p rep b x ++ e.
Proof.
  induction x as [|c x IH]; intros e b H.
  - simpl. now apply runs_blank.
  - simpl. destruct (p c).
    + rewrite IH by assumption. now rewrite app_assoc.
    + now rewrite IH.
Qed.

(** Replacing the runs of a class that holds no white space leaves the
    padding alone. *)
Lemma padded_runs : forall core x,
  padded core x -> padded (replace_runs p rep core) (replace_runs p rep x).
Proof.
  intros core x (e & e' & He & He' & ->). exists e, e'.
  repeat split; try assumption. unfold replace_runs.
  rewrite runs_blank_l by assumption. now rewrite runs_blank_r.
Qed.

End Runs.

(** Collapsing white space: what precedes the text only decides whether the
    result starts with a space. *)
Lemma spaces_from_true : forall y b,
  exists e, blank e /\
    replace_runs_from isSpace (js " ") b y
    = e ++ replace_runs_from isSpace (js " ") true y.
Proof.
  intros y [|]; [exists []; split; [apply blank_nil | reflexivity]|].
  destruct y as [|c y]; [exists []; split; [apply blank_nil | reflexivity]|].
  simpl. destruct (isSpace c).
  - exists (js " "). split; reflexivity.
  - exists []. split; [apply blank_nil | reflexivity].
Qed.

Lemma spaces_blank_l : forall e y b,
  blank e ->
  exists e0, blank e0 /\
    replace_runs_from isSpace (js " ") b (e ++ y)
    = e0 ++ replace_runs_from isSpace (js " ") true y.
Proof.
  induction e as [|c e IH]; intros y b H.
  - apply spaces_from_true.
  - apply blank_cons in H. destruct H as [Hc He]. simpl. rewrite Hc.
    destruct (IH y true He) as (e0 & H0 & ->).
    exists ((if b then [] else js " ") ++ e0). split.
    + apply blank_app; [now destruct b | assumption].
    + now rewrite app_assoc.
Qed.

Lemma spaces_blank_r : forall y e b,
  blank e ->
  exists e0, blank e0 /\
    replace_runs_from isSpace (js " ") b (y ++ e)
    = replace_runs_from isSpace (js " ") b y ++ e0.
Proof.
  induction y as [|c y IH]; intros e b H.
  - destruct (spaces_blank_l [] b H) as (e0 & H0 & E).
    rewrite app_nil_r in E. simpl in E. rewrite app_nil_r in E.
    exists e0. split; [assumption|]. simpl. exact E.
  - simpl. destruct (isSpace c).
    + destruct (IH e true H) as (e0 & H0 & ->). exists e0.
      split; [assumption|]. now rewrite app_assoc.
    + destruct (IH e false H) as (e0 & H0 & ->). exists e0.
      split; [assumption | reflexivity].
Qed.

Lemma padded_spaces : forall ws s ws',
  blank ws -> blank ws' ->
  padded (replace_runs_from isSpace (js " ") true s)
         (replace_runs isSpace (js " ") (ws ++ s ++ ws')).
Proof.
  intros ws s ws' H H'. unfold replace_runs.
  destruct (spaces_blank_l (s ++ ws') false H) as (e & He & ->).
  destruct (spaces_blank_r s true H') as (e' & He' & ->).
  exists e, e'. repeat split; assumption.
Qed.

Lemma padded_self : forall s : jsstring,
  padded (replace_runs_from isSpace (js " ") true s)
         (replace_runs isSpace (js " ") s).
Proof.
  intros s. pose proof (@padded_spaces [] s [] blank_nil blank_nil) as H.
  simpl in H. now rewrite app_nil_r in H.
Qed.

Lemma oneOf_In : forall l c, oneOf l c = true -> In c l.
Proof.
  intros l c H. unfold oneOf in H. apply existsb_exists in H.
  destruct H as (x & Hx & E). apply N.eqb_eq in E. now subst.
Qed.

Lemma space_not_oneOf : forall l,
  forallb (fun x => negb (isSpace x)) l = true ->
  forall c, isSpace c = true -> oneOf l c = false.
Proof.
  intros l Hl c Hc. destruct (oneOf l c) eqn:E; [|reflexivity].
  apply oneOf_In in E. rewrite forallb_forall in Hl.
  specialize (Hl c E). now rewrite Hc in Hl.
Qed.

Lemma space_not_quote : forall c, isSpace c = true -> isQuote c = false.
Proof. unfold isQuote. apply space_not_oneOf. reflexivity. Qed.

Lemma space_not_decorative :
  forall c, isSpace c = true -> isDecorativePunct c = false.
Proof. unfold isDecorativePunct. apply space_not_oneOf. reflexivity. Qed.

Lemma space_not_chinese : forall c, isSpace c = true -> isChinesePunct c = false.
Proof. unfold isChinesePunct. apply space_not_oneOf. reflexivity. Qed.

(** The steps of [normalize] after the first, up to [trim]. *)
Lemma normalize_padded : forall core x,
  padded core x ->
  trim (map (fun c => if isChinesePunct c then chinesePunctMap c else c)
          (replace_runs isDecorativePunct (js " ")
             (map (fun c => if isQuote c then 34%N else c) x)))
  = trim (map (fun c => if isChinesePunct c then chinesePunctMap c else c)
            (replace_runs isDecorativePunct (js " ")
               (map (fun c => if isQuote c then 34%N else c) core))).
Proof.
  intros core x H. apply trim_padded.
  apply padded_map.
  { intros c Hc. now rewrite (space_not_chinese _ Hc). }
  apply padded_runs; [exact space_not_decorative|].
  apply padded_map; [|exact H].
  intros c Hc. now rewrite (space_not_quote _ Hc).
Qed.

(** X4.  White space before and after a text does not reach its digest:
    [normalize] and [contentHash] give the same result with and without it,
    whatever [toLowerCase] does. *)
Theorem X4_contentHash_ignores_outer_whitespace :
  forall (B : Builtins) (ws s ws' : jsstring),
    blank ws -> blank ws' ->
    normalize (ws ++ s ++ ws') = normalize s /\
    contentHash (ws ++ s ++ ws') = contentHash s.
Proof.
  intros B ws s ws' H H'.
  assert (E : normalize (ws ++ s ++ ws') = normalize s).
  { unfold normalize. cbv zeta. f_equal.
    rewrite (normalize_padded (padded_spaces s H H')).
    now rewrite (normalize_padded (padded_self s)). }
  split; [exact E|]. unfold contentHash. now rewrite E.
Qed.

(** A tab, a line feed and an ideographic space around ["Hello, world"]. *)
Lemma X4_witness :
  contentHash (B := asciiBuiltins)
    ([32; 9; 10]%N ++ js "Hello, world" ++ [12288; 32]%N)
  = contentHash (B := asciiBuiltins) (js "Hello, world").
Proof.
  exact (proj2 (@X4_contentHash_ignores_outer_whitespace asciiBuiltins
                  [32; 9; 10]%N (js "Hello, world") [12288; 32]%N
                  eq_refl eq_refl)).
Defined.

End FingerprintExtra.

(** ** Rule classifier: confidence, hysteresis, score history *)

Module RulesExtra.
Import JS JSFacts MapProps Rules RulesProps RulesSpec RulesTerms.
Local Open Scope R_scope.

Lemma exp_le_1_iff : forall x, exp x <= 1 <-> x <= 0.
Proof.
  intros x. split.
  - intros He. destruct (Rle_or_lt x 0) as [H|H]; [exact H|].
    apply exp_increasing in H. rewrite exp_0 in H. lra.
  - intros [H|H].
    + apply exp_increasing in H. rewrite exp_0 in H. lra.
    + subst x. rewrite exp_0. lra.
Qed.

Lemma sigmoid_facts : forall x,
  0 < 1 / (1 + exp x) < 1 /\ (1 / 2 <= 1 / (1 + exp x) <-> x <= 0).
Proof.
  intros x. rewrite <- exp_le_1_iff. pose proof (exp_pos x) as He.
  assert (Hx : 1 / (1 + exp x) * (1 + exp x) = 1) by (field; lra).
  assert (Hp : 0 < 1 / (1 + exp x)) by (apply Rdiv_lt_0_compat; lra).
  generalize dependent (1 / (1 + exp x)). generalize dependent (exp x).
  intros e He y Hx Hp. split; [split; [exact Hp | nra]|].
  split; intros H; nra.
Qed.

Lemma sigmoid_monotone : forall x y,
  x <= y -> 1 / (1 + exp y) <= 1 / (1 + exp x).
Proof.
  intros x y H. pose proof (exp_pos x). pose proof (exp_pos y).
  assert (exp x <= exp y).
  { destruct H as [H|H]; [left; now apply exp_increasing | subst; lra]. }
  unfold Rdiv. rewrite !Rmult_1_l. apply Rinv_le_contravar; lra.
Qed.

Lemma calibrate_facts : forall d s,
  0 < calibrateConfidence d s < 1 /\
  (0 <= s * d -> 1 / 2 <= calibrateConfidence d s) /\
  (s * d <= 0 -> calibrateConfidence d s <= 1 / 2) /\
  (forall d', 0 <= s -> d <= d' ->
     calibrateConfidence d s <= calibrateConfidence d' s).
Proof.
  intros d s. unfold calibrateConfidence.
  destruct (sigmoid_facts (- s * d)) as [H1 H2].
  split; [exact H1|]. split; [|split].
  - intros H. apply H2. lra.
  - intros H. destruct (Rle_lt_or_eq_dec _ _ H) as [Hlt|Heq].
    + apply Rnot_lt_le. intros Hc.
      assert (Hh : 1 / 2 <= 1 / (1 + exp (- s * d))) by lra.
      apply H2 in Hh. lra.
    + replace (- s * d) with 0 by lra. rewrite exp_0. lra.
  - intros d' Hs Hd. apply sigmoid_monotone. nra.
Qed.

(** X5.  [calibrateConfidence] maps into [0, 1]; it is at least 1/2 when
    steepness times distance is not negative and at most 1/2 when it is not
    positive; with a steepness that is not negative it does not decrease
    when the distance grows. *)
Theorem X5_calibrateConfidence_range :
  forall distance steepness : R,
    0 <= calibrateConfidence distance steepness <= 1 /\
    (0 <= steepness * distance -> 1 / 2 <= calibrateConfidence distance steepness) /\
    (steepness * distance <= 0 -> calibrateConfidence distance steepness <= 1 / 2) /\
    (forall distance', 0 <= steepness -> distance <= distance' ->
       calibrateConfidence distance steepness
       <= calibrateConfidence distance' steepness).
Proof.
  intros d s. destruct (calibrate_facts d s) as (H1 & H2 & H3 & H4).
  split; [lra|]. auto.
Qed.

Lemma naturalTier_distance_nonneg : forall s b, 0 <= snd (fst (naturalTier s b)).
Proof.
  intros s b. unfold naturalTier.
  destruct (Rlt_dec s (simpleMedium b)); [simpl; lra|].
  destruct (Rlt_dec s (mediumComplex b)).
  { simpl. unfold Rmin. destruct (Rle_dec _ _); lra. }
  destruct (Rlt_dec s (complexReasoning b)).
  { simpl. unfold Rmin. destruct (Rle_dec _ _); lra. }
  simpl. lra.
Qed.

(** The decision of the hysteresis step, in two cases. *)
Lemma hysteresis_cases : forall score b hist w,
  let nt := fst (fst (naturalTier score b)) in
  let dist := snd (fst (naturalTier score b)) in
  let bn := snd (naturalTier score b) in
  let d := calculateTierWithHysteresis score b hist w in
  (exists last, lastTier hist = Some last /\ nt <> last /\ dist < w /\
     d = {| td_tier := Some last; td_distance := 0.05; td_boundary := bn;
            td_usedHysteresis := true |})
  \/
  ((lastTier hist = None \/ lastTier hist = Some nt \/ w <= dist) /\
   d = {| td_tier := Some nt; td_distance := dist; td_boundary := bn;
          td_usedHysteresis := false |}).
Proof.
  intros score b hist w nt dist bn d. subst nt dist bn d.
  unfold calculateTierWithHysteresis.
  destruct (naturalTier score b) as [[nt dist] bn]. cbn [fst snd].
  destruct (lastTier hist) as [last|]; [|right; split; [left|]; reflexivity].
  unfold Tier_eqb. destruct (Tier_eq_dec nt last) as [E|E].
  - right. split; [right; left; now subst | reflexivity].
  - destruct (Rlt_dec dist w) as [Hd|Hd].
    + left. exists last. repeat split; assumption.
    + right. split; [right; right; lra|].
      destruct (Nat.ltb _ _); reflexivity.
Qed.

Lemma hysteresis_tier_some : forall score b hist w,
  td_tier (calculateTierWithHysteresis score b hist w) <> None.
Proof.
  intros score b hist w.
  destruct (hysteresis_cases score b hist w)
    as [(last & _ & _ & _ & E) | (_ & E)]; rewrite E; discriminate.
Qed.

Lemma hysteresis_distance_nonneg : forall score b hist w,
  0 <= td_distance (calculateTierWithHysteresis score b hist w).
Proof.
  intros score b hist w. pose proof (naturalTier_distance_nonneg score b) as Hn.
  destruct (hysteresis_cases score b hist w)
    as [(last & _ & _ & _ & E) | (_ & E)]; rewrite E; simpl; lra.
Qed.

(** X6.  [calculateTierWithHysteresis] never answers [null].  It keeps the
    last tier exactly when there is one, it differs from the tier of the
    score, and the score lies less than [fuzzyWidth] inside its interval;
    the distance it then reports is 0.05 whatever [fuzzyWidth] is.  In every
    other case it returns the tier of the score and its distance: the two
    branches on the direction of the move change nothing. *)
Theorem X6_hysteresis_only_in_fuzzy_band :
  forall (score : R) (b : TierBoundaries) (hist : ScoreHistory) (w : R),
    let nt := fst (fst (naturalTier score b)) in
    let dist := snd (fst (naturalTier score b)) in
    let d := calculateTierWithHysteresis score b hist w in
    td_tier d <> None /\
    (td_usedHysteresis d = true <->
       lastTier hist <> None /\ lastTier hist <> Some nt /\ dist < w) /\
    (td_usedHysteresis d = true ->
       td_tier d = lastTier hist /\ td_distance d = 0.05) /\
    (td_usedHysteresis d = false ->
       td_tier d = Some nt /\ td_distance d = dist).
Proof.
  intros score b hist w nt dist d.
  destruct (hysteresis_cases score b hist w)
    as [(last & Hl & Hne & Hd & E) | (Hc & E)];
    fold nt dist d in Hl, Hne, Hd, E || fold nt dist d in Hc, E; rewrite E; simpl.
  - split; [discriminate|]. split; [|split; [intros _; now rewrite Hl | discriminate]].
    split; [intros _|reflexivity]. rewrite Hl.
    repeat split; [discriminate | congruence | exact Hd].
  - split; [discriminate|]. split; [|split; [discriminate | intros _; now split]].
    split; [discriminate|]. intros (H1 & H2 & H3).
    destruct Hc as [Hc|[Hc|Hc]]; [contradiction | contradiction | lra].
Qed.

(** X7.  Without a recorded tier the tier grows with the score: for any
    boundaries, also ill-ordered ones, a score that is not smaller never
    gets a lower tier. *)
Theorem X7_tier_monotone_without_history :
  forall (b : TierBoundaries) (w s1 s2 : R) (h1 h2 : ScoreHistory),
    lastTier h1 = None -> lastTier h2 = None -> s1 <= s2 ->
    exists t1 t2,
      td_tier (calculateTierWithHysteresis s1 b h1 w) = Some t1 /\
      td_tier (calculateTierWithHysteresis s2 b h2 w) = Some t2 /\
      (tierIndex t1 <= tierIndex t2)%nat.
Proof.
  intros b w s1 s2 h1 h2 H1 H2 Hs.
  unfold calculateTierWithHysteresis. rewrite H1, H2.
  destruct (naturalTier s1 b) as [[t1 d1] b1] eqn:E1.
  destruct (naturalTier s2 b) as [[t2 d2] b2] eqn:E2.
  exists t1, t2. split; [reflexivity|]. split; [reflexivity|].
  unfold naturalTier in E1, E2.
  destruct (Rlt_dec s1 (simpleMedium b)), (Rlt_dec s2 (simpleMedium b)),
           (Rlt_dec s1 (mediumComplex b)), (Rlt_dec s2 (mediumComplex b)),
           (Rlt_dec s1 (complexReasoning b)), (Rlt_dec s2 (complexReasoning b));
    inversion E1; inversion E2; subst; simpl; try lia; exfalso; lra.
Qed.

(** The scores 0.1 and 0.2 under the boundaries 0, 0.18 and 0.4. *)
Lemma X7_witness :
  exists t1 t2,
    td_tier (calculateTierWithHysteresis 0.1
               {| simpleMedium := 0; mediumComplex := 0.18;
                  complexReasoning := 0.4 |} noHistory 0.05) = Some t1 /\
    td_tier (calculateTierWithHysteresis 0.2
               {| simpleMedium := 0; mediumComplex := 0.18;
                  complexReasoning := 0.4 |} noHistory 0.05) = Some t2 /\
    (tierIndex t1 <= tierIndex t2)%nat.
Proof.
  apply (@X7_tier_monotone_without_history
           {| simpleMedium := 0; mediumComplex := 0.18; complexReasoning := 0.4 |}
           0.05 0.1 0.2 noHistory noHistory).
  - reflexivity.
  - reflexivity.
  - lra.
Defined.

Section WithBuiltins.
Context {B : Builtins}.

Lemma classify_confidence_facts :
  forall prompt sys n cfg fp h rnd,
    0 <= confidenceSteepness cfg ->
    let r := fst (classifyByRules prompt sys n cfg fp h rnd) in
    1 / 2 <= confidence r <= 1 /\
    (tier r = None -> confidence r < confidenceThreshold cfg) /\
    (tier r <> None ->
       confidenceThreshold cfg <= confidence r \/
       (tier r = Some REASONING /\ 0.85 <= confidence r)).
Proof.
  intros prompt sys n cfg fp h rnd Hs r.
  destruct (le_lt_dec 2 (List.length (reasoningMatches prompt cfg))) as [Hm|Hm].
  - destruct (classify_override prompt sys n cfg fp h rnd Hm) as [Ht Hc].
    fold r in Ht, Hc. rewrite Hc, Ht.
    destruct (calibrate_facts
                (Rmax (weightedScoreOf prompt sys n cfg) 0.3)
                (confidenceSteepness cfg)) as [[_ Hlt] _].
    assert (Hmax : 0.85 <= Rmax (calibrateConfidence
                                   (Rmax (weightedScoreOf prompt sys n cfg) 0.3)
                                   (confidenceSteepness cfg)) 0.85 < 1).
    { split; [apply Rmax_r | apply Rmax_lub_lt; lra]. }
    split; [lra|]. split; [discriminate|]. intros _. right. split; [reflexivity|lra].
  - destruct (classify_no_override prompt sys n cfg fp h rnd Hm) as (Hc & Ht & _).
    fold r in Ht, Hc. cbv zeta in Hc, Ht. rewrite Hc, Ht.
    set (d := calculateTierWithHysteresis _ _ _ _).
    destruct (calibrate_facts (td_distance d) (confidenceSteepness cfg))
      as [[_ Hlt] [Hhalf _]].
    pose proof (hysteresis_distance_nonneg (weightedScoreOf prompt sys n cfg)
                  (tierBoundaries cfg) (historyOf fp h) 0.05) as Hd.
    fold d in Hd.
    assert (1 / 2 <= calibrateConfidence (td_distance d) (confidenceSteepness cfg)).
    { apply Hhalf. nra. }
    split; [lra|].
    destruct (Rlt_dec _ (confidenceThreshold cfg)) as [Hl|Hl].
    + split; [intros _; exact Hl | intros Hn; now elim Hn].
    + split; [|intros _; left; now apply Rnot_lt_le].
      intros E. exfalso.
      now apply (hysteresis_tier_some (weightedScoreOf prompt sys n cfg)
                   (tierBoundaries cfg) (historyOf fp h) 0.05).
Qed.

(** X8.  With a steepness that is not negative, the confidence returned by
    [classifyByRules] lies between 1/2 and 1.  The ambiguous answer [null]
    comes with a confidence below the threshold; a tier comes with a
    confidence of at least the threshold, or it is REASONING from the
    keyword override, with a confidence of at least 0.85. *)
Theorem X8_classifyByRules_confidence :
  forall (prompt : jsstring) (systemPrompt : option jsstring) (estimatedTokens : Z)
         (config : ScoringConfig) (fingerprint : option jsstring)
         (h : HistoryMap) (rnd : R),
    0 <= confidenceSteepness config ->
    let r := fst (classifyByRules prompt systemPrompt estimatedTokens config
                    fingerprint h rnd) in
    1 / 2 <= confidence r <= 1 /\
    (tier r = None -> confidence r < confidenceThreshold config) /\
    (tier r <> None ->
       confidenceThreshold config <= confidence r \/
       (tier r = Some REASONING /\ 0.85 <= confidence r)).
Proof. exact classify_confidence_facts. Qed.

(** *** Dimension scores and the weighted sum *)

Lemma scoreKeywordMatch_name_range :
  forall text kws nm label lo hi sn sl sh,
    -1 <= sn <= 1 -> -1 <= sl <= 1 -> -1 <= sh <= 1 ->
    name (scoreKeywordMatch text kws nm label lo hi sn sl sh) = nm /\
    -1 <= dscore (scoreKeywordMatch text kws nm label lo hi sn sl sh) <= 1.
Proof.
  intros text kws nm label lo hi sn sl sh Hn Hl Hh. unfold scoreKeywordMatch.
  cbv zeta. destruct (Nat.leb hi _); [|destruct (Nat.leb lo _)]; simpl; auto.
Qed.

Lemma scoreTokenCount_name_range : forall n lo hi,
  name (scoreTokenCount n lo hi) = js "tokenCount" /\
  -1 <= dscore (scoreTokenCount n lo hi) <= 1.
Proof.
  intros n lo hi. unfold scoreTokenCount.
  destruct (_ <? _)%Z; [|destruct (_ <? _)%Z]; simpl; split; try reflexivity; lra.
Qed.

Lemma scoreMultiStep_name_range : forall text,
  name (scoreMultiStep text) = js "multiStepPatterns" /\
  -1 <= dscore (scoreMultiStep text) <= 1.
Proof.
  intros text. unfold scoreMultiStep. cbv zeta.
  destruct (Nat.ltb _ _); simpl; split; try reflexivity; lra.
Qed.

Lemma scoreQuestionComplexity_name_range : forall prompt,
  name (scoreQuestionComplexity prompt) = js "questionComplexity" /\
  -1 <= dscore (scoreQuestionComplexity prompt) <= 1.
Proof.
  intros prompt. unfold scoreQuestionComplexity. cbv zeta.
  destruct (Nat.ltb _ _); [|destruct (_ && _)]; simpl; split; try reflexivity; lra.
Qed.

Lemma scoreAgenticTask_name_range : forall text kws,
  name (fst (scoreAgenticTask text kws)) = js "agenticTask" /\
  -1 <= dscore (fst (scoreAgenticTask text kws)) <= 1.
Proof.
  intros text kws. unfold scoreAgenticTask. cbv zeta.
  destruct (Nat.leb 4 _); [|destruct (Nat.leb 3 _); [|destruct (Nat.leb 1 _)]];
    simpl; split; try reflexivity; lra.
Qed.

Lemma dimensions_name_range : forall prompt sys n cfg,
  Forall2 (fun d nm => name d = nm /\ -1 <= dscore d <= 1)
          (fst (scoreDimensions prompt sys n cfg)) dimensionNames.
Proof.
  intros prompt sys n cfg. unfold scoreDimensions, dimensionNames. cbv zeta.
  cbn [fst].
  repeat (constructor;
          [ first [ apply scoreKeywordMatch_name_range; lra
                  | apply scoreTokenCount_name_range
                  | apply scoreMultiStep_name_range
                  | apply scoreQuestionComplexity_name_range
                  | apply scoreAgenticTask_name_range ] | ]).
  constructor.
Qed.

Lemma weightedSum_bound : forall weights dims names acc,
  Forall2 (fun d nm => name d = nm /\ -1 <= dscore d <= 1) dims names ->
  Rabs (fold_left
          (fun acc d =>
             acc + dscore d * match JSMap.get weights (name d) with
                              | Some w => w
                              | None => 0
                              end) dims acc)
  <= Rabs acc
     + fold_right (fun nm a => Rabs (weightOf weights nm) + a) 0 names.
Proof.
  intros weights dims names acc H. revert acc.
  induction H as [|d nm dims names [Hn Hd] _ IH]; intros acc.
  - simpl. lra.
  - cbn [fold_left fold_right]. eapply Rle_trans; [apply IH|].
    rewrite Hn. fold (weightOf weights nm).
    assert (Rabs (acc + dscore d * weightOf weights nm)
            <= Rabs acc + Rabs (weightOf weights nm)).
    { eapply Rle_trans; [apply Rabs_triang|].
      rewrite Rabs_mult.
      assert (Rabs (dscore d) <= 1) by (apply Rabs_le; lra).
      pose proof (Rabs_pos (weightOf weights nm)). nra. }
    lra.
Qed.

(** X9.  [classifyByRules] scores the same 15 dimensions, in the same
    order, for every request; each score lies in [-1, 1]; hence the weighted
    score is bounded, in absolute value, by the sum of the absolute weights
    configured for these 15 names, and a weight under any other name plays
    no part. *)
Theorem X9_weightedScore_within_budget :
  forall (prompt : jsstring) (systemPrompt : option jsstring) (estimatedTokens : Z)
         (config : ScoringConfig),
    let dims := fst (scoreDimensions prompt systemPrompt estimatedTokens config) in
    map name dims = dimensionNames /\
    Forall (fun d => -1 <= dscore d <= 1) dims /\
    Rabs (weightedScoreOf prompt systemPrompt estimatedTokens config)
    <= weightBudget (dimensionWeights config).
Proof.
  intros prompt sys n cfg dims.
  pose proof (dimensions_name_range prompt sys n cfg) as H. fold dims in H.
  split; [|split].
  - clear -H. induction H as [|d nm ds ns [Hn _] _ IH]; [reflexivity|].
    simpl. now rewrite Hn, IH.
  - clear -H. induction H as [|d nm ds ns [_ Hd] _ IH]; constructor; assumption.
  - unfold weightedScoreOf, weightedSum, weightBudget. fold dims.
    eapply Rle_trans; [apply (weightedSum_bound _ 0 H)|].
    rewrite Rabs_R0. lra.
Qed.

End WithBuiltins.

(** The confidence of ["hi"] under the default numbers. *)
Lemma X8_witness :
  1 / 2 <= confidence (fst (classifyByRules (B := asciiBuiltins) (js "hi") None 1
                              (codeConfig 0.7) None [] 0)) <= 1.
Proof.
  refine (proj1 (@X8_classifyByRules_confidence asciiBuiltins (js "hi") None 1
                   (codeConfig 0.7) None [] 0 _)).
  simpl. lra.
Defined.

(** *** The score history *)

Lemma nodupb_NoDup : forall l, nodupb l = true -> NoDup l.
Proof.
  induction l as [|x l IH]; simpl; intros H; [constructor|].
  apply andb_true_iff in H. destruct H as [Hx Hl]. constructor; [|now apply IH].
  intros Hin. apply negb_true_iff in Hx.
  assert (existsb (str_eqb x) l = true).
  { apply existsb_exists. exists x. split; [assumption | apply str_eqb_refl]. }
  congruence.
Qed.

Lemma cleanupScoreHistory_spec : forall h : HistoryMap,
  NoDup (JSMap.keys h) ->
  cleanupScoreHistory h = skipn (JSMap.size h - 1000) h.
Proof.
  intros h Hnd. unfold cleanupScoreHistory.
  destruct (Nat.ltb 1000 (JSMap.size h)) eqn:E.
  - now apply delete_first_keys.
  - apply Nat.ltb_ge in E. replace (JSMap.size h - 1000)%nat with 0%nat by lia.
    reflexivity.
Qed.

(** X10.  On a history map (distinct keys), [cleanupScoreHistory] drops the
    oldest entries beyond 1000 and nothing else: what remains is the map
    without its first [size - 1000] entries, in the same order, so at most
    1000 entries. *)
Theorem X10_cleanupScoreHistory_drops_oldest :
  forall h : HistoryMap,
    NoDup (JSMap.keys h) ->
    cleanupScoreHistory h = skipn (JSMap.size h - 1000) h /\
    JSMap.size (cleanupScoreHistory h) = Nat.min (JSMap.size h) 1000 /\
    NoDup (JSMap.keys (cleanupScoreHistory h)).
Proof.
  intros h Hnd. pose proof (@cleanupScoreHistory_spec h Hnd) as E.
  split; [exact E|]. rewrite E. split.
  - unfold JSMap.size. rewrite length_skipn. lia.
  - unfold JSMap.keys in *. rewrite <- (firstn_skipn (JSMap.size h - 1000) h) in Hnd.
    rewrite map_app in Hnd. now apply NoDup_app_remove_l in Hnd.
Qed.

(** A history of 1002 fingerprints loses its two oldest. *)
Lemma X10_witness :
  cleanupScoreHistory (numberedHistory 1002) = skipn 2 (numberedHistory 1002).
Proof.
  refine (proj1 (@X10_cleanupScoreHistory_drops_oldest (numberedHistory 1002) _)).
  apply nodupb_NoDup. vm_compute. reflexivity.
Defined.

Lemma update_no_cleanup : forall h rnd fp s t b,
  ~ rnd < 0.01 ->
  updateScoreHistory h rnd fp s t b
  = JSMap.set h fp
      {| lastScore := s; lastTier := t;
         consecutiveSameTier :=
           match JSMap.get h fp with
           | Some e => if optTier_eqb (lastTier e) t
                       then S (consecutiveSameTier e) else 1%nat
           | None => 1%nat
           end;
         lastBoundary := b |}.
Proof.
  intros h rnd fp s t b H. unfold updateScoreHistory. cbv zeta.
  destruct (Rlt_dec rnd 0.01); [contradiction | reflexivity].
Qed.

Lemma optTier_eqb_refl : forall t, optTier_eqb t t = true.
Proof.
  intros [t|]; [|reflexivity]. simpl. unfold Tier_eqb.
  destruct (Tier_eq_dec t t); [reflexivity | contradiction].
Qed.

Lemma optTier_eqb_true : forall a b, optTier_eqb a b = true -> a = b.
Proof.
  intros [a|] [b|]; simpl; try discriminate; try reflexivity.
  unfold Tier_eqb. destruct (Tier_eq_dec a b); [congruence | discriminate].
Qed.

Lemma recordStreak_cons : forall fp t u calls h,
  recordStreak fp t (u :: calls) h
  = recordStreak fp t calls
      (updateScoreHistory h (fst (fst u)) fp (snd (fst u)) t (snd u)).
Proof. reflexivity. Qed.

Lemma streak_continues : forall fp t calls h e,
  (forall u, In u calls -> ~ fst (fst u) < 0.01) ->
  JSMap.get h fp = Some e -> lastTier e = t ->
  exists e',
    JSMap.get (recordStreak fp t calls h) fp = Some e' /\
    lastTier e' = t /\
    consecutiveSameTier e' = (consecutiveSameTier e + List.length calls)%nat.
Proof.
  intros fp t calls. induction calls as [|u calls IH]; intros h e Hr Hg Ht.
  - exists e. simpl. repeat split; try assumption. lia.
  - rewrite recordStreak_cons.
    rewrite update_no_cleanup by (apply Hr; now left).
    rewrite Hg, Ht, optTier_eqb_refl.
    edestruct (IH (JSMap.set h fp
                     {| lastScore := snd (fst u); lastTier := t;
                        consecutiveSameTier := S (consecutiveSameTier e);
                        lastBoundary := snd u |}))
      as (e' & H1 & H2 & H3).
    + intros u' Hu'. apply Hr. now right.
    + apply get_set_same.
    + reflexivity.
    + exists e'. repeat split; try assumption.
      rewrite H3. simpl. lia.
Qed.

(** X11.  [consecutiveSameTier] counts the streak: after [n >= 1]
    successive [updateScoreHistory] calls that record the same tier for a
    fingerprint which had no entry, or whose last tier was another one, the
    entry holds that tier and the count [n] (as long as no call draws the 1%
    cleanup). *)
Theorem X11_consecutiveSameTier_counts_streak :
  forall (h : HistoryMap) (fingerprint : jsstring) (t : option Tier)
         (calls : list (R * R * jsstring)),
    (forall u, In u calls -> ~ fst (fst u) < 0.01) ->
    calls <> [] ->
    JSMap.get h fingerprint = None \/
    lastTier (getScoreHistory h fingerprint) <> t ->
    let after := getScoreHistory (recordStreak fingerprint t calls h) fingerprint in
    lastTier after = t /\
    consecutiveSameTier after = List.length calls.
Proof.
  intros h fp t calls Hr Hne Hfresh after. subst after.
  destruct calls as [|u calls]; [contradiction|].
  rewrite recordStreak_cons.
  rewrite update_no_cleanup by (apply Hr; now left).
  assert (Hone : match JSMap.get h fp with
                 | Some e => if optTier_eqb (lastTier e) t
                             then S (consecutiveSameTier e) else 1%nat
                 | None => 1%nat
                 end = 1%nat).
  { destruct Hfresh as [Hn|Hd]; [now rewrite Hn|].
    unfold getScoreHistory in Hd. destruct (JSMap.get h fp) as [e|]; [|reflexivity].
    destruct (optTier_eqb (lastTier e) t) eqn:E; [|reflexivity].
    apply optTier_eqb_true in E. contradiction. }
  rewrite Hone.
  edestruct (@streak_continues fp t calls
               (JSMap.set h fp
                  {| lastScore := snd (fst u); lastTier := t;
                     consecutiveSameTier := 1; lastBoundary := snd u |}))
    as (e' & H1 & H2 & H3).
  - intros u' Hu'. apply Hr. now right.
  - apply get_set_same.
  - reflexivity.
  - unfold getScoreHistory. rewrite H1.
    split; [exact H2|]. rewrite H3. simpl. lia.
Qed.

(** Three MEDIUM decisions in a row on a fresh fingerprint. *)
Lemma X11_witness :
  consecutiveSameTier
    (getScoreHistory
       (recordStreak (js "SHORT|hi|none") (Some MEDIUM)
          [(0.5, 0.1, js "simple-medium"); (0.5, 0.12, js "simple-medium");
           (0.5, 0.09, js "simple-medium")] [])
       (js "SHORT|hi|none"))
  = 3%nat.
Proof.
  refine (proj2 (@X11_consecutiveSameTier_counts_streak [] (js "SHORT|hi|none")
                   (Some MEDIUM)
                   [(0.5, 0.1, js "simple-medium"); (0.5, 0.12, js "simple-medium");
                    (0.5, 0.09, js "simple-medium")] _ _ _)).
  - intros u [<-|[<-|[<-|[]]]]; simpl; lra.
  - discriminate.
  - left. reflexivity.
Defined.

Section WithBuiltins2.
Context {B : Builtins}.

Lemma classify_records_tier :
  forall prompt sys n cfg (fp : jsstring) h rnd,
    fp <> [] -> ~ rnd < 0.01 ->
    let r := fst (classifyByRules prompt sys n cfg (Some fp) h rnd) in
    let h' := snd (classifyByRules prompt sys n cfg (Some fp) h rnd) in
    lastScore (getScoreHistory h' fp) = score r /\
    (exists T, lastTier (getScoreHistory h' fp) = Some T /\
               (tier r = Some T \/ tier r = None)) /\
    (forall other, other <> fp ->
       getScoreHistory h' other = getScoreHistory h other).
Proof.
  intros prompt sys n cfg fp h rnd Hfp Hrnd r h'. subst r h'.
  unfold classifyByRules.
  destruct (scoreDimensions prompt sys n cfg) as [dims ag]. cbv zeta.
  unfold truthy_fp, Fingerprint.truthy_str.
  destruct fp as [|c0 fp0]; [contradiction|].
  assert (Hupd : forall s t bnd,
    let h' := updateScoreHistory h rnd (c0 :: fp0) s t bnd in
    lastScore (getScoreHistory h' (c0 :: fp0)) = s /\
    lastTier (getScoreHistory h' (c0 :: fp0)) = t /\
    forall other, other <> c0 :: fp0 ->
      getScoreHistory h' other = getScoreHistory h other).
  { intros s t bnd h'. subst h'. rewrite update_no_cleanup by assumption.
    unfold getScoreHistory. rewrite get_set_same. repeat split.
    intros other Ho. now rewrite get_set_other. }
  destruct (Nat.leb 2 _).
  - cbn [fst snd score tier].
    destruct (Hupd (weightedSum (dimensionWeights cfg) dims) (Some REASONING)
                (js "reasoning-override")) as (H1 & H2 & H3).
    split; [exact H1|]. split; [|exact H3].
    exists REASONING. split; [exact H2 | now left].
  - set (d := calculateTierWithHysteresis _ _ _ _).
    destruct (Hupd (weightedSum (dimensionWeights cfg) dims) (td_tier d)
                (td_boundary d)) as (H1 & H2 & H3).
    pose proof (hysteresis_tier_some
                  (weightedSum (dimensionWeights cfg) dims) (tierBoundaries cfg)
                  (getScoreHistory h (c0 :: fp0)) 0.05) as Hne.
    fold d in Hne. destruct (td_tier d) as [T|] eqn:ET; [|now elim Hne].
    destruct (Rlt_dec _ _); cbn [fst snd score tier];
      (split; [exact H1|]; split; [|exact H3]; exists T; split; [exact H2|]);
      [now right | now left].
Qed.


End WithBuiltins2.


End RulesExtra.

(** ** Score cache: distances, lookups, jitter maps, eviction, sweep *)

Module CacheExtra.
Import JS JSFacts MapProps ScoreCache CacheProps JitterProps CacheSpec CacheTerms.
Local Open Scope R_scope.

(** ** Distance to the nearest boundary *)

Lemma proximity_cases : forall score b,
  let d1 := Rabs (score - simpleMedium b) in
  let d2 := Rabs (score - mediumComplex b) in
  let d3 := Rabs (score - complexReasoning b) in
  calculateBoundaryProximity score b
  = if Rlt_dec d2 d1
    then (if Rlt_dec d3 d2 then (d3, js "complex-reasoning")
          else (d2, js "medium-complex"))
    else (if Rlt_dec d3 d1 then (d3, js "complex-reasoning")
          else (d1, js "simple-medium")).
Proof.
  intros score b d1 d2 d3. unfold calculateBoundaryProximity. cbv zeta.
  cbn [tl hd fold_left fst]. fold d1 d2 d3.
  destruct (Rlt_dec d2 d1); cbn [fst]; reflexivity.
Qed.

(** X13.  [calculateBoundaryProximity] returns the smallest of the three
    distances from the score to a boundary, never negative, with the name of
    a boundary at that distance; among boundaries at the same distance the
    one listed first wins. *)
Theorem X13_calculateBoundaryProximity_nearest :
  forall (score : R) (b : TierBoundaries),
    let d1 := Rabs (score - simpleMedium b) in
    let d2 := Rabs (score - mediumComplex b) in
    let d3 := Rabs (score - complexReasoning b) in
    let r := calculateBoundaryProximity score b in
    fst r = Rmin d1 (Rmin d2 d3) /\ 0 <= fst r /\
    ((snd r = js "simple-medium" /\ fst r = d1) \/
     (snd r = js "medium-complex" /\ fst r = d2 /\ d2 < d1) \/
     (snd r = js "complex-reasoning" /\ fst r = d3 /\ d3 < d1 /\ d3 < d2)).
Proof.
  intros score b d1 d2 d3 r. subst r. rewrite proximity_cases. fold d1 d2 d3.
  pose proof (Rabs_pos (score - simpleMedium b)) as P1.
  pose proof (Rabs_pos (score - mediumComplex b)) as P2.
  pose proof (Rabs_pos (score - complexReasoning b)) as P3.
  fold d1 in P1. fold d2 in P2. fold d3 in P3.
  unfold Rmin.
  destruct (Rlt_dec d2 d1), (Rlt_dec d3 d2), (Rlt_dec d3 d1),
           (Rle_dec d2 d3), (Rle_dec d1 d2), (Rle_dec d1 d3);
    cbn [fst snd]; try lra;
    (split; [lra|]; split; [lra|]);
    first [ left; split; [reflexivity|lra]
          | right; left; split; [reflexivity|lra]
          | right; right; split; [reflexivity|lra] ].
Qed.

(** X14.  With ordered boundaries the distance the cache stores for a score
    is the distance the classifier computes for it inside its tier. *)
Theorem X14_proximity_agrees_with_classifier :
  forall (score : R) (b : TierBoundaries),
    simpleMedium b <= mediumComplex b <= complexReasoning b ->
    fst (calculateBoundaryProximity score b)
    = snd (fst (Rules.naturalTier score b)).
Proof.
  intros score b Hord. rewrite proximity_cases. unfold Rules.naturalTier.
  unfold Rabs, Rmin.
  destruct (Rcase_abs (score - simpleMedium b)),
           (Rcase_abs (score - mediumComplex b)),
           (Rcase_abs (score - complexReasoning b));
    destruct (Rlt_dec score (simpleMedium b)),
             (Rlt_dec score (mediumComplex b)),
             (Rlt_dec score (complexReasoning b)); try lra;
    repeat (match goal with
            | |- context [Rlt_dec ?a ?b] => destruct (Rlt_dec a b)
            | |- context [Rle_dec ?a ?b] => destruct (Rle_dec a b)
            end; cbn [fst snd]; try lra).
Qed.

(** The score 0.12 under the boundaries -0.2, 0 and 0.3. *)
Lemma X14_witness :
  fst (calculateBoundaryProximity 0.12 testBoundaries)
  = snd (fst (Rules.naturalTier 0.12 testBoundaries)).
Proof.
  apply X14_proximity_agrees_with_classifier. simpl. lra.
Defined.


(** ** Lookups *)

Section WithBuiltins.
Context {B : Builtins}.

Lemma cache_after_set : forall st now p s res b sc,
  JSMap.get (cache (set st now p s res b sc)) (Fingerprint.getCacheKey p s)
  = Some {| result := res; timestamp := now; hitCount := 1;
            lastTier := match tier res with Some t => t | None => MEDIUM end;
            distanceToBoundary := fst (calculateBoundaryProximity sc b);
            boundaryName := snd (calculateBoundaryProximity sc b) |}.
Proof.
  intros. unfold set. cbv zeta. cbn [cache]. apply get_set_same.
Qed.


Lemma get_expired : forall st now p s cached,
  JSMap.get (cache st) (Fingerprint.getCacheKey p s) = Some cached ->
  (ttlMs (config st) < now - timestamp cached)%Z ->
  get st now p s
  = (None,
     {| cache := JSMap.delete (cache st) (Fingerprint.getCacheKey p s);
        config := config st;
        accessOrder := removeFromAccessOrder (accessOrder st)
                         (Fingerprint.getCacheKey p s);
        jitterTracker := jitterTracker st;
        jitterLocks := jitterLocks st |}).
Proof.
  intros st now p s cached Hg Hold. unfold get. cbv zeta. rewrite Hg.
  apply Z.ltb_lt in Hold. now rewrite Hold.
Qed.


(** X16.  A [get] that finds its entry expired returns [undefined] and
    removes that entry and no other; every later [get] of the key misses,
    whatever the time; the recorded tiers and the jitter lock of the key
    stay, unlike in [cleanup]. *)
Theorem X16_expired_get_removes_entry_keeps_lock :
  forall (st : t) (now : Z) (p : jsstring) (s : option jsstring)
         (cached : CachedScore),
    JSMap.get (cache st) (Fingerprint.getCacheKey p s) = Some cached ->
    (ttlMs (config st) < now - timestamp cached)%Z ->
    let key := Fingerprint.getCacheKey p s in
    let st' := snd (get st now p s) in
    fst (get st now p s) = None /\
    JSMap.get (cache st') key = None /\
    (forall k, k <> key -> JSMap.get (cache st') k = JSMap.get (cache st) k) /\
    jitterLocks st' = jitterLocks st /\
    jitterTracker st' = jitterTracker st /\
    (forall now', fst (get st' now' p s) = None).
Proof.
  intros st now p s cached Hg Hold key st'. subst st'.
  rewrite (get_expired st now p s Hg Hold). cbn [fst snd cache jitterLocks jitterTracker].
  fold key. repeat split.
  - apply get_delete_same.
  - intros k Hk. now apply get_delete_other.
  - intros now'. unfold get. cbv zeta. cbn [cache]. fold key.
    now rewrite get_delete_same.
Qed.

End WithBuiltins.

(** An entry stored at time 0 in the default cache, looked up one
    millisecond after its 24 hours. *)
Lemma X16_witness :
  fst (get (B := asciiBuiltins)
         (set (B := asciiBuiltins) (create DEFAULT_CACHE_CONFIG) 0 (js "prompt")
            None simpleResult testBoundaries 0.5)
         86400001 (js "prompt") None) = None.
Proof.
  refine (proj1 (@X16_expired_get_removes_entry_keeps_lock asciiBuiltins
                   (set (B := asciiBuiltins) (create DEFAULT_CACHE_CONFIG) 0
                      (js "prompt") None simpleResult testBoundaries 0.5)
                   86400001 (js "prompt") None _ _ _)).
  - reflexivity.
  - vm_compute. reflexivity.
Defined.


(** ** Invariants of the jitter maps *)


Section WithBuiltins2.
Context {B : Builtins}.

Lemma tracker_get : forall st now p s,
  jitterTracker (snd (get st now p s)) = jitterTracker st.
Proof.
  intros st now p s. unfold get.
  destruct (JSMap.get (cache st) _); [|reflexivity].
  destruct (_ <? _)%Z; [reflexivity|].
  destruct (JSMap.get (jitterLocks st) _); [destruct (negb _)|]; reflexivity.
Qed.

(** A property of the two jitter maps that survives the deletion of a key
    and the recording of a tier survives every operation. *)
Lemma jitter_step_invariant :
  forall (J : JSMap.t (list Tier) -> JSMap.t Tier -> Prop) (ok : op -> Prop),
    J [] [] ->
    (forall tr lk k, J tr lk -> J (JSMap.delete tr k) (JSMap.delete lk k)) ->
    (forall cfg tr lk now p s res b sc,
        ok (OpSet now p s res b sc) -> J tr lk ->
        J (fst (trackJitter cfg tr lk (Fingerprint.getCacheKey p s) (tier res)))
          (snd (trackJitter cfg tr lk (Fingerprint.getCacheKey p s) (tier res)))) ->
    forall st o, ok o -> J (jitterTracker st) (jitterLocks st) ->
      J (jitterTracker (step st o)) (jitterLocks (step st o)).
Proof.
  intros J ok Hnil Hdel Htrack st o Hok HJ.
  destruct o as [now p s|now p s res b sc|now|]; cbn [step].
  - now rewrite tracker_get, LockProps.locks_get.
  - unfold set. cbv zeta. cbn [jitterTracker jitterLocks cache config accessOrder].
    specialize (Htrack (config st) _ _ now p s res b sc Hok HJ).
    match goal with
    | |- context [if ?c then evictLRU ?a else _] =>
        set (st1 := a) in *; destruct c
    end; [|exact Htrack].
    unfold evictLRU. destruct (accessOrder st1) as [|oldest rest]; [exact Htrack|].
    destruct oldest; cbn [jitterTracker jitterLocks]; [exact Htrack|].
    apply Hdel. exact Htrack.
  - rewrite cleanup_fold.
    apply (@sweep_invariant
             (fun s => J (jitterTracker s) (jitterLocks s)) now); [|exact HJ].
    intros s0 k H0. cbn [jitterTracker jitterLocks]. now apply Hdel.
  - exact Hnil.
Qed.

Lemma jitter_run_invariant :
  forall (J : JSMap.t (list Tier) -> JSMap.t Tier -> Prop) (ok : op -> Prop),
    J [] [] ->
    (forall tr lk k, J tr lk -> J (JSMap.delete tr k) (JSMap.delete lk k)) ->
    (forall cfg tr lk now p s res b sc,
        ok (OpSet now p s res b sc) -> J tr lk ->
        J (fst (trackJitter cfg tr lk (Fingerprint.getCacheKey p s) (tier res)))
          (snd (trackJitter cfg tr lk (Fingerprint.getCacheKey p s) (tier res)))) ->
    forall ops st, Forall ok ops -> J (jitterTracker st) (jitterLocks st) ->
      J (jitterTracker (run ops st)) (jitterLocks (run ops st)).
Proof.
  intros J ok Hnil Hdel Htrack. induction ops as [|o ops IH]; intros st Hok HJ.
  - exact HJ.
  - inversion Hok; subst. cbn [run fold_left]. apply IH; [assumption|].
    now apply jitter_step_invariant with (ok := ok).
Qed.

Lemma trackJitter_tracker : forall cfg tr lk key t,
  fst (trackJitter cfg tr lk key (Some t))
  = JSMap.set tr key
      (let pushed := match JSMap.get tr key with
                     | Some hist => hist
                     | None => []
                     end ++ [t] in
       if Nat.ltb 5 (List.length pushed) then tl pushed else pushed).
Proof.
  intros cfg tr lk key t. unfold trackJitter. cbv zeta.
  destruct (int_ge _ _); [|reflexivity].
  destruct (Nat.leb 2 _); [|reflexivity].
  destruct (mostFrequent _); reflexivity.
Qed.

(** X17.  In every state reached from the empty cache, each key of the
    jitter tracker holds between one and five recorded tiers. *)
Theorem X17_jitterTracker_keeps_at_most_five :
  forall (cfg : ScoreCacheConfig) (ops : list op),
    Forall (fun e => windowOk (snd e)) (jitterTracker (run ops (create cfg))).
Proof.
  intros cfg ops.
  apply (@jitter_run_invariant
           (fun tr _ => Forall (fun e => windowOk (snd e)) tr) (fun _ => True)).
  - constructor.
  - intros tr lk k H. now apply (@Forall_map_delete _ windowOk).
  - intros c tr lk now p s res b sc _ H.
    destruct (tier res) as [t|]; [|exact H].
    rewrite trackJitter_tracker. apply (@Forall_map_set _ windowOk); [exact H|].
    cbv zeta.
    assert (Hold : (List.length match JSMap.get tr (Fingerprint.getCacheKey p s) with
                                | Some hist => hist
                                | None => []
                                end <= 5)%nat).
    { destruct (JSMap.get tr _) as [hist|] eqn:E; [|simpl; lia].
      apply (@Forall_map_get _ windowOk _ _ _ H) in E. unfold windowOk in E. lia. }
    set (old := match JSMap.get tr _ with Some hist => hist | None => [] end) in *.
    unfold windowOk.
    destruct (Nat.ltb 5 (List.length (old ++ [t]))) eqn:E5.
    + apply Nat.ltb_lt in E5. rewrite length_app in E5. simpl in E5.
      destruct old as [|x old]; simpl in *; [lia|].
      rewrite length_app. simpl. lia.
    + apply Nat.ltb_ge in E5. rewrite length_app in *. simpl in *. lia.
  - apply Forall_forall. intros; exact I.
  - constructor.
Qed.

Lemma uniqueTiers_steady : forall t l,
  Forall (eq t) l -> (List.length (uniqueTiers l) <= 1)%nat.
Proof.
  intros t l H. destruct l as [|x l]; [simpl; lia|].
  inversion H as [|? ? Hx Hl]; subst. simpl.
  rewrite filter_none; [simpl; lia|].
  intros y Hy. apply (proj1 (In_uniqueTiers l y)) in Hy.
  rewrite Forall_forall in Hl. rewrite <- (Hl y Hy). apply negb_false_iff. now apply Tier_eqb_eq.
Qed.

Lemma trackJitter_steady : forall cfg tr lk key t tier0,
  (forall hist, JSMap.get tr key = Some hist -> Forall (eq t) hist) ->
  tier0 = None \/ tier0 = Some t ->
  (forall hist,
      JSMap.get (fst (trackJitter cfg tr lk key tier0)) key = Some hist ->
      Forall (eq t) hist) /\
  snd (trackJitter cfg tr lk key tier0) = lk.
Proof.
  intros cfg tr lk key t tier0 Htr [->| ->]; [split; [exact Htr | reflexivity]|].
  rewrite trackJitter_tracker. unfold trackJitter. cbv zeta.
  set (old := match JSMap.get tr key with Some hist => hist | None => [] end).
  assert (Hold : Forall (eq t) old).
  { unfold old. destruct (JSMap.get tr key) as [hist|]; [now apply Htr | constructor]. }
  set (history := if Nat.ltb 5 (List.length (old ++ [t]))
                  then tl (old ++ [t]) else old ++ [t]).
  assert (Hh : Forall (eq t) history).
  { assert (Hp : Forall (eq t) (old ++ [t])).
    { apply Forall_app. split; [exact Hold | repeat constructor]. }
    unfold history. destruct (Nat.ltb 5 _); [|exact Hp].
    destruct (old ++ [t]); [constructor|]. simpl. now inversion Hp. }
  split.
  - intros hist Hg. rewrite get_set_same in Hg. injection Hg as <-. exact Hh.
  - destruct (int_ge _ _); [|reflexivity].
    assert (Hu : (List.length (uniqueTiers
                                 (slice_from (neg (jitterThreshold cfg)) history)) <= 1)%nat).
    { apply uniqueTiers_steady with (t := t). unfold slice_from.
      now apply Forall_skipn. }
    destruct (Nat.leb 2 _) eqn:E2; [|reflexivity].
    apply Nat.leb_le in E2. lia.
Qed.

Lemma trackJitter_other : forall cfg tr lk key tier0 k,
  k <> key ->
  JSMap.get (fst (trackJitter cfg tr lk key tier0)) k = JSMap.get tr k /\
  JSMap.get (snd (trackJitter cfg tr lk key tier0)) k = JSMap.get lk k.
Proof.
  intros cfg tr lk key tier0 k Hk. destruct tier0 as [t|]; [|split; reflexivity].
  rewrite trackJitter_tracker. split; [now apply get_set_other|].
  unfold trackJitter. cbv zeta.
  destruct (int_ge _ _); [|reflexivity].
  destruct (Nat.leb 2 _); [|reflexivity].
  destruct (mostFrequent _); [|reflexivity].
  cbn [snd]. now apply get_set_other.
Qed.

(** X18.  No jitter, no lock: if every [set] made under a key carries the
    same tier (or no tier), the key has no jitter lock in any state reached
    from the empty cache, whatever happens to other keys and whatever the
    threshold. *)
Theorem X18_steady_key_is_never_locked :
  forall (cfg : ScoreCacheConfig) (ops : list op) (key : jsstring) (t : Tier),
    Forall (steady key t) ops ->
    JSMap.get (jitterLocks (run ops (create cfg))) key = None.
Proof.
  intros cfg ops key t Hops.
  refine (proj2 (@jitter_run_invariant
                   (fun tr lk =>
                      (forall hist, JSMap.get tr key = Some hist -> Forall (eq t) hist) /\
                      JSMap.get lk key = None)
                   (steady key t) _ _ _ ops (create cfg) Hops _)).
  - split; [intros hist H; discriminate | reflexivity].
  - intros tr lk k [Htr Hlk]. split.
    + intros hist Hg. destruct (list_eq_dec N.eq_dec key k) as [->|Hne].
      * now rewrite get_delete_same in Hg.
      * rewrite get_delete_other in Hg by assumption. now apply Htr.
    + destruct (list_eq_dec N.eq_dec key k) as [->|Hne].
      * apply get_delete_same.
      * now rewrite get_delete_other.
  - intros c tr lk now p s res b sc Hok [Htr Hlk]. cbn [steady] in Hok.
    destruct (list_eq_dec N.eq_dec (Fingerprint.getCacheKey p s) key) as [E|Hne].
    + specialize (Hok E). rewrite E.
      destruct (@trackJitter_steady c tr lk key t (tier res) Htr Hok) as [H1 H2].
      split; [exact H1 | now rewrite H2].
    + assert (Hk : key <> Fingerprint.getCacheKey p s) by congruence.
      destruct (@trackJitter_other c tr lk (Fingerprint.getCacheKey p s)
                  (tier res) key Hk) as [H1 H2].
      split; [intros hist Hg; rewrite H1 in Hg; now apply Htr | now rewrite H2].
  - split; [intros hist H; discriminate | reflexivity].
Qed.

End WithBuiltins2.

(** Four SIMPLE results on one prompt. *)
Lemma X18_witness :
  JSMap.get
    (jitterLocks
       (run (B := asciiBuiltins)
          [setTier simpleResult 0.1; setTier simpleResult 0.1;
           setTier simpleResult 0.1; setTier simpleResult 0.1]
          (create DEFAULT_CACHE_CONFIG)))
    (Fingerprint.getCacheKey (B := asciiBuiltins) (js "prompt") None)
  = None.
Proof.
  apply (@X18_steady_key_is_never_locked asciiBuiltins DEFAULT_CACHE_CONFIG
           [setTier simpleResult 0.1; setTier simpleResult 0.1;
            setTier simpleResult 0.1; setTier simpleResult 0.1]
           (Fingerprint.getCacheKey (B := asciiBuiltins) (js "prompt") None)
           SIMPLE).
  repeat constructor; intros _; right; reflexivity.
Defined.


(** ** Least recently used *)

Section WithBuiltins3.
Context {B : Builtins}.

Lemma get_hit_state : forall st now p s c,
  fst (get st now p s) = Some c ->
  exists cached',
    cache (snd (get st now p s))
    = JSMap.set (cache st) (Fingerprint.getCacheKey p s) cached' /\
    accessOrder (snd (get st now p s))
    = updateAccessOrder (accessOrder st) (Fingerprint.getCacheKey p s) /\
    JSMap.has (cache st) (Fingerprint.getCacheKey p s) = true.
Proof.
  intros st now p s c. unfold get, JSMap.has. cbv zeta.
  destruct (JSMap.get (cache st) _) as [cached|]; [|discriminate].
  destruct (_ <? _)%Z; [discriminate|]. intros _.
  destruct (JSMap.get (jitterLocks st) _); [destruct (negb _)|];
    eexists; repeat split.
Qed.

Lemma set_keeps_unless_oldest : forall st now p s res b sc k,
  JSMap.has (cache st) k = true ->
  hd_error (accessOrder st) <> Some k ->
  JSMap.has (cache (set st now p s res b sc)) k = true.
Proof.
  intros st now p s res b sc k Hk Hhd. unfold set. cbv zeta.
  cbn [cache config accessOrder]. apply has_set.
  match goal with
  | |- context [if ?c then evictLRU ?a else _] => set (st1 := a); destruct c
  end; [|exact Hk].
  unfold evictLRU. change (accessOrder st1) with (accessOrder st).
  change (cache st1) with (cache st).
  destruct (accessOrder st) as [|oldest rest]; [exact Hk|].
  destruct oldest as [|c0 o0]; cbn [cache]; [exact Hk|].
  apply has_delete_other; [|exact Hk]. intros ->. now apply Hhd.
Qed.

(** X19.  A read protects an entry from the next eviction: in a state
    reached from the empty cache that holds two entries or more, an entry
    that [get] has just served is still in the cache after the next [set],
    whatever its key. *)
Theorem X19_read_entry_survives_next_set :
  forall (cfg : ScoreCacheConfig) (ops : list op) (now now' : Z)
         (p p' : jsstring) (s s' : option jsstring) (c : CachedScore)
         (res : ScoringResult) (b : TierBoundaries) (sc : R),
    let st := run ops (create cfg) in
    (2 <= JSMap.size (cache st))%nat ->
    fst (get st now p s) = Some c ->
    JSMap.has (cache (set (snd (get st now p s)) now' p' s' res b sc))
              (Fingerprint.getCacheKey p s) = true.
Proof.
  intros cfg ops now now' p p' s s' c res b sc st Hsize Hget.
  assert (Hwf : wf st) by (apply wf_run, wf_create).
  destruct (get_hit_state st now p s Hget) as (cached' & Hc & Ho & Hhas).
  set (key := Fingerprint.getCacheKey p s) in *.
  apply set_keeps_unless_oldest.
  - rewrite Hc. unfold JSMap.has. now rewrite get_set_same.
  - rewrite Ho. unfold updateAccessOrder.
    assert (Hin : In key (accessOrder st)).
    { apply (wf_same Hwf). now apply has_true_iff. }
    pose proof (wf_size Hwf) as Hlen. pose proof (wf_order_nodup Hwf) as Hnd.
    destruct (remove_first key (accessOrder st)) as [|oldest rest] eqn:Er.
    + exfalso. clear -Er Hin Hnd Hlen Hsize.
      destruct (accessOrder st) as [|x [|y l]]; simpl in *; try lia.
      destruct (str_eqb x key); [discriminate|discriminate].
    + simpl. intros E. injection E as ->.
      assert (Hk : In key (remove_first key (accessOrder st)))
        by (rewrite Er; now left).
      apply remove_first_In in Hk; [|exact Hnd]. now destruct Hk.
Qed.

End WithBuiltins3.

(** In a cache of two entries, the first is read and a third key arrives:
    the first stays. *)
Lemma X19_witness :
  JSMap.has
    (cache
       (set (B := asciiBuiltins)
          (snd (get (B := asciiBuiltins)
                  (run (B := asciiBuiltins)
                     [setPrompt "prompt1"; setPrompt "prompt2"]
                     (create smallCacheConfig))
                  0 (js "prompt1") None))
          0 (js "prompt3") None simpleResult testBoundaries 0.5))
    (Fingerprint.getCacheKey (B := asciiBuiltins) (js "prompt1") None)
  = true.
Proof.
  refine (@X19_read_entry_survives_next_set asciiBuiltins smallCacheConfig
            [setPrompt "prompt1"; setPrompt "prompt2"] 0 0
            (js "prompt1") (js "prompt3") None None _
            simpleResult testBoundaries 0.5 _ _).
  - vm_compute. lia.
  - reflexivity.
Defined.


(** ** The expiry sweep *)

Lemma sweep_forgets : forall now cfg entries n s,
  config s = cfg ->
  fold_left (sweep now) entries (n, s)
  = ((n + List.length (filter (fun e => expired cfg now (snd e)) entries))%nat,
     fold_left forget
       (map fst (filter (fun e => expired cfg now (snd e)) entries)) s).
Proof.
  intros now cfg. induction entries as [|[k c] entries IH]; intros n s Hcfg.
  - simpl. f_equal. lia.
  - cbn [fold_left sweep filter snd].
    assert (Ec : expired cfg now c = (ttlMs (config s) <? now - timestamp c)%Z)
      by (unfold expired; now rewrite Hcfg).
    rewrite Ec. destruct (ttlMs (config s) <? now - timestamp c)%Z.
    + fold (forget s k). rewrite IH by exact Hcfg.
      cbn [map fold_left List.length fst]. f_equal. lia.
    + now rewrite IH.
Qed.

Lemma forget_all_fields : forall ks s,
  cache (fold_left forget ks s)
  = fold_left (fun m key => JSMap.delete m key) ks (cache s) /\
  jitterLocks (fold_left forget ks s)
  = fold_left (fun m key => JSMap.delete m key) ks (jitterLocks s) /\
  jitterTracker (fold_left forget ks s)
  = fold_left (fun m key => JSMap.delete m key) ks (jitterTracker s) /\
  config (fold_left forget ks s) = config s.
Proof.
  induction ks as [|k ks IH]; intros s; [repeat split|].
  simpl. destruct (IH (forget s k)) as (H1 & H2 & H3 & H4).
  rewrite H1, H2, H3, H4. repeat split.
Qed.

Section WithBuiltins4.
Context {B : Builtins}.

(** X20.  In every state reached from the empty cache, [cleanup] at [now]
    returns the number of expired entries and leaves exactly the entries
    that are not expired, in their order; it drops the recorded tiers and
    the jitter lock of the keys whose entry expired and of no other key; run
    again at the same time it removes nothing. *)
Theorem X20_cleanup_removes_exactly_the_expired :
  forall (cfg : ScoreCacheConfig) (ops : list op) (now : Z),
    let st := run ops (create cfg) in
    let st' := snd (cleanup st now) in
    fst (cleanup st now)
    = List.length (filter (fun e => expired cfg now (snd e)) (cache st)) /\
    cache st'
    = filter (fun e => negb (expired cfg now (snd e))) (cache st) /\
    (forall k,
        JSMap.get (jitterLocks st') k
        = if expiredKey st now k then None else JSMap.get (jitterLocks st) k) /\
    (forall k,
        JSMap.get (jitterTracker st') k
        = if expiredKey st now k then None else JSMap.get (jitterTracker st) k) /\
    cleanup st' now = (0%nat, st').
Proof.
  intros cfg ops now st st'.
  assert (Hwf : wf st) by (apply wf_run, wf_create).
  assert (Hcfg : config st = cfg) by (unfold st; now rewrite config_run).
  pose proof (wf_keys_nodup Hwf) as Hnd.
  assert (Hsw : cleanup st now
                = (List.length (filter (fun e => expired cfg now (snd e)) (cache st)),
                   fold_left forget
                     (map fst (filter (fun e => expired cfg now (snd e)) (cache st)))
                     st)).
  { rewrite cleanup_fold. now rewrite (@sweep_forgets now cfg (cache st) 0 st Hcfg). }
  subst st'. rewrite Hsw. cbn [fst snd].
  set (ks := map fst (filter (fun e => expired cfg now (snd e)) (cache st))) in *.
  destruct (forget_all_fields ks st) as (H1 & H2 & H3 & H4).
  assert (Hcache : cache (fold_left forget ks st)
                   = filter (fun e => negb (expired cfg now (snd e))) (cache st)).
  { rewrite H1, delete_all_filter. apply filter_ext_in. intros [k c] Hin.
    cbn [fst snd]. unfold ks. rewrite (@listed_key _ (expired cfg now) (cache st) k Hnd).
    apply (proj2 (@get_In _ (cache st) k c Hnd)) in Hin. now rewrite Hin. }
  split; [reflexivity|]. split; [exact Hcache|].
  split; [|split].
  - intros k. rewrite H2, get_delete_all. unfold ks, expiredKey.
    now rewrite (@listed_key _ (expired cfg now) (cache st) k Hnd), Hcfg.
  - intros k. rewrite H3, get_delete_all. unfold ks, expiredKey.
    now rewrite (@listed_key _ (expired cfg now) (cache st) k Hnd), Hcfg.
  - rewrite cleanup_fold.
    rewrite (@sweep_forgets now cfg _ 0 _ (eq_trans H4 Hcfg)).
    rewrite Hcache.
    assert (E : filter (fun e => expired cfg now (snd e))
                  (filter (fun e => negb (expired cfg now (snd e))) (cache st)) = []).
    { apply filter_none. intros e He. apply filter_In in He.
      destruct He as [_ He]. now apply negb_true_iff in He. }
    rewrite E. reflexivity.
Qed.

End WithBuiltins4.

End CacheExtra.

(** ** Session store: bounds, refresh, sweep, topics, statistics *)

Module SessionExtra.
Import JS JSFacts MapProps Session SessionTerms.
Local Open Scope R_scope.

(** Whatever its first argument, [updateContext] returns the store as it
    found it. *)
Lemma updateContext_noop : forall st x context, updateContext st x context = st.
Proof.
  intros st x context. unfold updateContext, updateContext_body.
  destruct (negb (enabled (config st))); [reflexivity|]. cbn [orb].
  destruct x as [id|entry]; cbn [falsyTarget getTarget]; [|reflexivity].
  destruct (emptyId id); [reflexivity|].
  destruct (JSMap.get (sessions st) id); reflexivity.
Qed.

(** [setSession] on a session that exists: the entry it leaves. *)
Lemma setSession_existing : forall st now id m tr ctx existing,
  enabled (config st) = true -> id <> [] ->
  JSMap.get (sessions st) id = Some existing ->
  exists e',
    setSession st now id m tr ctx
    = with_sessions st (JSMap.set (sessions st) id e') /\
    model e' = m /\
    tier e' = (if str_eqb (model existing) m then tier existing else tr) /\
    createdAt e' = createdAt existing /\ lastUsedAt e' = now /\
    requestCount e' = S (requestCount existing) /\
    contextSnapshot e' = contextSnapshot existing /\
    recentErrors e' = recentErrors existing /\
    successRate (metrics e') = successRate (metrics existing) /\
    requestTimestamps (metrics e')
    = push_bounded (maxRequestHistory (config st))
        (requestTimestamps (metrics existing)) now.
Proof.
  intros st now id m tr ctx existing Hen Hid Hg. unfold setSession.
  rewrite Hen, Hg. destruct id as [|c0 id0]; [contradiction|].
  cbn [negb orb emptyId]. cbv zeta.
  assert (Hctx : forall st1 e1,
            match ctx with
            | Some c => updateContext st1 (ByEntry e1) c
            | None => st1
            end = st1).
  { intros st1 e1. destruct ctx; [apply updateContext_noop | reflexivity]. }
  rewrite Hctx. cbn [sessions with_sessions config]. rewrite set_set.
  eexists. split; [reflexivity|].
  cbn. destruct (str_eqb (model existing) m) eqn:Em; cbn; repeat split.
  now apply str_eqb_eq in Em.
Qed.















(** ** Refreshing and expiring *)





(** ** The timer's sweep *)








(** ** The context snapshot *)

(** The snapshot of a session that an operation keeps. *)
Lemma snapshot_set : forall st id x id0 e e',
  (forall e0, JSMap.get (sessions st) id = Some e0 ->
              contextSnapshot x = contextSnapshot e0) ->
  JSMap.get (sessions st) id0 = Some e ->
  JSMap.get (sessions (with_sessions st (JSMap.set (sessions st) id x))) id0
  = Some e' ->
  contextSnapshot e' = contextSnapshot e.
Proof.
  intros st id x id0 e e' Hx He He'. cbn [sessions with_sessions] in He'.
  destruct (list_eq_dec N.eq_dec id0 id) as [->|Hne].
  - rewrite get_set_same in He'. injection He' as <-. now apply Hx.
  - rewrite get_set_other in He' by exact Hne. congruence.
Qed.

Lemma snapshot_delete : forall st id id0 e e',
  JSMap.get (sessions st) id0 = Some e ->
  JSMap.get (sessions (with_sessions st (JSMap.delete (sessions st) id))) id0
  = Some e' ->
  contextSnapshot e' = contextSnapshot e.
Proof.
  intros st id id0 e e' He He'. cbn [sessions with_sessions] in He'.
  destruct (list_eq_dec N.eq_dec id0 id) as [->|Hne].
  - rewrite get_delete_same in He'. discriminate.
  - rewrite get_delete_other in He' by exact Hne. congruence.
Qed.

Lemma snapshot_degrade : forall H st now id why id0 e e',
  JSMap.get (sessions st) id0 = Some e ->
  JSMap.get (sessions (degradeSession H st now id why)) id0 = Some e' ->
  contextSnapshot e' = contextSnapshot e.
Proof.
  intros H st now id why id0 e e' He He'. unfold degradeSession in He'.
  destruct (JSMap.get (sessions st) id) as [e0|] eqn:E0; [|congruence].
  destruct (isDegraded _); [congruence|].
  destruct (getBestModel H _ _) as [[[|c s]|l]|]; try congruence.
  destruct (negb _); [|congruence].
  refine (@snapshot_set st id _ id0 e e' _ He He').
  intros e1 E1. rewrite E0 in E1. injection E1 as <-. reflexivity.
Qed.

Lemma snapshot_restore : forall H st id id0 e e',
  JSMap.get (sessions st) id0 = Some e ->
  JSMap.get (sessions (restoreOriginalModel H st id)) id0 = Some e' ->
  contextSnapshot e' = contextSnapshot e.
Proof.
  intros H st id id0 e e' He He'. unfold restoreOriginalModel in He'.
  destruct (JSMap.get (sessions st) id) as [e0|] eqn:E0; [|congruence].
  destruct (negb _); [congruence|].
  destruct (originalModel _) as [[|c s]|]; try congruence.
  destruct (originalTier _); [|congruence].
  destruct (isAvailable H _); [|congruence].
  refine (@snapshot_set st id _ id0 e e' _ He He').
  intros e1 E1. rewrite E0 in E1. injection E1 as <-. reflexivity.
Qed.

(** A further step on a store that has just received an entry under [id]. *)
Lemma snapshot_after_set : forall st id x (f : t -> t) id0 e e',
  (forall e0, JSMap.get (sessions st) id = Some e0 ->
              contextSnapshot x = contextSnapshot e0) ->
  JSMap.get (sessions st) id <> None ->
  (forall s a a', JSMap.get (sessions s) id0 = Some a ->
                  JSMap.get (sessions (f s)) id0 = Some a' ->
                  contextSnapshot a' = contextSnapshot a) ->
  JSMap.get (sessions st) id0 = Some e ->
  JSMap.get (sessions (f (with_sessions st (JSMap.set (sessions st) id x)))) id0
  = Some e' ->
  contextSnapshot e' = contextSnapshot e.
Proof.
  intros st id x f id0 e e' Hx Hin Hf He He'.
  set (st1 := with_sessions st (JSMap.set (sessions st) id x)) in *.
  destruct (JSMap.get (sessions st1) id0) as [e1|] eqn:E1.
  - rewrite (Hf st1 e1 e' E1 He').
    exact (@snapshot_set st id x id0 e e1 Hx He E1).
  - exfalso. unfold st1 in E1. cbn [sessions with_sessions] in E1.
    destruct (list_eq_dec N.eq_dec id0 id) as [->|Hne].
    + rewrite get_set_same in E1. discriminate.
    + rewrite get_set_other in E1 by exact Hne. congruence.
Qed.

Lemma snapshot_cleanup : forall now id0 e' entries s,
  JSMap.get
    (sessions
       (fold_left
          (fun s0 e =>
             if (timeoutMs (config s0) <? now - lastUsedAt (snd e))%Z
             then with_sessions s0 (JSMap.delete (sessions s0) (fst e))
             else s0) entries s)) id0 = Some e' ->
  JSMap.get (sessions s) id0 = Some e'.
Proof.
  intros now id0 e'. induction entries as [|x entries IH]; intros s H;
    [exact H|].
  cbn [fold_left] in H. apply IH in H.
  destruct (_ <? _)%Z; [|exact H].
  cbn [sessions with_sessions] in H.
  destruct (list_eq_dec N.eq_dec id0 (fst x)) as [E|Hne].
  - rewrite E, get_delete_same in H. discriminate.
  - now rewrite get_delete_other in H by exact Hne.
Qed.

(** The entry written under [id] has the snapshot of the entry [e0] found
    there. *)
Ltac same_snapshot E0 He He' :=
  eapply snapshot_set; [ | exact He | exact He'];
  let e1 := fresh "e1" in
  let E1 := fresh "E1" in
  intros e1 E1; rewrite E0 in E1; injection E1 as <-; reflexivity.

Ltac same_snapshot_then E0 He He' next step :=
  eapply snapshot_after_set with (f := next);
  [ | | | exact He | exact He'];
  [ let e1 := fresh "e1" in
    let E1 := fresh "E1" in
    intros e1 E1; rewrite E0 in E1; injection E1 as <-; reflexivity
  | rewrite E0; discriminate
  | let s := fresh "s" in
    let a := fresh "a" in
    let a' := fresh "a'" in
    intros s a a'; apply step ].

Lemma snapshot_step : forall st o id0 e e',
  JSMap.get (sessions st) id0 = Some e ->
  JSMap.get (sessions (step st o)) id0 = Some e' ->
  contextSnapshot e' = contextSnapshot e.
Proof.
  intros st o id0 e e' He He'.
  destruct o as [now id|now id m tr ctx|H now id res|id ctx|now id|id| |now];
    cbn [step] in He'.
  - (* getSession *)
    unfold getSession in He'. destruct (negb _ || _); [cbn in He'; congruence|].
    destruct (JSMap.get (sessions st) id) as [e0|] eqn:E0;
      [|cbn in He'; congruence].
    destruct (_ <? _)%Z; cbn [snd] in He'.
    + exact (@snapshot_delete st id id0 e e' He He').
    + same_snapshot E0 He He'.
  - (* setSession *)
    destruct (enabled (config st)) eqn:Hen;
      [|unfold setSession in He'; rewrite Hen in He'; cbn in He'; congruence].
    destruct id as [|c0 id1];
      [unfold setSession in He'; rewrite Hen in He'; cbn in He'; congruence|].
    destruct (JSMap.get (sessions st) (c0 :: id1)) as [e0|] eqn:E0.
    + destruct (@setSession_existing st now (c0 :: id1) m tr ctx e0
                  Hen ltac:(discriminate) E0)
        as (x & Hx & _ & _ & _ & _ & _ & Hsnap & _).
      rewrite Hx in He'.
      refine (@snapshot_set st (c0 :: id1) x id0 e e' _ He He').
      intros e1 E1. rewrite E0 in E1. injection E1 as <-. exact Hsnap.
    + unfold setSession in He'. rewrite Hen, E0 in He'.
      cbn [negb orb emptyId] in He'.
      eapply snapshot_set; [ | exact He | exact He'].
      intros e1 E1. congruence.
  - (* recordResult *)
    unfold recordResult in He'. destruct (negb _ || _); [congruence|].
    destruct (JSMap.get (sessions st) id) as [e0|] eqn:E0; [|congruence].
    cbv zeta in He'.
    destruct (success res).
    + destruct (isDegraded (degradation e0)).
      * match type of He' with
        | context [if ?c then _ else _] => destruct c
        end.
        -- same_snapshot_then E0 He He' (fun s => restoreOriginalModel H s id)
             snapshot_restore.
        -- same_snapshot E0 He He'.
      * same_snapshot E0 He He'.
    + match type of He' with
      | context [if ?c then _ else _] => destruct c
      end.
      * match type of He' with
        | context [degradeSession H _ now id ?why] =>
            same_snapshot_then E0 He He' (fun s => degradeSession H s now id why)
              snapshot_degrade
        end.
      * same_snapshot E0 He He'.
  - (* updateContext *)
    rewrite updateContext_noop in He'. congruence.
  - (* touchSession *)
    unfold touchSession in He'. destruct (negb _ || _); [congruence|].
    destruct (JSMap.get (sessions st) id) as [e0|] eqn:E0; [|congruence].
    same_snapshot E0 He He'.
  - (* clearSession *)
    exact (@snapshot_delete st id id0 e e' He He').
  - (* clearAll *)
    discriminate.
  - (* cleanup *)
    unfold cleanup in He'. apply snapshot_cleanup in He'. congruence.
Qed.

(** X24.  The context snapshot of a session is fixed when the session is
    created.  The class declares [updateContext] twice, and the declaration
    in force looks its first argument up as a session id: called with an
    entry, as [setSession] and the method itself do, it finds nothing, so
    [updateContext] changes nothing.  Hence no operation of the store
    changes the snapshot of a session it keeps, and a new session holds the
    topics it was given as they are, whatever their number. *)
Theorem X24_context_snapshot_is_frozen :
  (forall (st : t) (x : ContextTarget) (context : PartialContext),
      updateContext st x context = st) /\
  (forall (st : t) (o : op) (sessionId : jsstring) (e e' : SessionEntry),
      JSMap.get (sessions st) sessionId = Some e ->
      JSMap.get (sessions (step st o)) sessionId = Some e' ->
      contextSnapshot e' = contextSnapshot e) /\
  (forall (st : t) (now : Z) (sessionId newModel : jsstring) (newTier : Tier)
          (context : PartialContext) (ts : list jsstring),
      enabled (config st) = true -> sessionId <> [] ->
      JSMap.get (sessions st) sessionId = None ->
      p_topics context = Some ts ->
      exists e,
        JSMap.get
          (sessions (setSession st now sessionId newModel newTier (Some context)))
          sessionId = Some e /\
        topics (contextSnapshot e) = ts).
Proof.
  split; [exact updateContext_noop|]. split; [exact snapshot_step|].
  intros st now id m tr ctx ts Hen Hid Hnone Hts.
  unfold setSession. rewrite Hen, Hnone.
  destruct id as [|c0 id0]; [contradiction|]. cbn [negb orb emptyId].
  eexists. cbn [sessions with_sessions]. rewrite get_set_same.
  split; [reflexivity|]. cbn. now rewrite Hts.
Qed.

(** ** Statistics *)

Lemma insert_by_requests_perm : forall x l,
  Permutation (insert_by_requests x l) (x :: l).
Proof.
  induction l as [|y l IH]; simpl; [apply Permutation_refl|].
  destruct (Nat.ltb _ _); [apply Permutation_refl|].
  eapply Permutation_trans; [apply perm_skip, IH | apply perm_swap].
Qed.

Lemma sort_by_requests_perm_acc : forall l acc,
  Permutation (fold_left (fun a x => insert_by_requests x a) l acc) (acc ++ l).
Proof.
  induction l as [|x l IH]; intros acc; simpl.
  - rewrite app_nil_r. apply Permutation_refl.
  - eapply Permutation_trans; [apply IH|].
    eapply Permutation_trans;
      [apply Permutation_app_tail, insert_by_requests_perm|].
    simpl. apply Permutation_middle.
Qed.

Lemma insert_by_requests_sorted : forall x l,
  StronglySorted (fun a b => (s_requests b <= s_requests a)%nat) l ->
  StronglySorted (fun a b => (s_requests b <= s_requests a)%nat)
                 (insert_by_requests x l).
Proof.
  induction l as [|y l IH]; intros H; simpl.
  - constructor; [constructor | constructor].
  - inversion H as [|? ? Hl Hy]; subst.
    destruct (Nat.ltb (s_requests y) (s_requests x)) eqn:E.
    + apply Nat.ltb_lt in E. constructor; [exact H|].
      constructor; [lia|]. rewrite Forall_forall in *. intros z Hz.
      specialize (Hy z Hz). lia.
    + apply Nat.ltb_ge in E. constructor; [now apply IH|].
      rewrite Forall_forall in *. intros z Hz.
      apply (Permutation_in z (insert_by_requests_perm x l)) in Hz.
      destruct Hz as [<-|Hz]; [exact E | now apply Hy].
Qed.

Lemma sort_by_requests_sorted : forall l acc,
  StronglySorted (fun a b => (s_requests b <= s_requests a)%nat) acc ->
  StronglySorted (fun a b => (s_requests b <= s_requests a)%nat)
                 (fold_left (fun a x => insert_by_requests x a) l acc).
Proof.
  induction l as [|x l IH]; intros acc H; simpl; [exact H|].
  apply IH. now apply insert_by_requests_sorted.
Qed.

(** X25.  [getStats] counts the stored sessions, lists one row for each,
    sorted by decreasing number of requests, and counts as degraded the
    sessions whose entry is degraded, never more than the sessions. *)
Theorem X25_getStats_lists_sessions_by_requests :
  forall (st : t) (now : Z),
    let count := fst (fst (getStats st now)) in
    let degraded := snd (fst (getStats st now)) in
    let rows := snd (getStats st now) in
    count = List.length (sessions st) /\
    Permutation rows (map (statOf now) (sessions st)) /\
    StronglySorted (fun a b => (s_requests b <= s_requests a)%nat) rows /\
    degraded
    = List.length (filter (fun e => isDegraded (degradation (snd e))) (sessions st)) /\
    (degraded <= count)%nat.
Proof.
  intros st now count degraded rows. subst count degraded rows.
  unfold getStats. cbv zeta. cbn [fst snd].
  assert (Hd : List.length (filter s_degraded (map (statOf now) (sessions st)))
               = List.length
                   (filter (fun e => isDegraded (degradation (snd e))) (sessions st))).
  { induction (sessions st) as [|e l IH]; [reflexivity|]. simpl.
    destruct (isDegraded (degradation (snd e))); simpl; now rewrite IH. }
  split; [reflexivity|]. split; [|split; [|split]].
  - apply (sort_by_requests_perm_acc _ []).
  - apply sort_by_requests_sorted. constructor.
  - exact Hd.
  - rewrite Hd. unfold JSMap.size. apply filter_length_le.
Qed.

End SessionExtra.

(** ** Route orchestrator: overrides, state, confidence *)

Module RouterExtra.
Import JS JSFacts Router RouterSpec RouterProps RouterTerms.
Local Open Scope R_scope.

Section WithBuiltins.
Context {B : Builtins}.

Lemma raised_floor : forall sys opts t s,
  Fingerprint.truthy_str sys = Some s ->
  Regex.test structuredPattern s = true ->
  (tierRank (structuredOutputMinTier (overrides (config opts)))
   <= tierRank (raised sys opts t))%nat.
Proof.
  intros sys opts t s Hs Ht. unfold raised. cbv zeta. rewrite Hs, Ht.
  cbn [andb]. destruct (Nat.ltb _ _) eqn:E; [lia|].
  now apply Nat.ltb_ge in E.
Qed.

Lemma raised_plain : forall sys opts t,
  match Fingerprint.truthy_str sys with
  | Some s => Regex.test structuredPattern s = false
  | None => True
  end ->
  raised sys opts t = t.
Proof.
  intros sys opts t H. unfold raised. cbv zeta.
  destruct (Fingerprint.truthy_str sys) as [s|]; [now rewrite H | reflexivity].
Qed.

Lemma route_tier_raised : forall prompt sys maxOut opts env w,
  (estimateTokens prompt sys <= maxTokensForceComplex (overrides (config opts)))%Z ->
  exists t, tier (fst (route prompt sys maxOut opts env w)) = raised sys opts t.
Proof.
  intros prompt sys maxOut opts env w Hsmall.
  pose proof (route_decision prompt sys maxOut opts env w Hsmall) as H.
  cbv zeta in H.
  destruct (usableCached prompt sys opts env w) as [[c ct]|].
  - exists ct. apply H.
  - destruct (Types.tier (ruleResultOf prompt sys opts env w)) as [rt|].
    + exists rt. apply H.
    + eexists. apply H.
Qed.

(** X26.  When the system prompt mentions json, structured or schema and
    the large-context override does not apply, the tier of the decision is
    never below [structuredOutputMinTier], whether it comes from the cache,
    from the classifier or from the ambiguous default. *)
Theorem X26_structured_output_floor :
  forall (prompt : jsstring) (systemPrompt : option jsstring) (maxOutputTokens : Z)
         (opts : RouterOptions) (env : Env) (w : World) (s : jsstring),
    systemPrompt = Some s -> s <> [] ->
    Regex.test structuredPattern s = true ->
    (estimateTokens prompt systemPrompt
     <= maxTokensForceComplex (overrides (config opts)))%Z ->
    (tierRank (structuredOutputMinTier (overrides (config opts)))
     <= tierRank (tier (fst (route prompt systemPrompt maxOutputTokens opts env w))))%nat.
Proof.
  intros prompt sys maxOut opts env w s Hs Hne Ht Hsmall.
  destruct (route_tier_raised prompt sys maxOut opts env w Hsmall) as [t ->].
  apply raised_floor with (s := s); [|exact Ht].
  subst sys. destruct s; [contradiction | reflexivity].
Qed.


(** X27.  With [enableCache] false, [route] leaves the score cache as it
    is, and (outside the large-context override) the decision follows the
    classifier alone: its tier, or the ambiguous default with confidence 0.5,
    raised by the structured-output override. *)
Theorem X27_route_without_cache :
  forall (prompt : jsstring) (systemPrompt : option jsstring) (maxOutputTokens : Z)
         (opts : RouterOptions) (env : Env) (w : World),
    enableCache opts = Some false ->
    let d := fst (route prompt systemPrompt maxOutputTokens opts env w) in
    let rr := ruleResultOf prompt systemPrompt opts env w in
    w_cache (snd (route prompt systemPrompt maxOutputTokens opts env w)) = w_cache w /\
    ((estimateTokens prompt systemPrompt
      <= maxTokensForceComplex (overrides (config opts)))%Z ->
     match Types.tier rr with
     | Some rt =>
         tier d = raised systemPrompt opts rt /\ confidence d = Types.confidence rr
     | None =>
         tier d = raised systemPrompt opts
                    (ambiguousDefaultTier (overrides (config opts))) /\
         confidence d = 0.5
     end).
Proof.
  intros prompt sys maxOut opts env w Hoff d rr. split.
  - destruct (route_world prompt sys maxOut opts env w) as [_ Hc].
    rewrite Hc. unfold lookedUp. rewrite Hoff. reflexivity.
  - intros Hsmall.
    pose proof (route_decision prompt sys maxOut opts env w Hsmall) as H.
    cbv zeta in H. unfold usableCached, lookedUp in H. rewrite Hoff in H.
    exact H.
Qed.

Lemma classify_fields : forall prompt sys n cfg fp h rnd,
  let r := fst (Rules.classifyByRules prompt sys n cfg fp h rnd) in
  agenticScore r
  = Some (snd (Rules.scoreAgenticTask
                 (toLowerCase (Rules.fullText prompt sys))
                 (agenticTaskKeywords cfg))).
Proof.
  intros prompt sys n cfg fp h rnd r. subst r. unfold Rules.classifyByRules.
  unfold Rules.scoreDimensions. cbv zeta.
  destruct (Nat.leb 2 _); [reflexivity|].
  destruct (Rlt_dec _ _); reflexivity.
Qed.

Lemma agentic_threshold : forall text kws,
  (if Rle_dec 0.75 (snd (Rules.scoreAgenticTask text kws)) then true else false)
  = Nat.leb 4 (List.length (Rules.keywordMatches text kws)).
Proof.
  intros text kws. unfold Rules.scoreAgenticTask. cbv zeta.
  destruct (Nat.leb 4 _) eqn:E4; cbn [snd].
  - destruct (Rle_dec 0.75 1); [reflexivity | lra].
  - destruct (Nat.leb 3 _); cbn [snd].
    + destruct (Rle_dec 0.75 0.6); [lra | reflexivity].
    + destruct (Nat.leb 1 _); cbn [snd].
      * destruct (Rle_dec 0.75 0.2); [lra | reflexivity].
      * destruct (Rle_dec 0.75 0); [lra | reflexivity].
Qed.


Lemma in_app_single : forall (l : list ReasoningPart) x y,
  In x (l ++ [y]) <-> In x l \/ x = y.
Proof.
  intros l x y. rewrite in_app_iff. simpl. intuition congruence.
Qed.

Ltac split_route :=
  repeat match goal with
         | |- context [if ?c then _ else _] => destruct c
         | |- context [match ?x with Some _ => _ | None => _ end] => destruct x
         | |- context [match ?x with [] => _ | _ :: _ => _ end] => destruct x
         end.

(** X28.  Outside the large-context override, the decision is marked
    auto-agentic exactly when at least four entries of the agentic keyword
    list occur in the lower-cased text: three matches give the agentic score
    0.6, below the threshold 0.75 of [route]. *)
Theorem X28_auto_agentic_needs_four_keywords :
  forall (prompt : jsstring) (systemPrompt : option jsstring) (maxOutputTokens : Z)
         (opts : RouterOptions) (env : Env) (w : World),
    (estimateTokens prompt systemPrompt
     <= maxTokensForceComplex (overrides (config opts)))%Z ->
    (In RAutoAgentic
        (reasoning (fst (route prompt systemPrompt maxOutputTokens opts env w)))
     <-> (4 <= List.length
                 (Rules.keywordMatches
                    (toLowerCase (Rules.fullText prompt systemPrompt))
                    (agenticTaskKeywords (scoring (config opts)))))%nat).
Proof.
  intros prompt sys maxOut opts env w Hsmall.
  rewrite <- Nat.leb_le, <- agentic_threshold.
  unfold route. cbv zeta. apply Z.ltb_ge in Hsmall. rewrite Hsmall.
  rewrite classify_fields.
  set (rr := fst (Rules.classifyByRules _ _ _ _ _ _ _)).
  set (auto := if Rle_dec 0.75 _ then true else false).
  cbn [fst reasoning selectModel].
  set (adj := adjust _ _ _ _ _).
  set (structured := match Fingerprint.truthy_str sys with
                     | Some s => Regex.test structuredPattern s
                     | None => false
                     end).
  destruct (flag (enableCache opts));
    [destruct (fst (ScoreCache.get (w_cache w) (nowGet env) prompt sys))
       as [[[sc [ct|] cf sg ag] ts hc lt db bn]|]|];
    destruct (Types.tier rr) as [rt|]; cbn [fst snd];
    destruct (structured && _); destruct auto;
    destruct (agenticMode (overrides (config opts))) as [[|]|];
    destruct (flag (enableHealthTracking opts));
    try (destruct (getBestModel (health env) _ _) as [best|]);
    try (destruct (truthyCandidate _ && _));
    rewrite ?in_app_single; simpl;
    intuition (discriminate || congruence).
Qed.


(** X29.  Every call of [route] leaves its traces, also under the
    large-context override.  With the cache enabled, the cache then holds,
    under the fingerprint of the request, an entry stamped with the time of
    the [set], with hit count 1 and with the tier and signals of the
    classifier (not the tier of the decision).  The score history holds,
    under the same fingerprint, the classifier's score and a tier (as long
    as the call does not draw the 1% cleanup). *)
Theorem X29_route_records_every_request :
  forall (prompt : jsstring) (systemPrompt : option jsstring) (maxOutputTokens : Z)
         (opts : RouterOptions) (env : Env) (w : World),
    let fp := Fingerprint.generateFingerprint prompt systemPrompt in
    let w' := snd (route prompt systemPrompt maxOutputTokens opts env w) in
    let rr := ruleResultOf prompt systemPrompt opts env w in
    (flag (enableCache opts) = true ->
     exists c,
       JSMap.get (ScoreCache.cache (w_cache w')) fp = Some c /\
       ScoreCache.timestamp c = nowSet env /\ ScoreCache.hitCount c = 1%nat /\
       Types.tier (ScoreCache.result c) = Types.tier rr /\
       signals (ScoreCache.result c) = signals rr) /\
    (~ rnd env < 0.01 ->
     Rules.lastScore (Rules.getScoreHistory (w_history w') fp) = score rr /\
     Rules.lastTier (Rules.getScoreHistory (w_history w') fp) <> None).
Proof.
  intros prompt sys maxOut opts env w fp w' rr. subst fp.
  destruct (route_world prompt sys maxOut opts env w) as [Hh Hc].
  fold w' in Hh, Hc. split.
  - intros Hon. rewrite Hc. cbv zeta. rewrite Hon.
    eexists. split; [apply CacheExtra.cache_after_set|]. cbn. repeat split.
  - intros Hrnd. rewrite Hh.
    destruct (@RulesExtra.classify_records_tier B prompt sys
                (estimateTokens prompt sys) (scoring (config opts))
                (Fingerprint.generateFingerprint prompt sys)
                (w_history w) (rnd env)
                (CacheProps.getCacheKey_nonempty prompt sys) Hrnd)
      as (H1 & (T & H2 & _) & _).
    split; [exact H1|]. rewrite H2. discriminate.
Qed.

(** X30.  With a steepness that is not negative, the confidence of every
    decision of [route] is at least 1/2, in any state of the cache and of
    the score history. *)
Theorem X30_route_confidence_at_least_half :
  forall (prompt : jsstring) (systemPrompt : option jsstring) (maxOutputTokens : Z)
         (opts : RouterOptions) (env : Env) (w : World),
    0 <= confidenceSteepness (scoring (config opts)) ->
    1 / 2 <= confidence (fst (route prompt systemPrompt maxOutputTokens opts env w)).
Proof.
  intros prompt sys maxOut opts env w Hs.
  destruct (Z_lt_le_dec (maxTokensForceComplex (overrides (config opts)))
              (estimateTokens prompt sys)) as [Hlarge|Hsmall].
  - destruct (route_large prompt sys maxOut opts env w Hlarge) as (_ & Hc & _).
    rewrite Hc. lra.
  - pose proof (route_decision prompt sys maxOut opts env w Hsmall) as H.
    cbv zeta in H.
    destruct (@RulesExtra.classify_confidence_facts B prompt sys
                (estimateTokens prompt sys) (scoring (config opts))
                (Some (Fingerprint.generateFingerprint prompt sys))
                (w_history w) (rnd env) Hs) as [[Hrr _] _].
    fold (ruleResultOf prompt sys opts env w) in Hrr.
    destruct (usableCached prompt sys opts env w) as [[c ct]|].
    + destruct H as [_ ->].
      destruct (_ && _); [|exact Hrr].
      eapply Rle_trans; [|apply Rmax_r]. lra.
    + destruct (Types.tier (ruleResultOf prompt sys opts env w)).
      * destruct H as [_ ->]. exact Hrr.
      * destruct H as [_ ->]. lra.
Qed.

End WithBuiltins.

(** A system prompt that asks for JSON, under the default options. *)
Lemma X26_witness :
  (tierRank (structuredOutputMinTier (overrides (config plainOptions)))
   <= tierRank
        (tier (fst (route (B := asciiBuiltins) (js "hi")
                      (Some (js "Reply in JSON")) 64 plainOptions quietEnv
                      freshWorld))))%nat.
Proof.
  apply (@X26_structured_output_floor asciiBuiltins (js "hi")
           (Some (js "Reply in JSON")) 64 plainOptions quietEnv freshWorld
           (js "Reply in JSON")).
  - reflexivity.
  - discriminate.
  - vm_compute. reflexivity.
  - vm_compute. intro H. discriminate H.
Defined.

(** The first prompt of the two-request scenario, routed without the
    cache. *)
Lemma X27_witness :
  w_cache (snd (route (B := asciiBuiltins) firstPrompt None 64 uncachedOptions
                  quietEnv freshWorld))
  = w_cache freshWorld.
Proof.
  exact (proj1 (@X27_route_without_cache asciiBuiltins firstPrompt None 64
                  uncachedOptions quietEnv freshWorld eq_refl)).
Defined.

Lemma X28_witness :
  In RAutoAgentic
     (reasoning (fst (route (B := asciiBuiltins) firstPrompt None 64 plainOptions
                        quietEnv freshWorld)))
  <-> (4 <= List.length
              (Rules.keywordMatches (B := asciiBuiltins)
                 (@toLowerCase asciiBuiltins (Rules.fullText firstPrompt None))
                 (agenticTaskKeywords (scoring (config plainOptions)))))%nat.
Proof.
  apply (@X28_auto_agentic_needs_four_keywords asciiBuiltins firstPrompt None 64
           plainOptions quietEnv freshWorld).
  vm_compute. intro H. discriminate H.
Defined.

Lemma X30_witness :
  1 / 2 <= confidence (fst (route (B := asciiBuiltins) firstPrompt None 64
                              plainOptions quietEnv freshWorld)).
Proof.
  apply (@X30_route_confidence_at_least_half asciiBuiltins firstPrompt None 64
           plainOptions quietEnv freshWorld).
  simpl. lra.
Defined.

End RouterExtra.
